(** * DML-OpenProblem interactive platform: a model of [app.py]

    The development embeds the non-UI logic of [app.py]: the directory
    scanner, the file loader and saver, the LaTeX delimiter rewrite of the
    renderer, the problem scaffolder and the notebook executor; and, of
    [main], what the pages offer and what the Run Notebook button does.

    Conventions.
    - Paths, directory names and messages are [string]s (the bytes the
      operating system sees); file contents and editor text are [text],
      a list of Unicode code points, so that the UTF-8 codec is explicit.
    - A Python call that may raise returns a [result]; the interpreter
      state the program touches (file system, [sys.modules], [sys.stdout],
      the notifications shown by the UI) is a record passed explicitly.
    - The operating system is POSIX: the separator is [/] and the line
      separator is a single line feed. *)

From Stdlib Require Import String Ascii List NArith ZArith Lia Bool.
From Stdlib Require Import DecimalString DecimalN DecimalPos DecimalFacts.
From Stdlib Require Import Permutation Sorted.
From stdpp Require Import gmap strings list.

Local Open Scope N_scope.

(** * Python values *)
Module Py.

(** Exception classes the program can meet.  [UserException] stands for any
    class deriving from [Exception]; [BaseOnly] for a class deriving from
    [BaseException] only (such as [SystemExit] or [KeyboardInterrupt]). *)
Inductive exc_class : Type :=
  | Exception
  | ImportError
  | FileNotFoundError
  | NotADirectoryError
  | IsADirectoryError
  | FileExistsError
  | UnicodeEncodeError
  | UnicodeDecodeError
  | SyntaxError
  | UserException (name : string)
  | BaseOnly (name : string).

(** An exception object: its class and what [str(e)] returns. *)
Record exn : Type := mkExn { exc_cls : exc_class; exc_str : string }.

(** [isinstance(e, Exception)]: what an [except Exception] clause catches. *)
Definition is_Exception (e : exn) : bool :=
  match exc_cls e with
  | BaseOnly _ => false
  | _ => true
  end.

Inductive result (A : Type) : Type :=
  | Ok (a : A)
  | Raised (e : exn).
Arguments Ok {A} a.
Arguments Raised {A} e.

(** Text: a Python [str] as its list of code points. *)
Definition text : Type := list N.

Definition text_of_string (s : string) : text :=
  map N_of_ascii (list_ascii_of_string s).

(** The text an f-string gives for a non-negative integer [n]. *)
Definition str_of_int (n : N) : string :=
  NilZero.string_of_uint (N.to_uint n).

(** [s.replace(old, new)] for one-character [old] and [new]. *)
Fixpoint replace_char (old new : ascii) (s : string) : string :=
  match s with
  | EmptyString => EmptyString
  | String c r =>
      String (if Ascii.eqb c old then new else c) (replace_char old new r)
  end.

Definition startswith_char (s : string) (c : ascii) : bool :=
  match s with
  | String a _ => Ascii.eqb a c
  | EmptyString => false
  end.

Fixpoint endswith_char (s : string) (c : ascii) : bool :=
  match s with
  | EmptyString => false
  | String a EmptyString => Ascii.eqb a c
  | String _ r => endswith_char r c
  end.

(** [s.endswith(suffix)] *)
Definition endswith (s suffix : string) : bool :=
  let n := String.length s in
  let m := String.length suffix in
  (m <=? n)%nat && String.eqb (String.substring (n - m) m s) suffix.

(** ** Decimal digits *)

(** The digit zero of every script that has decimal digits, in Unicode 14.0
    (the character data of Python 3.11); each is followed by the digits one
    to nine of its script. *)
Definition decimal_zeros : list N :=
  [ 0x30; 0x660; 0x6F0; 0x7C0; 0x966; 0x9E6; 0xA66; 0xAE6;
    0xB66; 0xBE6; 0xC66; 0xCE6; 0xD66; 0xDE6; 0xE50; 0xED0;
    0xF20; 0x1040; 0x1090; 0x17E0; 0x1810; 0x1946; 0x19D0; 0x1A80;
    0x1A90; 0x1B50; 0x1BB0; 0x1C40; 0x1C50; 0xA620; 0xA8D0; 0xA900;
    0xA9D0; 0xA9F0; 0xAA50; 0xABF0; 0xFF10; 0x104A0; 0x10D30; 0x11066;
    0x110F0; 0x11136; 0x111D0; 0x112F0; 0x11450; 0x114D0; 0x11650; 0x116C0;
    0x11730; 0x118E0; 0x11950; 0x11C50; 0x11D50; 0x11DA0; 0x16A60; 0x16AC0;
    0x16B50; 0x1D7CE; 0x1D7D8; 0x1D7E2; 0x1D7EC; 0x1D7F6; 0x1E140; 0x1E2F0;
    0x1E950; 0x1FBF0 ].

Fixpoint to_decimal_in (zeros : list N) (c : N) : option N :=
  match zeros with
  | [] => None
  | z :: r =>
      if (z <=? c) && (c <? z + 10) then Some (c - z) else to_decimal_in r c
  end.

(** [Py_UNICODE_TODECIMAL]: the value of the character [c] as a decimal
    digit, if it is one.  The class [\d] of [re] (on [str] patterns) and
    [int] both go by it. *)
Definition to_decimal (c : N) : option N := to_decimal_in decimal_zeros c.

End Py.
Import Py.

(** * The file system, as the [os] and [open] calls of the program see it *)
Module FS.

(** A canonical location: the component names from the root downwards. *)
Definition path : Type := list string.

Inductive node : Type :=
  | File (data : list N)
  | Dir.

(** The entries in enumeration order: [os.listdir] reports the children of a
    directory in the order they occur here.  The root always exists. *)
Definition filesystem : Type := list (path * node).

Global Instance node_eq_dec : EqDecision node.
Proof. solve_decision. Defined.

Fixpoint fs_lookup (fs : filesystem) (q : path) : option node :=
  match fs with
  | [] => None
  | (k, n) :: r => if decide (k = q) then Some n else fs_lookup r q
  end.

(** Replace the node at [q] in place, or add it as the last entry. *)
Fixpoint fs_update (fs : filesystem) (q : path) (n : node) : filesystem :=
  match fs with
  | [] => [(q, n)]
  | (k, m) :: r =>
      if decide (k = q) then (k, n) :: r else (k, m) :: fs_update r q n
  end.

Definition is_dir (fs : filesystem) (q : path) : bool :=
  match q with
  | [] => true
  | _ => match fs_lookup fs q with
         | Some Dir => true
         | _ => false
         end
  end.

(** Splitting a path string at every [/]. *)
Fixpoint split_sep (s : string) : list string :=
  match s with
  | EmptyString => [EmptyString]
  | String c r =>
      if Ascii.eqb c "/" then EmptyString :: split_sep r
      else match split_sep r with
           | h :: t => String c h :: t
           | [] => [String c EmptyString]
           end
  end.

(** One component further from [cur]: empty and [.] stay, [..] goes up. *)
Definition step (cur : path) (c : string) : path :=
  if decide (c = "") then cur
  else if decide (c = ".") then cur
  else if decide (c = "..") then removelast cur
  else cur ++ [c].

(** Following components from [cur]; the location left must be a directory
    at every step, the location reached may be anything or nothing. *)
Fixpoint walk (fs : filesystem) (cur : path) (comps : list string)
  : option path :=
  match comps with
  | [] => Some cur
  | c :: rest => if is_dir fs cur then walk fs (step cur c) rest else None
  end.

(** Where a path string leads, from the working directory [cwd] or, with a
    leading separator, from the root.  The empty string leads nowhere. *)
Definition start_of (cwd : path) (p : string) : path :=
  if startswith_char p "/" then [] else cwd.

Definition resolve (fs : filesystem) (cwd : path) (p : string) : option path :=
  if decide (p = "") then None
  else walk fs (start_of cwd p) (split_sep p).

(** [os.path.join(a, b)] of [posixpath]. *)
Definition os_path_join (a b : string) : string :=
  if startswith_char b "/" then b
  else if decide (a = "") then b
  else if endswith_char a "/" then a +:+ b
  else a +:+ "/" +:+ b.

(** The description of an [OSError]: [[Errno n] message: 'filename']. *)
Definition os_error (c : exc_class) (errno msg p : string) : exn :=
  mkExn c ("[Errno " +:+ errno +:+ "] " +:+ msg +:+ ": '" +:+ p +:+ "'").

Definition ENOENT (p : string) : exn :=
  os_error FileNotFoundError "2" "No such file or directory" p.
Definition ENOTDIR (p : string) : exn :=
  os_error NotADirectoryError "20" "Not a directory" p.
Definition EISDIR (p : string) : exn :=
  os_error IsADirectoryError "21" "Is a directory" p.
Definition EEXIST (p : string) : exn :=
  os_error FileExistsError "17" "File exists" p.

(** The error of a call on a path that leads nowhere: [ENOTDIR] when a
    regular file stands where the walk needs a directory, [ENOENT] when
    nothing does. *)
Fixpoint walk_error (fs : filesystem) (cur : path) (comps : list string)
  (p : string) : exn :=
  match comps with
  | [] => ENOENT p
  | c :: rest =>
      if is_dir fs cur then walk_error fs (step cur c) rest p
      else match fs_lookup fs cur with
           | Some _ => ENOTDIR p
           | None => ENOENT p
           end
  end.

Definition resolve_error (fs : filesystem) (cwd : path) (p : string) : exn :=
  if decide (p = "") then ENOENT p
  else walk_error fs (start_of cwd p) (split_sep p) p.

(** [os.path.isdir(p)] *)
Definition os_path_isdir (fs : filesystem) (cwd : path) (p : string) : bool :=
  match resolve fs cwd p with
  | Some q => is_dir fs q
  | None => false
  end.

(** The name of entry [k] when it lies directly in directory [q]. *)
Definition child_name (q k : path) : option string :=
  match last k with
  | Some name => if decide (removelast k = q) then Some name else None
  | None => None
  end.

(** [os.listdir(p)] *)
Definition os_listdir (fs : filesystem) (cwd : path) (p : string)
  : result (list string) :=
  match resolve fs cwd p with
  | None => Raised (resolve_error fs cwd p)
  | Some q =>
      if is_dir fs q then Ok (omap (fun e => child_name q (fst e)) fs)
      else match fs_lookup fs q with
           | Some _ => Raised (ENOTDIR p)
           | None => Raised (ENOENT p)
           end
  end.

(** [open(p, 'w')]: the file is created, or emptied, when it is opened. *)
Definition open_w (fs : filesystem) (cwd : path) (p : string)
  : result (path * filesystem) :=
  match resolve fs cwd p with
  | None => Raised (resolve_error fs cwd p)
  | Some q =>
      if is_dir fs q then Raised (EISDIR p)
      else Ok (q, fs_update fs q (File []))
  end.

(** [open(p, 'r')] followed by reading every byte. *)
Definition read_bytes (fs : filesystem) (cwd : path) (p : string)
  : result (list N) :=
  match resolve fs cwd p with
  | None => Raised (resolve_error fs cwd p)
  | Some q =>
      if is_dir fs q then Raised (EISDIR p)
      else match fs_lookup fs q with
           | Some (File data) => Ok data
           | _ => Raised (ENOENT p)
           end
  end.

(** [os.makedirs(p, exist_ok=True)]: every missing directory on the way is
    created; a directory already there is accepted, a file is an error.
    (The error names the path of the call; Python names the directory it
    could not make, which is the same unless the name holds a separator.) *)
Fixpoint makedirs_from (fs : filesystem) (cur : path) (comps : list string)
  (p : string) : result filesystem :=
  match comps with
  | [] => Ok fs
  | c :: rest =>
      let nxt := step cur c in
      if is_dir fs nxt then makedirs_from fs nxt rest p
      else match fs_lookup fs nxt with
           | Some _ =>
               Raised (match rest with [] => EEXIST p | _ => ENOTDIR p end)
           | None => makedirs_from (fs_update fs nxt Dir) nxt rest p
           end
  end.

Definition os_makedirs (fs : filesystem) (cwd : path) (p : string)
  : result filesystem :=
  if decide (p = "") then Raised (ENOENT p)
  else if is_dir fs (start_of cwd p)
  then makedirs_from fs (start_of cwd p) (split_sep p) p
  else Raised (ENOENT p).

(** What a call of [os.makedirs] that fails leaves behind: the directories
    it made before the step that failed stay. *)
Fixpoint makedirs_left (fs : filesystem) (cur : path) (comps : list string)
  : filesystem :=
  match comps with
  | [] => fs
  | c :: rest =>
      let nxt := step cur c in
      if is_dir fs nxt then makedirs_left fs nxt rest
      else match fs_lookup fs nxt with
           | Some _ => fs
           | None => makedirs_left (fs_update fs nxt Dir) nxt rest
           end
  end.

Definition os_makedirs_left (fs : filesystem) (cwd : path) (p : string)
  : filesystem :=
  if decide (p = "") then fs
  else if is_dir fs (start_of cwd p)
  then makedirs_left fs (start_of cwd p) (split_sep p)
  else fs.

End FS.

(** * The UTF-8 codec and the newline handling of text-mode files *)
Module Utf8.

Definition is_surrogate (c : N) : bool := (0xD800 <=? c) && (c <? 0xE000).

Definition is_cont (b : N) : bool := (0x80 <=? b) && (b <? 0xC0).

(** The bytes of one code point; [None] is a [UnicodeEncodeError] (a lone
    surrogate) or a value that is no code point at all. *)
Definition encode_cp (c : N) : option (list N) :=
  if c <? 0x80 then Some [c]
  else if c <? 0x800 then Some [0xC0 + c / 64; 0x80 + c mod 64]
  else if c <? 0x10000 then
    if is_surrogate c then None
    else Some [0xE0 + c / 4096; 0x80 + (c / 64) mod 64; 0x80 + c mod 64]
  else if c <? 0x110000 then
    Some [0xF0 + c / 262144; 0x80 + (c / 4096) mod 64;
          0x80 + (c / 64) mod 64; 0x80 + c mod 64]
  else None.

(** [t.encode('utf-8')] *)
Fixpoint encode (t : text) : option (list N) :=
  match t with
  | [] => Some []
  | c :: r =>
      match encode_cp c, encode r with
      | Some bs, Some rest => Some (bs ++ rest)
      | _, _ => None
      end
  end.

(** [bs.decode('utf-8')], strict: [None] is a [UnicodeDecodeError].  Overlong
    forms, surrogates and values above U+10FFFF are rejected. *)
Fixpoint decode (bs : list N) : option text :=
  match bs with
  | [] => Some []
  | b0 :: r0 =>
      if b0 <? 0x80 then cons b0 <$> decode r0
      else if b0 <? 0xC2 then None
      else if b0 <? 0xE0 then
        match r0 with
        | b1 :: r1 =>
            if is_cont b1
            then cons ((b0 - 0xC0) * 64 + (b1 - 0x80)) <$> decode r1
            else None
        | _ => None
        end
      else if b0 <? 0xF0 then
        match r0 with
        | b1 :: b2 :: r2 =>
            let c := (b0 - 0xE0) * 4096 + (b1 - 0x80) * 64 + (b2 - 0x80) in
            if is_cont b1 && is_cont b2 && (0x800 <=? c)
               && negb (is_surrogate c)
            then cons c <$> decode r2
            else None
        | _ => None
        end
      else if b0 <? 0xF5 then
        match r0 with
        | b1 :: b2 :: b3 :: r3 =>
            let c := (b0 - 0xF0) * 262144 + (b1 - 0x80) * 4096
                     + (b2 - 0x80) * 64 + (b3 - 0x80) in
            if is_cont b1 && is_cont b2 && is_cont b3
               && (0x10000 <=? c) && (c <? 0x110000)
            then cons c <$> decode r3
            else None
        | _ => None
        end
      else None
  end.

(** Reading with [newline=None]: every [\r\n] and every other [\r] comes
    back as [\n].  (Writing turns [\n] into the line separator, which is
    [\n] itself here.) *)
Fixpoint universal_newlines (t : text) : text :=
  match t with
  | [] => []
  | c :: r =>
      if c =? 13 then
        match r with
        | d :: r' =>
            if d =? 10 then 10 :: universal_newlines r'
            else 10 :: universal_newlines r
        | [] => [10]
        end
      else c :: universal_newlines r
  end.

(** [bs.decode('utf-8', 'surrogateescape')]: as [decode], but a byte that
    starts no well-formed sequence comes back as the lone surrogate
    U+DC00 + byte, and decoding goes on with the next byte. *)
Fixpoint decode_escape (bs : list N) : text :=
  match bs with
  | [] => []
  | b0 :: r0 =>
      let escaped := (0xDC00 + b0) :: decode_escape r0 in
      if b0 <? 0x80 then b0 :: decode_escape r0
      else if b0 <? 0xC2 then escaped
      else if b0 <? 0xE0 then
        match r0 with
        | b1 :: r1 =>
            if is_cont b1
            then ((b0 - 0xC0) * 64 + (b1 - 0x80)) :: decode_escape r1
            else escaped
        | _ => escaped
        end
      else if b0 <? 0xF0 then
        match r0 with
        | b1 :: b2 :: r2 =>
            let c := (b0 - 0xE0) * 4096 + (b1 - 0x80) * 64 + (b2 - 0x80) in
            if is_cont b1 && is_cont b2 && (0x800 <=? c)
               && negb (is_surrogate c)
            then c :: decode_escape r2
            else escaped
        | _ => escaped
        end
      else if b0 <? 0xF5 then
        match r0 with
        | b1 :: b2 :: b3 :: r3 =>
            let c := (b0 - 0xF0) * 262144 + (b1 - 0x80) * 4096
                     + (b2 - 0x80) * 64 + (b3 - 0x80) in
            if is_cont b1 && is_cont b2 && is_cont b3
               && (0x10000 <=? c) && (c <? 0x110000)
            then c :: decode_escape r3
            else escaped
        | _ => escaped
        end
      else escaped
  end.

(** [os.fsdecode(name)]: the [str] Python makes of the bytes of a file
    name, which is what [os.listdir] returns. *)
Definition os_fsdecode (name : string) : text :=
  decode_escape (text_of_string name).

End Utf8.

(** * The directory scanner's sort key and Python's [sorted] *)
Module Scan.
Import Utf8.

(** The value of [get_number]: an [int], or [float('inf')]. *)
Inductive key : Type :=
  | KInt (n : N)
  | KInf.

(** Python's [<] between two such keys: integers compare exactly, every
    integer is below infinity, infinity is not below itself. *)
Definition key_ltb (a b : key) : bool :=
  match a, b with
  | KInt x, KInt y => x <? y
  | KInt _, KInf => true
  | KInf, _ => false
  end.

Definition key_le (a b : key) : Prop := key_ltb b a = false.

Global Instance key_eq_dec : EqDecision key.
Proof. solve_decision. Defined.

(** The class [\d]: the decimal digits of every script. *)
Definition is_digit (c : N) : bool :=
  match to_decimal c with
  | Some _ => true
  | None => false
  end.

Definition digit_value (c : N) : N := default 0 (to_decimal c).

(** The longest run of digits at the start of [s], and what follows it. *)
Fixpoint span_digits (s : text) : text * text :=
  match s with
  | [] => ([], [])
  | c :: r =>
      if is_digit c
      then let '(ds, rest) := span_digits r in (c :: ds, rest)
      else ([], s)
  end.

(** [re.match(r'(\d+)_', dirname)]: the greedy digit run must be non-empty and
    be followed at once by an underscore (giving digits back cannot help, the
    next character would be a digit).  The result is group 1. *)
Definition re_match_number (dirname : text) : option text :=
  match span_digits dirname with
  | (d :: ds, c :: _) => if c =? 95 then Some (d :: ds) else None
  | _ => None
  end.

(** [int(digits)], for a string of decimal digits.  (Python refuses more
    than 4300 digits; no file name is that long.) *)
Fixpoint int_of_digits_from (acc : N) (ds : text) : N :=
  match ds with
  | [] => acc
  | c :: r => int_of_digits_from (10 * acc + digit_value c) r
  end.

Definition int_of_digits (ds : text) : N := int_of_digits_from 0 ds.

(** [get_number], on a name as the listing gives it.  The name is a [str]
    in Python: the bytes of the entry, decoded as [os.listdir] does. *)
Definition get_number (dirname : string) : key :=
  match re_match_number (os_fsdecode dirname) with
  | Some g => KInt (int_of_digits g)
  | None => KInf
  end.

(** Python's [sorted(l, key=f)] is a stable sort that compares keys with [<]
    only.  Its result is determined by that contract; it is computed here by
    insertion, an element going in front of the first one whose key is not
    below its own. *)
Section Sorted.
Context {A : Type} (f : A -> key).

Fixpoint insert_by (x : A) (l : list A) : list A :=
  match l with
  | [] => [x]
  | y :: r => if key_ltb (f y) (f x) then y :: insert_by x r else x :: y :: r
  end.

Definition sorted (l : list A) : list A := fold_right insert_by [] l.
End Sorted.

End Scan.

(** * The program *)
Module App.
Import Scan FS Utf8.

(** ** Interpreter state and the monad of effects *)

Inductive loader : Type :=
  | SourceFileLoader
  | SourcelessFileLoader
  | ExtensionFileLoader.

Record ModuleSpec : Type := mkSpec {
  spec_name : string;
  spec_origin : string;
  spec_loader : option loader
}.

Record PyModule : Type := mkModule {
  mod_name : string;
  mod_file : string
}.

(** What the UI shows: [st.success(msg)] and [st.error(msg)]. *)
Inductive note : Type :=
  | st_success (msg : string)
  | st_error (msg : string).

Record State : Type := mkState {
  st_fs : filesystem;
  st_cwd : path;
  sys_modules : gmap string PyModule;
  sys_stdout : string;          (* what the stream installed as sys.stdout holds *)
  st_notes : list note
}.

Definition set_fs (fs : filesystem) (st : State) : State :=
  mkState fs (st_cwd st) (sys_modules st) (sys_stdout st) (st_notes st).
Definition set_modules (m : gmap string PyModule) (st : State) : State :=
  mkState (st_fs st) (st_cwd st) m (sys_stdout st) (st_notes st).
Definition set_stdout (out : string) (st : State) : State :=
  mkState (st_fs st) (st_cwd st) (sys_modules st) out (st_notes st).
Definition add_note (n : note) (st : State) : State :=
  mkState (st_fs st) (st_cwd st) (sys_modules st) (sys_stdout st)
    (st_notes st ++ [n]).

(** A computation: from a state to a value or a raised exception, and the
    state left behind in both cases. *)
Definition M (A : Type) : Type := State -> result A * State.

Definition ret {A} (a : A) : M A := fun st => (Ok a, st).
Definition raise {A} (e : exn) : M A := fun st => (Raised e, st).
Definition bind {A B} (m : M A) (k : A -> M B) : M B :=
  fun st =>
    match m st with
    | (Ok a, st') => k a st'
    | (Raised e, st') => (Raised e, st')
    end.

Notation "x <- m ;; k" := (bind m (fun x => k))
  (at level 100, m at next level, right associativity).
Notation "m ;;; k" := (bind m (fun _ => k))
  (at level 100, right associativity).

(** [try: body  except Exception as e: handler(e)] *)
Definition try_except {A} (body : M A) (handler : exn -> M A) : M A :=
  fun st =>
    match body st with
    | (Raised e, st') =>
        if is_Exception e then handler e st' else (Raised e, st')
    | ok => ok
    end.

Definition get {A} (f : State -> A) : M A := fun st => (Ok (f st), st).
Definition modify (f : State -> State) : M unit := fun st => (Ok tt, f st).
(** A call that only reads the state. *)
Definition lift {A} (f : State -> result A) : M A := fun st => (f st, st).

Definition st_success_ (msg : string) : M unit := modify (add_note (st_success msg)).
Definition st_error_ (msg : string) : M unit := modify (add_note (st_error msg)).

(** ** Constants *)
Definition PROBLEMS_DIR : string := "Problems".

Definition nl : string := String "010" EmptyString.

(** ** Directory scanner *)
Definition get_problem_directories : M (list string) :=
  names <- lift (fun st => os_listdir (st_fs st) (st_cwd st) PROBLEMS_DIR) ;;
  problem_dirs <- get (fun st =>
      filter (fun d => Is_true (os_path_isdir (st_fs st) (st_cwd st)
                                  (os_path_join PROBLEMS_DIR d))) names) ;;
  ret (sorted get_number problem_dirs).

(** ** File loader and saver *)

(** The two errors of the codec.  Their class and the start of their
    description are Python's; the rest of the description is a summary,
    where Python names the offending character or byte, its position and
    the reason. *)
Definition encode_error : exn :=
  mkExn UnicodeEncodeError
    "'utf-8' codec can't encode character: surrogates not allowed".
Definition decode_error : exn :=
  mkExn UnicodeDecodeError "'utf-8' codec can't decode byte: invalid data".

(** [os.makedirs(p, exist_ok=True)], as a call on the state. *)
Definition makedirs (p : string) : M unit :=
  fun st =>
    match os_makedirs (st_fs st) (st_cwd st) p with
    | Ok fs' => (Ok tt, set_fs fs' st)
    | Raised e =>
        (Raised e, set_fs (os_makedirs_left (st_fs st) (st_cwd st) p) st)
    end.

(** [with open(p, 'w', encoding='utf-8') as f: f.write(content)] *)
Definition write_text (p : string) (content : text) : M unit :=
  fun st =>
    match open_w (st_fs st) (st_cwd st) p with
    | Raised e => (Raised e, st)
    | Ok (q, fs1) =>
        match encode content with
        | None => (Raised encode_error, set_fs fs1 st)
        | Some bs => (Ok tt, set_fs (fs_update fs1 q (File bs)) st)
        end
    end.

(** [with open(p, 'r', encoding='utf-8') as f: return f.read()] *)
Definition read_text (p : string) : M text :=
  fun st =>
    match read_bytes (st_fs st) (st_cwd st) p with
    | Raised e => (Raised e, st)
    | Ok bs =>
        match decode bs with
        | None => (Raised decode_error, st)
        | Some t => (Ok (universal_newlines t), st)
        end
    end.

Definition load_file_content (file_path : string) : M text :=
  try_except (read_text file_path)
    (fun e => st_error_ ("Error loading file: " +:+ exc_str e) ;;; ret []).

Definition save_file_content (file_path : string) (content : text) : M unit :=
  try_except
    (write_text file_path content ;;;
     st_success_ ("Successfully saved changes to " +:+ file_path))
    (fun e => st_error_ ("Error saving file: " +:+ exc_str e)).

(** ** Problem scaffolder *)
Definition learn_md_template : string :=
  "# Problem Description" +:+ nl +:+ nl +:+ "## Overview" +:+ nl +:+ nl
  +:+ "## Examples" +:+ nl.

Definition solution_py_template : string :=
  "def solution():" +:+ nl +:+ "    pass" +:+ nl +:+ nl +:+ "# Test cases" +:+ nl.

Definition dir_name_of (problem_number : N) (problem_name : string) : string :=
  str_of_int problem_number +:+ "_" +:+ replace_char " " "_" problem_name.

(** The body of [create_new_problem] once the widgets have been read:
    [button] is what the Create Problem button returned.  The two files are
    opened with the default encoding; the templates are ASCII, so their
    bytes are the same under any encoding that extends ASCII. *)
Definition create_new_problem (problem_number : N) (problem_name : string)
  (button : bool) : M unit :=
  if button then
    if negb (problem_number =? 0) && negb (String.eqb problem_name "") then
      let dir_name := dir_name_of problem_number problem_name in
      let problem_path := os_path_join PROBLEMS_DIR dir_name in
      try_except
        (makedirs problem_path ;;;
         write_text (os_path_join problem_path "learn.md")
           (text_of_string learn_md_template) ;;;
         write_text (os_path_join problem_path "solution.py")
           (text_of_string solution_py_template) ;;;
         st_success_ ("Created new problem: " +:+ dir_name))
        (fun e => st_error_ ("Error creating problem: " +:+ exc_str e))
    else ret tt
  else ret tt.

(** ** Content renderer *)

(** [re.sub(r'\\\X', repl, content)] for a bracket character [X]: every
    backslash directly followed by [X] is replaced, scanning from the left. *)
Fixpoint re_sub_escaped (bracket : N) (repl : text) (content : text) : text :=
  match content with
  | [] => []
  | a :: r =>
      match r with
      | b :: r' =>
          if (a =? 92) && (b =? bracket)
          then repl ++ re_sub_escaped bracket repl r'
          else a :: re_sub_escaped bracket repl r
      | [] => [a]
      end
  end.

(** The four substitutions, in the order of the source. *)
Definition replace_delimiters (content : text) : text :=
  let content := re_sub_escaped 40 [36] content in
  let content := re_sub_escaped 41 [36] content in
  let content := re_sub_escaped 91 [36; 36] content in
  let content := re_sub_escaped 93 [36; 36] content in
  content.

Definition dq : string := String "034" EmptyString.

Fixpoint unlines (ls : list string) : string :=
  match ls with
  | [] => EmptyString
  | l :: r => l +:+ nl +:+ unlines r
  end.

(** The text of the f-string before and after [{content}]. *)
Definition html_before : text :=
  text_of_string (unlines
    [ "";
      "        <div style=" +:+ dq +:+ "padding: 20px;" +:+ dq +:+ ">" ]
    +:+ "            ").

Definition html_after : text :=
  text_of_string (unlines
    [ "";
      "        </div>";
      "        <script>";
      "            window.MathJax = {";
      "                tex: {";
      "                    inlineMath: [['$', '$'], ['\\(', '\\)']],";
      "                    displayMath: [['$$', '$$'], ['\\[', '\\]']]";
      "                },";
      "                svg: {";
      "                    fontCache: 'global'";
      "                }";
      "            };";
      "        </script>";
      "        <script src=" +:+ dq
        +:+ "https://cdn.jsdelivr.net/npm/mathjax@3/es5/tex-mml-chtml.js"
        +:+ dq +:+ "></script>" ]
    +:+ "        ").

(** What is handed to [components.html]. *)
Record HtmlComponent : Type := mkHtml {
  html : text;
  height : N;
  scrolling : bool
}.

Section Renderer.
(** [markdown.markdown] of the third-party [markdown] package. *)
Variable markdown : text -> text.

(** The content as it is embedded in the page: converted when the tag is
    [.md], then rewritten. *)
Definition rendered_content (content : text) (file_ext : string) : text :=
  let content :=
    if String.eqb file_ext ".md" then markdown content else content in
  replace_delimiters content.

Definition render_math_content (content : text) (file_ext : string)
  : HtmlComponent :=
  mkHtml (html_before ++ rendered_content content file_ext ++ html_after)
    600 true.
End Renderer.

(** ** Notebook executor *)

(** A script is modelled by what its top-level code does that the executor
    can observe: it writes to [sys.stdout] and it may raise.  Scripts that
    reach into the interpreter ([sys.modules], [sys.stdout] itself) or that
    never end are outside the model. *)
Inductive stmt : Type :=
  | Print (s : string)      (* print(s) *)
  | Write (s : string)      (* sys.stdout.write(s) *)
  | Raise (e : exn).        (* raise e *)

Fixpoint run_script (prog : list stmt) : M unit :=
  match prog with
  | [] => ret tt
  | Print s :: r =>
      modify (fun st => set_stdout (sys_stdout st +:+ s +:+ nl) st) ;;;
      run_script r
  | Write s :: r =>
      modify (fun st => set_stdout (sys_stdout st +:+ s) st) ;;;
      run_script r
  | Raise e :: _ => raise e
  end.

(** [importlib.util.spec_from_file_location(name, location)]: a loader is
    picked by the suffix of the location, and there is no spec without one.
    The location is kept as given.  (Recent versions of Python first make a
    relative location absolute; that shows in the [__file__] of the module
    and in the path a load error names, and nowhere else.) *)
Definition spec_from_file_location (name location : string)
  : option ModuleSpec :=
  if endswith location ".so"
  then Some (mkSpec name location (Some ExtensionFileLoader))
  else if endswith location ".py"
  then Some (mkSpec name location (Some SourceFileLoader))
  else if endswith location ".pyc"
  then Some (mkSpec name location (Some SourcelessFileLoader))
  else None.

(** The with block [with contextlib.redirect_stdout(buffer): body], together
    with the value the local [buffer] holds when the block is left, be it
    normally or by an exception; [sys.stdout] is put back in both cases. *)
Definition redirect_stdout {A} (buffer : string) (body : M A)
  : M (result A * string) :=
  fun st =>
    let old := sys_stdout st in
    let '(r, st') := body (set_stdout buffer st) in
    (Ok (r, sys_stdout st'), set_stdout old st').

Section Executor.
(** What Python makes of a file's bytes under a loader: an error raised
    while the code is obtained (a [SyntaxError], say), or the script.  The
    byte-code cache is left out: a source loader may also write
    [__pycache__/<name>.pyc] beside the file it has compiled, which changes
    neither the script nor what it prints. *)
Variable get_code : loader -> list N -> exn + list stmt.

Definition load_code (l : loader) (origin : string) : M (list stmt) :=
  bs <- lift (fun st => read_bytes (st_fs st) (st_cwd st) origin) ;;
  match get_code l bs with
  | inl e => raise e
  | inr prog => ret prog
  end.

(** [importlib.util.module_from_spec(spec)].  Only an extension module is
    loaded at this point, and its failure is an [ImportError]. *)
Definition module_from_spec (spec : ModuleSpec) : M PyModule :=
  let module := mkModule (spec_name spec) (spec_origin spec) in
  match spec_loader spec with
  | Some ExtensionFileLoader =>
      fun st =>
        match load_code ExtensionFileLoader (spec_origin spec) st with
        | (Ok _, _) => (Ok module, st)
        | (Raised e, _) => (Raised (mkExn ImportError (exc_str e)), st)
        end
  | _ => ret module
  end.

(** [loader.exec_module(module)] *)
Definition exec_module (l : loader) (module : PyModule) : M unit :=
  prog <- load_code l (mod_file module) ;;
  run_script prog.

Definition execute_notebook (notebook_path : string) : M string :=
  try_except
    (spec <- match spec_from_file_location "notebook_module" notebook_path with
             | None =>
                 raise (mkExn ImportError
                          ("Could not load spec for " +:+ notebook_path))
             | Some spec => ret spec
             end ;;
     module <- module_from_spec spec ;;
     l <- match spec_loader spec with
          | None =>
              raise (mkExn ImportError
                       ("Could not load module for " +:+ notebook_path))
          | Some l => ret l
          end ;;
     modify (fun st =>
       set_modules (<["notebook_module" := module]> (sys_modules st)) st) ;;;
     let buffer := "" in
     rb <- redirect_stdout buffer (exec_module l module) ;;
     match fst rb with
     | Raised e => raise e
     | Ok _ => ret (snd rb)
     end)
    (fun e =>
       raise (mkExn Exception ("Error executing notebook: " +:+ exc_str e))).
End Executor.

End App.

(** * Notions used to state the properties *)
Module Props.
Import Scan FS Utf8 App.

(** [c] is the decimal digit of value [v] in some script. *)
Definition decimal_digit (c v : N) : Prop :=
  exists z, In z decimal_zeros /\ v < 10 /\ c = z + v.

(** The number that the digits of values [vs] write, the most significant
    first. *)
Fixpoint number_of (vs : list N) : N :=
  match vs with
  | [] => 0
  | v :: r => v * 10 ^ N.of_nat (length r) + number_of r
  end.

(** [d] starts with the integer [n] written in decimal digits, then an
    underscore: the names matching [^\d+_], read as Python reads the name. *)
Definition numbered (d : string) (n : N) : Prop :=
  exists cs vs rest,
    os_fsdecode d = cs ++ 95 :: rest /\ cs <> []
    /\ Forall2 decimal_digit cs vs /\ number_of vs = n.

(** [ds] is the decimal numeral of [n]: ASCII digits that write [n], with no
    zero in front unless the numeral is [0] itself. *)
Definition decimal_numeral (ds : string) (n : N) : Prop :=
  exists vs,
    Forall2 (fun c v => v < 10 /\ N_of_ascii c = 48 + v)
      (list_ascii_of_string ds) vs
    /\ vs <> [] /\ (vs = [0] \/ head vs <> Some 0)
    /\ number_of vs = n.

Definition unnumbered (d : string) : Prop := forall n, ~ numbered d n.

(** Order of two elements by their keys. *)
Definition le_by {A} (f : A -> key) (a b : A) : Prop := key_le (f a) (f b).

(** [s] occurs in [t]. *)
Definition occurs {A} (s t : list A) : Prop := exists a b, t = a ++ s ++ b.

(** [x] directly followed by [y] somewhere in [l]. *)
Fixpoint has_pair (x y : N) (l : text) : bool :=
  match l with
  | [] => false
  | a :: r =>
      match r with
      | b :: _ => ((a =? x) && (b =? y)) || has_pair x y r
      | [] => false
      end
  end.

(** The four delimiters the renderer rewrites, as code points. *)
Definition delimiters : list text :=
  [ [92; 40]; [92; 41]; [92; 91]; [92; 93] ].

Definition delimiter_free (t : text) : Prop :=
  forall d, d ∈ delimiters -> ~ occurs d t.

(** A code point UTF-8 can encode: below 0x110000 and no surrogate. *)
Definition scalar (c : N) : Prop := c < 0x110000 /\ is_surrogate c = false.

(** What a script has written when its top-level code ends or raises. *)
Fixpoint script_output (prog : list stmt) : string :=
  match prog with
  | [] => ""
  | Print s :: r => s +:+ nl +:+ script_output r
  | Write s :: r => s +:+ script_output r
  | Raise _ :: _ => ""
  end.

(** The exception that ends the top-level code, if any. *)
Fixpoint script_error (prog : list stmt) : option exn :=
  match prog with
  | [] => None
  | Raise e :: _ => Some e
  | _ :: r => script_error r
  end.

(** The file at [notebook_path] is given loader [l], can be read, and its
    top-level code is [prog]. *)
Definition loads_as (get_code : loader -> list N -> exn + list stmt)
  (st : State) (notebook_path : string) (l : loader) (prog : list stmt) : Prop :=
  spec_from_file_location "notebook_module" notebook_path
  = Some (mkSpec "notebook_module" notebook_path (Some l))
  /\ exists bs,
       read_bytes (st_fs st) (st_cwd st) notebook_path = Ok bs
       /\ get_code l bs = inr prog.

(** The registry after [sys.modules[notebook_module] = m]. *)
Definition register (m : PyModule) (st : State) : State :=
  set_modules (<["notebook_module" := m]> (sys_modules st)) st.

(** The error the handler of [execute_notebook] raises for [e]. *)
Definition wrapped (e : exn) : exn :=
  mkExn Exception ("Error executing notebook: " +:+ exc_str e).

(** [s] holds a separator. *)
Fixpoint has_sep (s : string) : bool :=
  match s with
  | EmptyString => false
  | String c r => Ascii.eqb c "/" || has_sep r
  end.

(** A plain entry name: not empty, no separator, neither [.] nor [..]. *)
Definition plain_name (s : string) : Prop :=
  has_sep s = false /\ s <> "" /\ s <> "." /\ s <> "..".

(** The file system with a directory at [k], made if there is none. *)
Definition ensure_dir (fs : filesystem) (k : path) : filesystem :=
  if is_dir fs k then fs else fs_update fs k Dir.

(** The bytes the scaffolder writes. *)
Definition learn_md_bytes : list N := text_of_string learn_md_template.
Definition solution_py_bytes : list N := text_of_string solution_py_template.

(** The file system once both templates have been written in directory [q]. *)
Definition scaffolded (fs1 : filesystem) (q : path) : filesystem :=
  fs_update (fs_update fs1 (q ++ ["learn.md"]) (File learn_md_bytes))
    (q ++ ["solution.py"]) (File solution_py_bytes).

(** What [execute_notebook] makes of the with block once it is left: the
    buffer on success, the error otherwise, wrapped if the handler catches
    it. *)
Definition after_block (rb : result (result unit * string) * State)
  : result string * State :=
  match rb with
  | (Ok (Ok _, buffer), st') => (Ok buffer, st')
  | (Ok (Raised e, _), st') =>
      (Raised (if is_Exception e then wrapped e else e), st')
  | (Raised e, st') => (Raised e, st')
  end.

(** [p] can be opened for writing: it leads somewhere, through directories
    only, and no directory stands there. *)
Definition writable (st : State) (p : string) : Prop :=
  exists q,
    resolve (st_fs st) (st_cwd st) p = Some q /\ is_dir (st_fs st) q = false.

End Props.

(** * Concrete states on which the properties are exercised *)
Module Samples.
Import Scan FS Utf8 App.

Definition state_of (fs : filesystem) : State := mkState fs [] ∅ "" [].

(** Nothing on disk: the problems root is missing. *)
Definition empty_state : State := state_of [].

(** The problems root is a regular file. *)
Definition root_is_file_state : State := state_of [(["Problems"], File [])].

(** A problems root with numbered and other entries, one of them a file. *)
Definition listing_state : State :=
  state_of
    [ (["Problems"], Dir);
      (["Problems"; "notes"], Dir);
      (["Problems"; "10_b"], Dir);
      (["Problems"; "2_a"], Dir);
      (["Problems"; "9_readme.md"], File []);
      (["Problems"; "12a_b"], Dir);
      (["Problems"; "02_c"], Dir);
      (["Problems"; "2_a"; "learn.md"], File [104; 105]) ].

(** The same root with one more subdirectory, whose number is written with
    the Arabic-Indic digit three, U+0663 (the bytes D9 A3 in UTF-8). *)
Definition arabic_three_x : string := String "217" (String "163" "_x").

Definition mixed_listing_state : State :=
  state_of
    [ (["Problems"], Dir);
      (["Problems"; "notes"], Dir);
      (["Problems"; "10_b"], Dir);
      (["Problems"; arabic_three_x], Dir);
      (["Problems"; "2_a"], Dir);
      (["Problems"; "9_readme.md"], File []);
      (["Problems"; "12a_b"], Dir);
      (["Problems"; "02_c"], Dir) ].

(** An HTML file with inline and display math. *)
Definition math_content : text :=
  text_of_string "Euler: \(x\) and \[y\]. Done".

(** What [markdown.markdown] makes of a text that is one line of plain
    words and backslash escapes, such as [math_content]: one paragraph, in
    which a backslash before a character that Markdown lets one escape is
    dropped and the character kept.  (Texts with other Markdown syntax are
    not covered.) *)
Definition md_escaped_chars : list N :=
  [92; 96; 42; 95; 123; 125; 91; 93; 40; 41; 62; 35; 43; 45; 46; 33].

Fixpoint md_unescape (t : text) : text :=
  match t with
  | [] => []
  | a :: r =>
      match r with
      | b :: r' =>
          if (a =? 92) && bool_decide (b ∈ md_escaped_chars)
          then b :: md_unescape r'
          else a :: md_unescape r
      | [] => [a]
      end
  end.

Definition sample_markdown (t : text) : text :=
  text_of_string "<p>" ++ md_unescape t ++ text_of_string "</p>".

(** Three notebooks: one prints two lines, two print something and then
    raise the same error. *)
Definition hello_source : list N :=
  text_of_string ("print('hello')" +:+ nl +:+ "print('world')" +:+ nl).
Definition failing_source : list N :=
  text_of_string ("print('partial')" +:+ nl +:+ "raise ValueError('boom')" +:+ nl).
Definition failing_source' : list N :=
  text_of_string ("print('other')" +:+ nl +:+ "raise ValueError('boom')" +:+ nl).

Definition boom : exn := mkExn (UserException "ValueError") "boom".

(** What Python makes of the sources above; any other bytes are taken not
    to compile. *)
Definition sample_get_code (l : loader) (bs : list N) : exn + list stmt :=
  if decide (bs = hello_source) then inr [Print "hello"; Print "world"]
  else if decide (bs = failing_source) then inr [Print "partial"; Raise boom]
  else if decide (bs = failing_source') then inr [Print "other"; Raise boom]
  else inl (mkExn SyntaxError "invalid syntax").

Definition old_module : PyModule := mkModule "notebook_module" "earlier.py".

Definition notebook_state : State :=
  mkState
    [ (["Problems"], Dir);
      (["Problems"; "interactive_learn"], Dir);
      (["Problems"; "interactive_learn"; "problem-1"], Dir);
      (["Problems"; "interactive_learn"; "problem-1"; "notebook.py"],
       File hello_source);
      (["Problems"; "interactive_learn"; "problem-2"], Dir);
      (["Problems"; "interactive_learn"; "problem-2"; "notebook.py"],
       File failing_source);
      (["Problems"; "interactive_learn"; "problem-3"], Dir);
      (["Problems"; "interactive_learn"; "problem-3"; "notebook.py"],
       File failing_source');
      (["Problems"; "interactive_learn"; "problem-4"], Dir);
      (["Problems"; "interactive_learn"; "problem-4"; "notebook.txt"],
       File hello_source) ]
    [] {["notebook_module" := old_module]} "earlier output" [].

(** The problem of number 42 exists already, with edited files. *)
Definition edited_state : State :=
  state_of
    [ (["Problems"], Dir);
      (["Problems"; "42_Two_Sum"], Dir);
      (["Problems"; "42_Two_Sum"; "learn.md"],
       File (text_of_string "# Two Sum, my notes"));
      (["Problems"; "42_Two_Sum"; "solution.py"],
       File (text_of_string "def solution(): return 1")) ].

End Samples.

(** * The page logic of [main] *)

(** What [main] does between the widgets: which files and which notebooks it
    offers, the paths it builds, and what the Run Notebook button does with
    the executor.  The widgets themselves are inputs: what a selector or a
    button returned is an argument.  The file system is the one of [FS]
    throughout: a call fails only for the reasons modelled there (a missing
    entry, a file where a directory is needed or the reverse); permissions,
    links and limits on names are not modelled. *)
Module Main.
Import Scan FS Utf8 App.

Definition SUPPORTED_EXTENSIONS : list string := [".md"; ".html"; ".py"].

(** [s.rfind(c)], as the two parts of [s] around the last [c]: what comes
    before it, and the rest from [c] on. *)
Fixpoint rsplit_char (c : ascii) (s : string) : option (string * string) :=
  match s with
  | EmptyString => None
  | String a r =>
      match rsplit_char c r with
      | Some (before, rest) => Some (String a before, rest)
      | None => if Ascii.eqb a c then Some (EmptyString, s) else None
      end
  end.

Fixpoint all_dots (s : string) : bool :=
  match s with
  | EmptyString => true
  | String a r => Ascii.eqb a "." && all_dots r
  end.

(** [os.path.splitext(p)]: the extension starts at the last dot of the last
    component, unless only dots come before it there. *)
Definition os_path_splitext (p : string) : string * string :=
  let '(dir, name) :=
    match rsplit_char "/" p with
    | Some (d, String _ n) => (d +:+ "/", n)
    | _ => (EmptyString, p)
    end in
  match rsplit_char "." name with
  | Some (root, ext) =>
      if all_dots root then (p, EmptyString) else (dir +:+ root, ext)
  | None => (p, EmptyString)
  end.

(** [os.path.basename(p)] *)
Definition os_path_basename (p : string) : string :=
  match rsplit_char "/" p with
  | Some (_, String _ n) => n
  | _ => p
  end.

(** [os.path.exists(p)] *)
Definition os_path_exists (fs : filesystem) (cwd : path) (p : string) : bool :=
  match resolve fs cwd p with
  | Some q => is_dir fs q || bool_decide (is_Some (fs_lookup fs q))
  | None => false
  end.

(** The files offered for a problem:
    [[f for f in os.listdir(problem_path)
      if os.path.splitext(f)[1] in SUPPORTED_EXTENSIONS]]. *)
Definition supported_files (problem_path : string) : M (list string) :=
  names <- lift (fun st => os_listdir (st_fs st) (st_cwd st) problem_path) ;;
  ret (filter (fun f => snd (os_path_splitext f) ∈ SUPPORTED_EXTENSIONS) names).

Definition lang_map : list (string * string) :=
  [ (".py", "python"); (".md", "markdown"); (".html", "html") ].

(** [d.get(k, default)] for a dict given by its items. *)
Fixpoint dict_get (d : list (string * string)) (k default : string) : string :=
  match d with
  | [] => default
  | (k', v) :: r => if String.eqb k' k then v else dict_get r k default
  end.

(** [lang_map.get(file_ext, 'text')] *)
Definition editor_lang (file_ext : string) : string :=
  dict_get lang_map file_ext "text".

(** [glob.glob(os.path.join(PROBLEMS_DIR, "interactive_learn", "problem-*"))]:
    the entries of the directory whose name starts with [problem-], each
    joined to the directory, in enumeration order; a directory that cannot
    be listed gives no match and no error. *)
Definition interactive_learn_dir : string :=
  os_path_join PROBLEMS_DIR "interactive_learn".

Definition glob_learn_dirs : M (list string) :=
  get (fun st =>
    match os_listdir (st_fs st) (st_cwd st) interactive_learn_dir with
    | Ok names =>
        map (os_path_join interactive_learn_dir)
          (List.filter (String.prefix "problem-") names)
    | Raised _ => []
    end).

(** The options of the selector: [[os.path.basename(d) for d in learn_dirs]]. *)
Definition learn_options : M (list string) :=
  learn_dirs <- glob_learn_dirs ;;
  ret (map os_path_basename learn_dirs).

(** [os.path.join(PROBLEMS_DIR, "interactive_learn", selected_learn,
    "notebook.py")] *)
Definition notebook_path_of (selected_learn : string) : string :=
  os_path_join
    (os_path_join (os_path_join PROBLEMS_DIR "interactive_learn") selected_learn)
    "notebook.py".

(** What a page shows besides the notes: [st.code], [st.text], [st.info] and
    [st.warning].  ([st.success] and [st.error] are recorded in the notes of
    the state, as everywhere.) *)
Inductive element : Type :=
  | st_code (body : text) (language : string)
  | st_text (body : string)
  | st_info (msg : string)
  | st_warning (msg : string).

Definition remediation_hint : string :=
  "Make sure the notebook.py file contains valid Python code and required dependencies are installed.".

Section Pages.
Variable get_code : loader -> list N -> exn + list stmt.

(** The branch of [main] for the Interactive Learn page, once a problem has
    been drawn: [selected_learn] is what the selector returned (nothing
    when it has no option) and [run_clicked] what the Run Notebook button
    returned. *)
Definition interactive_learn_selected (selected_learn : option string)
  (run_clicked : bool) : M (list element) :=
  match selected_learn with
  | None => ret []
  | Some selected_learn =>
  if String.eqb selected_learn "" then ret []
  else
    let notebook_path := notebook_path_of selected_learn in
    found <- get (fun st => os_path_exists (st_fs st) (st_cwd st) notebook_path) ;;
    if (found : bool) then
      content <- load_file_content notebook_path ;;
      if run_clicked then
        try_except
          (output <- execute_notebook get_code notebook_path ;;
           st_success_ "Notebook executed successfully!" ;;;
           ret [st_code content "python"; st_text output])
          (fun e =>
             st_error_ ("Error executing notebook: " +:+ exc_str e) ;;;
             ret [st_code content "python"; st_info remediation_hint])
      else ret [st_code content "python"]
    else ret [st_warning ("No notebook.py file found in " +:+ selected_learn)]
  end.
End Pages.

End Main.

(** * Notions used to state the properties of the pages *)
Module MainProps.

(** [c] occurs in [s]. *)
Fixpoint has_char (c : ascii) (s : string) : bool :=
  match s with
  | EmptyString => false
  | String a r => Ascii.eqb a c || has_char c r
  end.

End MainProps.
(** * The rewrite in one pass *)
Module OnePass.
Import App.

(** One scan from the left that replaces each of the four delimiters where
    it stands: the rewrite as the renderer describes it, without the order
    of the four substitutions. *)
Fixpoint rewrite_once (content : text) : text :=
  match content with
  | [] => []
  | a :: r =>
      match r with
      | b :: r' =>
          if (a =? 92) && ((b =? 40) || (b =? 41))
          then 36 :: rewrite_once r'
          else if (a =? 92) && ((b =? 91) || (b =? 93))
          then 36 :: 36 :: rewrite_once r'
          else a :: rewrite_once r
      | [] => [a]
      end
  end.

End OnePass.
(** * More concrete states *)
Module MoreSamples.
Import Scan FS Utf8 App Samples.

(** Two problems roots with the same subdirectories, no two with the same
    key, enumerated in different orders. *)
Definition distinct_state : State :=
  state_of
    [ (["Problems"], Dir);
      (["Problems"; "notes"], Dir);
      (["Problems"; "10_b"], Dir);
      (["Problems"; "2_a"], Dir);
      (["Problems"; "9_readme.md"], File []);
      (["Problems"; "7_c"], Dir) ].

Definition distinct_state_shuffled : State :=
  state_of
    [ (["Problems"], Dir);
      (["Problems"; "7_c"], Dir);
      (["Problems"; "2_a"], Dir);
      (["Problems"; "notes"], Dir);
      (["Problems"; "9_readme.md"], File []);
      (["Problems"; "10_b"], Dir) ].

(** The problem of number 5 exists, and a directory stands where its
    [solution.py] would go. *)
Definition blocked_state : State :=
  state_of
    [ (["Problems"], Dir);
      (["Problems"; "5_Tree"], Dir);
      (["Problems"; "5_Tree"; "solution.py"], Dir) ].

(** The problems root is a regular file, with something in it. *)
Definition root_file_state : State :=
  state_of [ (["Problems"], File [110; 111; 116; 101; 115]) ].

(** A notebook that says goodbye and calls [sys.exit(0)]. *)
Definition exit_source : list N :=
  text_of_string ("print('bye')" +:+ nl +:+ "import sys; sys.exit(0)" +:+ nl).

Definition system_exit : exn := mkExn (BaseOnly "SystemExit") "0".

Definition more_get_code (l : loader) (bs : list N) : exn + list stmt :=
  if decide (bs = exit_source) then inr [Print "bye"; Raise system_exit]
  else sample_get_code l bs.

Definition exit_state : State :=
  state_of
    [ (["Problems"], Dir);
      (["Problems"; "interactive_learn"], Dir);
      (["Problems"; "interactive_learn"; "problem-5"], Dir);
      (["Problems"; "interactive_learn"; "problem-5"; "notebook.py"],
       File exit_source) ].

End MoreSamples.

(** * Facts about string concatenation *)
Module StringFacts.

Lemma append_cons x (a b : string) : String x a +:+ b = String x (a +:+ b).
Proof. reflexivity. Qed.

Lemma append_assoc (a b c : string) : (a +:+ b) +:+ c = a +:+ b +:+ c.
Proof.
  induction a as [|x a IH]; [done|]. by rewrite !append_cons, IH.
Qed.

Lemma append_empty_r (a : string) : a +:+ "" = a.
Proof.
  induction a as [|x a IH]; [done|]. by rewrite append_cons, IH.
Qed.

End StringFacts.

(** * The sort of the directory scanner *)
Module ScanFacts.
Import Scan FS Utf8 App Props Samples.

Lemma key_ltb_irrefl k : key_ltb k k = false.
Proof. destruct k; simpl; [apply N.ltb_irrefl | reflexivity]. Qed.

Lemma key_le_trans a b c : key_le a b -> key_le b c -> key_le a c.
Proof.
  unfold key_le. destruct a, b, c; simpl; try congruence.
  rewrite !N.ltb_ge. lia.
Qed.

Lemma key_ltb_le a b : key_ltb a b = true -> key_le a b.
Proof.
  unfold key_le. destruct a, b; simpl; try congruence.
  rewrite N.ltb_lt, N.ltb_ge. lia.
Qed.

Lemma key_ltb_neq a b : key_ltb a b = true -> a <> b.
Proof. intros H ->. rewrite key_ltb_irrefl in H. discriminate. Qed.

Section SortedFacts.
Context {A : Type} (f : A -> key).

Lemma insert_by_perm x l : insert_by f x l ≡ₚ x :: l.
Proof.
  induction l as [|y r IH]; simpl; [reflexivity|].
  destruct (key_ltb (f y) (f x)); [|reflexivity].
  rewrite IH. apply Permutation_swap.
Qed.

Lemma sorted_perm l : sorted f l ≡ₚ l.
Proof.
  induction l as [|x r IH]; simpl; [reflexivity|].
  rewrite insert_by_perm. by rewrite IH.
Qed.

Lemma insert_by_sorted x l :
  StronglySorted (le_by f) l -> StronglySorted (le_by f) (insert_by f x l).
Proof.
  induction 1 as [|y r Hr IH Hy]; simpl.
  - repeat constructor.
  - destruct (key_ltb (f y) (f x)) eqn:E.
    + constructor; [exact IH|].
      rewrite insert_by_perm. constructor; [|exact Hy].
      by apply key_ltb_le.
    + constructor; [by constructor|].
      constructor; [exact E|].
      eapply Forall_impl; [exact Hy|].
      intros z Hz. eapply key_le_trans; [exact E | exact Hz].
Qed.

Lemma sorted_sorted l : StronglySorted (le_by f) (sorted f l).
Proof.
  induction l; simpl; [constructor | by apply insert_by_sorted].
Qed.

(** Stability: among the elements of one key, the order is unchanged. *)
Lemma insert_by_stable k x l :
  filter (fun y => f y = k) (insert_by f x l)
  = filter (fun y => f y = k) (x :: l).
Proof.
  induction l as [|y r IH]; simpl; [reflexivity|].
  destruct (key_ltb (f y) (f x)) eqn:E; [|reflexivity].
  apply key_ltb_neq in E.
  rewrite (filter_cons _ y), IH, !filter_cons.
  repeat case_decide; congruence.
Qed.

Lemma sorted_stable k l :
  filter (fun y => f y = k) (sorted f l) = filter (fun y => f y = k) l.
Proof.
  induction l as [|x r IH]; simpl; [reflexivity|].
  rewrite insert_by_stable, !filter_cons, IH. reflexivity.
Qed.

(** Elements whose key is infinite stay behind, in their order. *)
Lemma insert_by_app_inf x l1 l2 :
  Forall (fun y => f y = KInf) l2 ->
  insert_by f x (l1 ++ l2) = insert_by f x l1 ++ l2.
Proof.
  intros H2. induction l1 as [|y r IH]; simpl.
  - destruct H2 as [|z l2 Hz _]; simpl; [reflexivity|].
    rewrite Hz. reflexivity.
  - destruct (key_ltb (f y) (f x)); [by rewrite IH | reflexivity].
Qed.

Lemma insert_by_inf_last x l :
  f x = KInf -> Forall (fun y => f y <> KInf) l ->
  insert_by f x l = l ++ [x].
Proof.
  intros Hx. induction 1 as [|y r Hy _ IH]; simpl; [reflexivity|].
  rewrite Hx. destruct (f y); [simpl; by rewrite IH | congruence].
Qed.

Lemma sorted_split l :
  sorted f l
  = sorted f (filter (fun y => f y <> KInf) l)
    ++ filter (fun y => f y = KInf) l.
Proof.
  induction l as [|x r IH]; simpl; [reflexivity|].
  rewrite IH at 1.
  rewrite insert_by_app_inf by (apply list.Forall_forall; intros y Hy;
    by apply list_elem_of_filter in Hy as [? _]).
  rewrite !filter_cons.
  destruct (decide (f x = KInf)) as [Hx|Hx].
  - rewrite decide_False by tauto.
    rewrite insert_by_inf_last; [by rewrite <- app_assoc | exact Hx |].
    apply list.Forall_forall. intros y Hy.
    rewrite sorted_perm in Hy.
    by apply list_elem_of_filter in Hy as [? _].
  - rewrite decide_True by tauto. reflexivity.
Qed.
End SortedFacts.

(** ** The regular expression, against the shape of the name *)

Lemma to_decimal_in_sound zeros c v :
  to_decimal_in zeros c = Some v -> exists z, In z zeros /\ v < 10 /\ c = z + v.
Proof.
  induction zeros as [|z r IH]; simpl; [done|].
  destruct ((z <=? c) && (c <? z + 10)) eqn:E.
  - intros [= <-]. apply andb_true_iff in E as [H1 H2].
    apply N.leb_le in H1. apply N.ltb_lt in H2.
    exists z. split; [by left | lia].
  - intros H. destruct (IH H) as (z' & Hin & Hv). exists z'. split; [by right | done].
Qed.

(** The runs of digits do not overlap: each zero and its nine successors
    have the values 0 to 9. *)
Lemma to_decimal_zeros z v :
  In z decimal_zeros -> v < 10 -> to_decimal (z + v) = Some v.
Proof.
  intros Hz Hv.
  assert (Hall : forallb (fun z =>
                    forallb (fun v => bool_decide (to_decimal (z + v) = Some v))
                      [0; 1; 2; 3; 4; 5; 6; 7; 8; 9]) decimal_zeros = true)
    by (vm_compute; reflexivity).
  rewrite forallb_forall in Hall. specialize (Hall z Hz).
  rewrite forallb_forall in Hall.
  apply (bool_decide_eq_true_1 _), Hall.
  assert (v = 0 \/ v = 1 \/ v = 2 \/ v = 3 \/ v = 4 \/ v = 5 \/ v = 6 \/ v = 7
          \/ v = 8 \/ v = 9) as Hcases by lia.
  repeat destruct Hcases as [->|Hcases]; try subst v; simpl; auto 20.
Qed.

Lemma to_decimal_digit c v : to_decimal c = Some v <-> decimal_digit c v.
Proof.
  split.
  - apply to_decimal_in_sound.
  - intros (z & Hz & Hv & ->). by apply to_decimal_zeros.
Qed.

Lemma decimal_digit_value c v :
  decimal_digit c v -> is_digit c = true /\ digit_value c = v.
Proof.
  intros H%to_decimal_digit. unfold is_digit, digit_value. by rewrite H.
Qed.

Lemma is_digit_value c : is_digit c = true -> decimal_digit c (digit_value c).
Proof.
  unfold is_digit, digit_value. destruct (to_decimal c) as [v|] eqn:E; [|done].
  intros _. by apply to_decimal_digit.
Qed.

Lemma digits_values cs :
  Forall (fun c => is_digit c = true) cs ->
  Forall2 decimal_digit cs (map digit_value cs).
Proof.
  induction 1 as [|c cs Hc _ IH]; simpl; constructor; [|exact IH].
  by apply is_digit_value.
Qed.

Lemma values_digits cs vs :
  Forall2 decimal_digit cs vs ->
  Forall (fun c => is_digit c = true) cs /\ map digit_value cs = vs.
Proof.
  induction 1 as [|c v cs vs Hc _ [IH1 IH2]]; [done|].
  apply decimal_digit_value in Hc as [Hd Hv].
  split; [by constructor | simpl; by rewrite Hv, IH2].
Qed.

Lemma span_digits_spec s ds r :
  span_digits s = (ds, r) ->
  s = ds ++ r /\ Forall (fun c => is_digit c = true) ds.
Proof.
  revert ds r. induction s as [|c s IH]; simpl; intros ds r H.
  - by injection H as <- <-.
  - destruct (is_digit c) eqn:Ec.
    + destruct (span_digits s) as [ds' r'] eqn:E. injection H as <- <-.
      destruct (IH _ _ eq_refl) as [-> Hd]. split; [done | by constructor].
    + by injection H as <- <-.
Qed.

Lemma span_digits_app ds rest :
  Forall (fun c => is_digit c = true) ds ->
  span_digits (ds ++ 95 :: rest) = (ds, 95 :: rest).
Proof.
  induction 1 as [|c ds Hc _ IH]; [reflexivity|].
  simpl. by rewrite Hc, IH.
Qed.

Lemma re_match_number_spec t g :
  re_match_number t = Some g <->
  exists rest,
    t = g ++ 95 :: rest /\ g <> [] /\ Forall (fun c => is_digit c = true) g.
Proof.
  unfold re_match_number. split.
  - destruct (span_digits t) as [ds r] eqn:E.
    destruct ds as [|c ds]; [discriminate|].
    destruct r as [|u r]; [discriminate|].
    destruct (N.eqb_spec u 95) as [->|]; [|discriminate].
    intros [= <-]. exists r. apply span_digits_spec in E as [-> Hd]. auto.
  - intros (rest & -> & Hne & Hd).
    rewrite span_digits_app by done.
    destruct g; [done | reflexivity].
Qed.

(** Reading the digits from the left, as [int] does, gives the number they
    write. *)
Lemma int_of_digits_from_number acc ds :
  int_of_digits_from acc ds
  = acc * 10 ^ N.of_nat (length ds) + number_of (map digit_value ds).
Proof.
  revert acc. induction ds as [|c ds IH]; intros acc; simpl length.
  - simpl. lia.
  - cbn [int_of_digits_from map number_of]. rewrite IH, length_map.
    rewrite Nat2N.inj_succ, N.pow_succ_r'. lia.
Qed.

Lemma int_of_digits_number ds :
  int_of_digits ds = number_of (map digit_value ds).
Proof. unfold int_of_digits. rewrite int_of_digits_from_number. lia. Qed.

Lemma get_number_numbered d n : get_number d = KInt n <-> numbered d n.
Proof.
  unfold get_number, numbered. split.
  - destruct (re_match_number (os_fsdecode d)) as [g|] eqn:E; [|discriminate].
    intros [= <-]. apply re_match_number_spec in E as (rest & Hd & Hne & Hg).
    exists g, (map digit_value g), rest.
    split; [exact Hd|]. split; [exact Hne|].
    split; [by apply digits_values | symmetry; apply int_of_digits_number].
  - intros (cs & vs & rest & Hd & Hne & Hcs & <-).
    apply values_digits in Hcs as [Hcs <-].
    assert (re_match_number (os_fsdecode d) = Some cs) as ->.
    { apply re_match_number_spec. by exists rest. }
    by rewrite int_of_digits_number.
Qed.

Lemma get_number_unnumbered d : get_number d = KInf <-> unnumbered d.
Proof.
  unfold unnumbered. split.
  - intros H n Hn. apply get_number_numbered in Hn. congruence.
  - intros H. destruct (get_number d) as [n|] eqn:E; [|reflexivity].
    apply get_number_numbered in E. by destruct (H n).
Qed.

Global Instance numbered_dec d n : Decision (numbered d n).
Proof.
  refine (cast_if (decide (get_number d = KInt n)));
    abstract (by rewrite <- get_number_numbered).
Defined.

Global Instance unnumbered_dec d : Decision (unnumbered d).
Proof.
  refine (cast_if (decide (get_number d = KInf)));
    abstract (by rewrite <- get_number_unnumbered).
Defined.

Lemma not_unnumbered d : ~ unnumbered d <-> exists n, numbered d n.
Proof.
  rewrite <- get_number_unnumbered. split.
  - destruct (get_number d) as [n|] eqn:E; [|done].
    intros _. exists n. by apply get_number_numbered.
  - intros [n Hn] E. apply get_number_numbered in Hn. congruence.
Qed.

Lemma StronglySorted_weaken {A} (R R' : A -> A -> Prop) l :
  (forall a b, R a b -> R' a b) -> StronglySorted R l -> StronglySorted R' l.
Proof.
  intros HR. induction 1 as [|x l _ IH Hx]; constructor; [exact IH|].
  eapply Forall_impl; [exact Hx | auto].
Qed.

(** ** What the scanner returns *)

Lemma get_problem_directories_unfold st :
  get_problem_directories st =
  match os_listdir (st_fs st) (st_cwd st) PROBLEMS_DIR with
  | Ok names =>
      (Ok (sorted get_number
             (filter (fun d => Is_true (os_path_isdir (st_fs st) (st_cwd st)
                                          (os_path_join PROBLEMS_DIR d)))
                names)), st)
  | Raised e => (Raised e, st)
  end.
Proof.
  unfold get_problem_directories, bind, lift, get, ret.
  by destruct (os_listdir _ _ _).
Qed.

(** C3.  Let [dirs] be the subdirectories of the problems root in the order
    the listing enumerates them.  The scanner returns a list [front ++ rest]
    in which every name of [dirs] occurs exactly as often as in [dirs];
    [front] holds the names that start with an integer and an underscore, in
    ascending order of that integer and, among names of one integer, in
    enumeration order; [rest] is exactly the other names of [dirs], in
    enumeration order, so they all come after the numbered ones. *)
Theorem scanner_sorts_by_leading_integer st names :
  os_listdir (st_fs st) (st_cwd st) PROBLEMS_DIR = Ok names ->
  let dirs :=
    filter (fun d => Is_true (os_path_isdir (st_fs st) (st_cwd st)
                                (os_path_join PROBLEMS_DIR d))) names in
  exists front,
    get_problem_directories st = (Ok (front ++ filter unnumbered dirs), st)
    /\ front ++ filter unnumbered dirs ≡ₚ dirs
    /\ Forall (fun d => exists n, numbered d n) front
    /\ StronglySorted
         (fun a b => forall m n, numbered a m -> numbered b n -> m <= n) front
    /\ forall n,
         filter (fun d => numbered d n) front
         = filter (fun d => numbered d n) dirs.
Proof.
  intros Hls dirs.
  set (nums := filter (fun d => get_number d <> KInf) dirs).
  exists (sorted get_number nums).
  assert (Hrest : filter unnumbered dirs
                  = filter (fun d => get_number d = KInf) dirs)
    by (apply list_filter_iff; intros d; symmetry; apply get_number_unnumbered).
  assert (Hfront : Forall (fun d => exists n, numbered d n)
                     (sorted get_number nums)).
  { apply list.Forall_forall. intros d Hd. rewrite sorted_perm in Hd.
    apply list_elem_of_filter in Hd as [Hd _].
    apply not_unnumbered. by rewrite <- get_number_unnumbered. }
  split; [|split; [|split; [|split]]].
  - rewrite get_problem_directories_unfold, Hls. fold dirs.
    by rewrite (sorted_split get_number dirs), Hrest.
  - subst nums. rewrite Hrest, <- (sorted_split get_number dirs).
    apply sorted_perm.
  - exact Hfront.
  - eapply StronglySorted_weaken; [|apply (sorted_sorted get_number)].
    intros a b Hab m n Ha Hb.
    apply get_number_numbered in Ha, Hb.
    unfold le_by, key_le in Hab. rewrite Ha, Hb in Hab. simpl in Hab.
    apply N.ltb_ge in Hab. exact Hab.
  - intros n.
    rewrite (list_filter_iff _ (fun d => get_number d = KInt n))
      by (intros d; symmetry; apply get_number_numbered).
    rewrite sorted_stable. unfold nums.
    rewrite (list_filter_iff (fun d => numbered d n)
               (fun d => get_number d = KInt n))
      by (intros d; symmetry; apply get_number_numbered).
    rewrite list_filter_filter. apply list_filter_iff.
    intros d. split; [tauto | intros H; split; [exact H | congruence]].
Qed.

Lemma scanner_sorts_by_leading_integer_witness :
  exists front,
    get_problem_directories mixed_listing_state
    = (Ok (front ++ ["notes"; "12a_b"]), mixed_listing_state)
    /\ front ++ ["notes"; "12a_b"]
       ≡ₚ ["notes"; "10_b"; arabic_three_x; "2_a"; "12a_b"; "02_c"]
    /\ Forall (fun d => exists n, numbered d n) front
    /\ StronglySorted
         (fun a b => forall m n, numbered a m -> numbered b n -> m <= n) front
    /\ forall n,
         filter (fun d => numbered d n) front
         = filter (fun d => numbered d n)
             ["notes"; "10_b"; arabic_three_x; "2_a"; "12a_b"; "02_c"].
Proof.
  exact (scanner_sorts_by_leading_integer mixed_listing_state
           ["notes"; "10_b"; arabic_three_x; "2_a"; "9_readme.md"; "12a_b";
            "02_c"] eq_refl).
Defined.

Example scanner_listing_state :
  fst (get_problem_directories listing_state)
  = Ok ["2_a"; "02_c"; "10_b"; "notes"; "12a_b"].
Proof. reflexivity. Qed.

(** A number written in another script counts as the same number. *)
Example scanner_mixed_listing_state :
  get_number arabic_three_x = KInt 3
  /\ fst (get_problem_directories mixed_listing_state)
     = Ok ["2_a"; "02_c"; arabic_three_x; "10_b"; "notes"; "12a_b"].
Proof. split; reflexivity. Qed.

Lemma walk_error_class fs cur comps p :
  exc_cls (walk_error fs cur comps p) = FileNotFoundError
  \/ exc_cls (walk_error fs cur comps p) = NotADirectoryError.
Proof.
  revert cur. induction comps as [|c rest IH]; intros cur; simpl; [by left|].
  destruct (is_dir fs cur); [apply IH|].
  destruct (fs_lookup fs cur); [by right | by left].
Qed.

Lemma resolve_error_class fs cwd p :
  exc_cls (resolve_error fs cwd p) = FileNotFoundError
  \/ exc_cls (resolve_error fs cwd p) = NotADirectoryError.
Proof.
  unfold resolve_error. destruct (decide (p = "")); [by left|].
  apply walk_error_class.
Qed.

(** C2, as the code has it.  When the problems root does not lead to a
    directory, the listing raises and the scanner passes the error on: it
    raises [FileNotFoundError] or [NotADirectoryError], leaves the state as it
    was, and returns no list. *)
Theorem scanner_raises_without_root st :
  os_path_isdir (st_fs st) (st_cwd st) PROBLEMS_DIR = false ->
  exists e,
    get_problem_directories st = (Raised e, st)
    /\ (exc_cls e = FileNotFoundError \/ exc_cls e = NotADirectoryError).
Proof.
  intros H. rewrite get_problem_directories_unfold.
  unfold os_path_isdir in H. unfold os_listdir.
  destruct (resolve _ _ _) as [q|];
    [|eexists; split; [reflexivity | apply resolve_error_class]].
  rewrite H. destruct (fs_lookup _ q);
    eexists; (split; [reflexivity|]); [by right | by left].
Qed.

Lemma scanner_raises_without_root_witness :
  exists e,
    get_problem_directories root_is_file_state = (Raised e, root_is_file_state)
    /\ (exc_cls e = FileNotFoundError \/ exc_cls e = NotADirectoryError).
Proof. exact (scanner_raises_without_root root_is_file_state eq_refl). Defined.

(** C2 fails as stated: with no problems root on disk the scanner raises
    [FileNotFoundError]; it does not return the empty list. *)
Lemma scanner_missing_root_is_an_error :
  os_path_isdir (st_fs empty_state) (st_cwd empty_state) PROBLEMS_DIR = false
  /\ get_problem_directories empty_state
     = (Raised (ENOENT "Problems"), empty_state)
  /\ fst (get_problem_directories empty_state) <> Ok [].
Proof. repeat split. discriminate. Qed.

End ScanFacts.

(** * Decimal numerals *)
Module NumeralFacts.
Import Scan Utf8 Props StringFacts ScanFacts.

Lemma text_of_string_app a b :
  text_of_string (a +:+ b) = text_of_string a ++ text_of_string b.
Proof.
  induction a as [|c a IH]; [done|].
  rewrite append_cons. unfold text_of_string in *. simpl. by rewrite IH.
Qed.

Lemma decode_escape_ascii b r :
  b < 128 -> decode_escape (b :: r) = b :: decode_escape r.
Proof. intros H. apply N.ltb_lt in H. simpl. by rewrite H. Qed.

Lemma decode_escape_ascii_app a b :
  Forall (fun c => c < 128) a -> decode_escape (a ++ b) = a ++ decode_escape b.
Proof.
  induction 1 as [|c a Hc _ IH]; [done|].
  rewrite <- app_comm_cons, decode_escape_ascii by done. by rewrite IH.
Qed.

(** The digits a [Decimal.uint] prints, with their values, and the number
    the parser of the library reads from them. *)
Lemma uint_numeral d :
  exists vs,
    Forall2 (fun c v => v < 10 /\ N_of_ascii c = 48 + v)
      (list_ascii_of_string (NilEmpty.string_of_uint d)) vs
    /\ (forall acc,
          Npos (Pos.of_uint_acc d acc)
          = Npos acc * 10 ^ N.of_nat (length vs) + number_of vs)
    /\ Pos.of_uint d = number_of vs
    /\ (d <> Decimal.Nil -> vs <> [])
    /\ (head vs = Some 0 -> exists l, d = Decimal.D0 l).
Proof.
  induction d as [|d (vs & Hvs & Hacc & Hof & _ & _)
                   |d (vs & Hvs & Hacc & Hof & _ & _)
                   |d (vs & Hvs & Hacc & Hof & _ & _)
                   |d (vs & Hvs & Hacc & Hof & _ & _)
                   |d (vs & Hvs & Hacc & Hof & _ & _)
                   |d (vs & Hvs & Hacc & Hof & _ & _)
                   |d (vs & Hvs & Hacc & Hof & _ & _)
                   |d (vs & Hvs & Hacc & Hof & _ & _)
                   |d (vs & Hvs & Hacc & Hof & _ & _)
                   |d (vs & Hvs & Hacc & Hof & _ & _)].
  { exists []. split; [constructor|]. split; [intros acc; simpl; lia|].
    split; [done|]. split; done. }
  all: [> exists (0 :: vs) | exists (1 :: vs) | exists (2 :: vs)
          | exists (3 :: vs) | exists (4 :: vs) | exists (5 :: vs)
          | exists (6 :: vs) | exists (7 :: vs) | exists (8 :: vs)
          | exists (9 :: vs) ].
  all: split; [constructor; [split; [lia | reflexivity] | exact Hvs]|].
  all: split;
    [intros acc; cbn [Pos.of_uint_acc length number_of];
     rewrite Hacc, Nat2N.inj_succ, N.pow_succ_r'; lia|].
  all: split;
    [cbn [Pos.of_uint number_of]; rewrite ?Hacc, ?Hof; lia|].
  all: split; [done|].
  all: simpl; intros H; try discriminate H; by eexists.
Qed.

Lemma to_uint_normal n l : N.to_uint n = Decimal.D0 l -> l = Decimal.Nil.
Proof.
  intros H. pose proof (DecimalN.Unsigned.to_of (N.to_uint n)) as Hn.
  rewrite DecimalN.Unsigned.of_to, H in Hn.
  rewrite unorm_D0 in Hn. unfold Decimal.unorm in Hn.
  destruct (Decimal.nzhead l) eqn:E; try discriminate.
  - by injection Hn as <-.
  - by apply nzhead_nonzero in E.
Qed.

Lemma to_uint_nonnil n : N.to_uint n <> Decimal.Nil.
Proof.
  destruct n as [|p]; [done|]. apply DecimalPos.Unsigned.to_uint_nonnil.
Qed.

(** The text an f-string gives for [n] is the decimal numeral of [n]. *)
Lemma str_of_int_numeral n : decimal_numeral (str_of_int n) n.
Proof.
  unfold str_of_int, NilZero.string_of_uint.
  pose proof (to_uint_nonnil n) as Hnil.
  assert (Hs : match N.to_uint n with
               | Decimal.Nil => "0"
               | _ => NilEmpty.string_of_uint (N.to_uint n)
               end = NilEmpty.string_of_uint (N.to_uint n))
    by (by destruct (N.to_uint n)).
  rewrite Hs.
  destruct (uint_numeral (N.to_uint n)) as (vs & Hvs & _ & Hof & Hne & Hz).
  exists vs. split; [exact Hvs|]. split; [by apply Hne|]. split.
  - destruct vs as [|v vs']; [by right|].
    destruct (decide (v = 0)) as [->|Hv]; [|right; simpl; congruence].
    left. destruct (Hz eq_refl) as [l Hl].
    pose proof (to_uint_normal n l Hl) as ->. rewrite Hl in Hvs.
    simpl in Hvs. apply Forall2_cons_1 in Hvs as [_ Hvs].
    by apply Forall2_nil_inv_l in Hvs as ->.
  - rewrite <- Hof. apply DecimalN.Unsigned.of_to.
Qed.

(** A name made of a decimal numeral and an underscore is numbered by the
    number the numeral writes. *)
Lemma numeral_numbered ds n rest :
  decimal_numeral ds n -> numbered (ds +:+ "_" +:+ rest) n.
Proof.
  intros (vs & Hvs & Hne & _ & Hn).
  exists (text_of_string ds), vs, (os_fsdecode rest).
  assert (Hascii : Forall (fun c => c < 128) (text_of_string ds)).
  { unfold text_of_string. apply Forall_fmap.
    clear -Hvs. induction Hvs as [|c v cs vs [Hv Hc] _ IH]; constructor;
      [simpl; lia | exact IH]. }
  split; [|split; [|split; [|exact Hn]]].
  - unfold os_fsdecode.
    rewrite text_of_string_app, decode_escape_ascii_app by done.
    change ("_" +:+ rest) with (String "_" rest).
    change (text_of_string (String "_" rest)) with (95 :: text_of_string rest).
    by rewrite decode_escape_ascii by lia.
  - intros H. apply Hne. unfold text_of_string in H.
    apply fmap_nil_inv in H. rewrite H in Hvs. by apply Forall2_nil_inv_l in Hvs.
  - unfold text_of_string. clear -Hvs.
    induction Hvs as [|c v cs vs [Hv Hc] _ IH]; constructor; [|exact IH].
    exists 48. split; [by left | done].
Qed.

End NumeralFacts.

(** * Facts about the file system model *)
Module FSFacts.
Import Py FS Props StringFacts.

Lemma fs_lookup_update_eq fs q n : fs_lookup (fs_update fs q n) q = Some n.
Proof.
  induction fs as [|[k m] r IH]; simpl.
  - by rewrite decide_True.
  - destruct (decide (k = q)) as [->|Hk]; simpl.
    + by rewrite decide_True.
    + by rewrite decide_False.
Qed.

Lemma fs_lookup_update_ne fs q n k :
  k <> q -> fs_lookup (fs_update fs q n) k = fs_lookup fs k.
Proof.
  intros Hk. induction fs as [|[k' m] r IH]; simpl.
  - by rewrite decide_False.
  - destruct (decide (k' = q)) as [->|Hq]; simpl.
    + by rewrite !decide_False.
    + destruct (decide (k' = k)); [done | exact IH].
Qed.

Lemma is_dir_update_ne fs q n k :
  k <> q -> is_dir (fs_update fs q n) k = is_dir fs k.
Proof. intros H. unfold is_dir. by rewrite fs_lookup_update_ne. Qed.

Lemma is_dir_update_dir fs q : is_dir (fs_update fs q Dir) q = true.
Proof. unfold is_dir. rewrite fs_lookup_update_eq. by destruct q. Qed.

(** Writing a file where no directory stood changes no directory. *)
Lemma is_dir_update_file fs q d k :
  is_dir fs q = false -> is_dir (fs_update fs q (File d)) k = is_dir fs k.
Proof.
  intros Hq. destruct (decide (k = q)) as [->|Hk]; [|by apply is_dir_update_ne].
  rewrite Hq. unfold is_dir in *. rewrite fs_lookup_update_eq.
  by destruct q.
Qed.

Lemma walk_ext fs fs' cur comps :
  (forall k, is_dir fs' k = is_dir fs k) ->
  walk fs' cur comps = walk fs cur comps.
Proof.
  intros H. revert cur. induction comps as [|c r IH]; intros cur; simpl; [done|].
  by rewrite H, IH.
Qed.

Lemma resolve_ext fs fs' cwd p :
  (forall k, is_dir fs' k = is_dir fs k) ->
  resolve fs' cwd p = resolve fs cwd p.
Proof. intros H. unfold resolve. by rewrite (walk_ext fs fs'). Qed.

Lemma walk_app fs cur l1 l2 :
  walk fs cur (l1 ++ l2) = walk fs cur l1 ≫= fun c => walk fs c l2.
Proof.
  revert cur. induction l1 as [|c r IH]; intros cur; simpl; [done|].
  destruct (is_dir fs cur); [apply IH | done].
Qed.

Lemma split_sep_cons c s :
  split_sep (String c s)
  = if Ascii.eqb c "/" then "" :: split_sep s
    else match split_sep s with
         | h :: t => String c h :: t
         | [] => [String c ""]
         end.
Proof. reflexivity. Qed.

Lemma split_sep_nonempty s : split_sep s <> [].
Proof.
  induction s as [|c s IH]; [done|]. rewrite split_sep_cons.
  destruct (Ascii.eqb c "/"); [done|]. by destruct (split_sep s).
Qed.

Lemma split_sep_app a b :
  split_sep (a +:+ "/" +:+ b) = split_sep a ++ split_sep b.
Proof.
  induction a as [|c a IH].
  - reflexivity.
  - rewrite append_cons, !split_sep_cons, IH.
    destruct (Ascii.eqb c "/"); [done|].
    pose proof (split_sep_nonempty a). by destruct (split_sep a).
Qed.

Lemma split_sep_plain s : has_sep s = false -> split_sep s = [s].
Proof.
  induction s as [|c s IH]; [done|]. simpl has_sep. intros H.
  apply orb_false_iff in H as [Hc Hs]. rewrite split_sep_cons, Hc, IH; done.
Qed.

Lemma endswith_char_inv s c :
  endswith_char s c = true -> exists s', s = s' +:+ String c "".
Proof.
  induction s as [|a s IH]; [done|]. simpl.
  destruct s as [|b s].
  - intros ->%Ascii.eqb_eq. by exists "".
  - intros H. destruct (IH H) as [s' ->]. by exists (String a s').
Qed.

Lemma start_of_app cwd s t : s <> "" -> start_of cwd (s +:+ t) = start_of cwd s.
Proof. by destruct s. Qed.

Lemma step_plain cur name : plain_name name -> step cur name = cur ++ [name].
Proof.
  intros (_ & H1 & H2 & H3). unfold step. by rewrite !decide_False.
Qed.

Lemma walk_snoc_plain fs start comps q name :
  walk fs start comps = Some q -> is_dir fs q = true -> plain_name name ->
  walk fs start (comps ++ [name]) = Some (q ++ [name]).
Proof.
  intros Hw Hq Hn. rewrite walk_app, Hw. simpl. by rewrite Hq, step_plain.
Qed.

Lemma walk_snoc_empty fs start comps q :
  walk fs start (comps ++ [""]) = Some q ->
  walk fs start comps = Some q /\ is_dir fs q = true.
Proof.
  rewrite walk_app. destruct (walk fs start comps) as [q0|]; [|done].
  simpl. destruct (is_dir fs q0) eqn:E; [|done]. by intros [= <-].
Qed.

(** Where [os.path.join(p, name)] leads, for a directory [p] and a plain
    name. *)
Lemma resolve_join fs cwd p q name :
  resolve fs cwd p = Some q -> is_dir fs q = true -> plain_name name ->
  resolve fs cwd (os_path_join p name) = Some (q ++ [name]).
Proof.
  intros Hp Hq Hn. pose proof Hn as (Hsep & Hne & _).
  unfold resolve in Hp. destruct (decide (p = "")) as [|Hpne]; [done|].
  unfold os_path_join.
  assert (startswith_char name "/" = false) as ->.
  { destruct name as [|c name]; [done|]. simpl in *.
    by apply orb_false_iff in Hsep as [-> _]. }
  rewrite decide_False by done.
  destruct (endswith_char p "/") eqn:Ee.
  - apply endswith_char_inv in Ee as [p' ->].
    unfold resolve. rewrite decide_False by (by destruct p').
    rewrite start_of_app by (by destruct p').
    rewrite append_assoc, split_sep_app, (split_sep_plain name) by done.
    change (p' +:+ "/") with (p' +:+ "/" +:+ "") in Hp at 2.
    rewrite split_sep_app in Hp. change (split_sep "") with [""] in Hp.
    apply walk_snoc_empty in Hp as [Hp _].
    by apply walk_snoc_plain.
  - unfold resolve. rewrite decide_False by (by destruct p).
    rewrite start_of_app by done.
    rewrite split_sep_app, (split_sep_plain name) by done.
    by apply walk_snoc_plain.
Qed.

(** ** [os.makedirs] *)

Lemma makedirs_from_existing fs cur comps p q :
  walk fs cur comps = Some q -> is_dir fs q = true ->
  makedirs_from fs cur comps p = Ok fs.
Proof.
  revert cur. induction comps as [|c rest IH]; intros cur Hw Hq; [done|].
  simpl in *. destruct (is_dir fs cur); [|done].
  assert (is_dir fs (step cur c) = true) as ->; [|by apply IH].
  destruct rest as [|d rest]; simpl in Hw; [by injection Hw as ->|].
  by destruct (is_dir fs (step cur c)).
Qed.

Lemma os_makedirs_existing fs cwd p :
  os_path_isdir fs cwd p = true -> os_makedirs fs cwd p = Ok fs.
Proof.
  unfold os_path_isdir, os_makedirs, resolve.
  destruct (decide (p = "")); [done|].
  destruct (walk _ _ _) as [q|] eqn:Hw; [|done]. intros Hq.
  pose proof (split_sep_nonempty p) as Hne.
  destruct (is_dir fs (start_of cwd p)) eqn:Es.
  - by eapply makedirs_from_existing.
  - destruct (split_sep p); [done|]. simpl in Hw. by rewrite Es in Hw.
Qed.

(** Directories are only ever added. *)
Lemma makedirs_from_mono fs cur comps p fs' :
  makedirs_from fs cur comps p = Ok fs' ->
  forall k, is_dir fs k = true -> is_dir fs' k = true.
Proof.
  revert fs cur. induction comps as [|c rest IH]; intros fs cur H k Hk; simpl in H.
  - by injection H as <-.
  - destruct (is_dir fs (step cur c)) eqn:Ed; [by eapply IH|].
    destruct (fs_lookup fs (step cur c)) eqn:El; [done|].
    eapply IH; [exact H|].
    destruct (decide (k = step cur c)) as [->|Hne]; [congruence|].
    by rewrite is_dir_update_ne.
Qed.

Lemma makedirs_from_walk fs cur comps p fs' :
  is_dir fs cur = true ->
  makedirs_from fs cur comps p = Ok fs' ->
  exists q, walk fs' cur comps = Some q /\ is_dir fs' q = true.
Proof.
  revert fs cur. induction comps as [|c rest IH]; intros fs cur Hc H; simpl in H.
  - injection H as <-. by exists cur.
  - simpl. destruct (is_dir fs (step cur c)) eqn:Ed.
    + rewrite (makedirs_from_mono _ _ _ _ _ H cur Hc). by eapply IH.
    + destruct (fs_lookup fs (step cur c)) eqn:El; [done|].
      assert (Hc' : is_dir (fs_update fs (step cur c) Dir) cur = true).
      { destruct (decide (cur = step cur c)) as [E|Hne]; [congruence|].
        by rewrite is_dir_update_ne. }
      rewrite (makedirs_from_mono _ _ _ _ _ H cur Hc').
      eapply IH; [|exact H]. apply is_dir_update_dir.
Qed.

Lemma os_makedirs_isdir fs cwd p fs' :
  os_makedirs fs cwd p = Ok fs' ->
  exists q, resolve fs' cwd p = Some q /\ is_dir fs' q = true.
Proof.
  unfold os_makedirs, resolve. destruct (decide (p = "")); [done|].
  destruct (is_dir fs (start_of cwd p)) eqn:Es; [|done].
  by apply makedirs_from_walk.
Qed.

End FSFacts.

(** * The codec: decoding undoes encoding *)
Module CodecFacts.
Import Utf8 Props.

Ltac Zify.zify_post_hook ::= Z.to_euclidean_division_equations.

Ltac settle_test :=
  match goal with
  | |- context [?a <? ?b] =>
      first [ rewrite (proj2 (N.ltb_lt a b)) by lia
            | rewrite (proj2 (N.ltb_ge a b)) by lia ]
  | |- context [?a <=? ?b] =>
      first [ rewrite (proj2 (N.leb_le a b)) by lia
            | rewrite (proj2 (N.leb_gt a b)) by lia ]
  end.

Ltac bool_to_prop :=
  repeat match goal with
    | H : (_ && _) = false |- _ => apply andb_false_iff in H as [H|H]
    | H : (_ <? _) = true |- _ => apply N.ltb_lt in H
    | H : (_ <? _) = false |- _ => apply N.ltb_ge in H
    | H : (_ <=? _) = true |- _ => apply N.leb_le in H
    | H : (_ <=? _) = false |- _ => apply N.leb_gt in H
    end.

Lemma decode_encode_cp c bs rest :
  encode_cp c = Some bs -> decode (bs ++ rest) = cons c <$> decode rest.
Proof.
  unfold encode_cp, is_surrogate.
  repeat (case_match; try discriminate); intros [= <-]; bool_to_prop;
    simpl app; cbv beta iota zeta delta [decode]; fold decode;
    unfold is_cont, is_surrogate;
    try match goal with
      | |- context [cons ?e <$> decode rest] =>
          lazymatch e with c => fail | _ => replace e with c by lia end
      end;
    repeat settle_test; reflexivity.
Qed.

Lemma decode_encode t bs : encode t = Some bs -> decode bs = Some t.
Proof.
  revert bs. induction t as [|c t IH]; simpl; intros bs H.
  - by injection H as <-.
  - destruct (encode_cp c) as [b|] eqn:Ec; [|discriminate].
    destruct (encode t) as [r|]; [|discriminate].
    injection H as <-. rewrite (decode_encode_cp _ _ _ Ec), (IH r eq_refl).
    reflexivity.
Qed.

Lemma encode_scalar t : Forall scalar t -> is_Some (encode t).
Proof.
  induction 1 as [|c t [Hc Hs] _ [r IH]]; simpl; [by eexists|].
  rewrite IH. unfold encode_cp. rewrite Hs.
  repeat case_match; try by eexists.
  bool_to_prop. lia.
Qed.

Lemma universal_newlines_no_cr t : 13 ∉ t -> universal_newlines t = t.
Proof.
  induction t as [|c t IH]; simpl; [done|].
  intros H. apply not_elem_of_cons in H as [Hc Ht].
  destruct (N.eqb_spec c 13); [done|]. by rewrite IH.
Qed.

End CodecFacts.

(** * Saving and loading *)
Module SaveLoad.
Import FS Utf8 App Props Samples FSFacts CodecFacts.

Lemma fs_update_update fs q a b :
  fs_update (fs_update fs q a) q b = fs_update fs q b.
Proof.
  induction fs as [|[k m] r IH]; simpl.
  - by rewrite decide_True.
  - destruct (decide (k = q)) as [->|Hk]; simpl.
    + by rewrite decide_True.
    + by rewrite decide_False, IH.
Qed.

Lemma write_text_ok st p T q bs :
  resolve (st_fs st) (st_cwd st) p = Some q ->
  is_dir (st_fs st) q = false ->
  encode T = Some bs ->
  write_text p T st = (Ok tt, set_fs (fs_update (st_fs st) q (File bs)) st).
Proof.
  intros Hq Hd He. unfold write_text, open_w.
  by rewrite Hq, Hd, He, fs_update_update.
Qed.

Lemma read_text_ok st p q bs t :
  resolve (st_fs st) (st_cwd st) p = Some q ->
  fs_lookup (st_fs st) q = Some (File bs) ->
  q <> [] ->
  decode bs = Some t ->
  read_text p st = (Ok (universal_newlines t), st).
Proof.
  intros Hq Hl Hne Hd. unfold read_text, read_bytes.
  rewrite Hq. destruct q as [|c q']; [done|].
  unfold is_dir. by rewrite Hl, Hd.
Qed.

(** C4, as the code has it.  When [p] can be opened for writing and the text
    [T] has only encodable code points, saving stores the UTF-8 encoding of
    [T] at [p] (decoding those bytes gives [T] back) and reports success;
    loading [p] afterwards returns [T] with every carriage return and line
    feed pair, and every other carriage return, turned into a line feed.
    It is exactly [T] when [T] holds no carriage return. *)
Theorem save_then_load st p T :
  writable st p ->
  Forall scalar T ->
  let st1 := snd (save_file_content p T st) in
  exists q bs,
    resolve (st_fs st) (st_cwd st) p = Some q
    /\ encode T = Some bs /\ decode bs = Some T
    /\ fs_lookup (st_fs st1) q = Some (File bs)
    /\ st_notes st1
       = st_notes st ++ [st_success ("Successfully saved changes to " +:+ p)]
    /\ fst (load_file_content p st1) = Ok (universal_newlines T)
    /\ (13 ∉ T -> fst (load_file_content p st1) = Ok T).
Proof.
  intros (q & Hq & Hd) HT st1.
  destruct (encode_scalar T HT) as [bs Hbs].
  pose proof (decode_encode _ _ Hbs) as Hdec.
  exists q, bs.
  assert (Hsave : save_file_content p T st
                  = (Ok tt, add_note
                       (st_success ("Successfully saved changes to " +:+ p))
                       (set_fs (fs_update (st_fs st) q (File bs)) st))).
  { unfold save_file_content, try_except, bind.
    by rewrite (write_text_ok st p T q bs). }
  subst st1. rewrite Hsave. simpl.
  assert (Hne : q <> []) by (intros ->; discriminate).
  assert (Hload : fst (load_file_content p
                    (add_note
                       (st_success ("Successfully saved changes to " +:+ p))
                       (set_fs (fs_update (st_fs st) q (File bs)) st)))
                  = Ok (universal_newlines T)).
  { unfold load_file_content, try_except.
    erewrite read_text_ok; [reflexivity | | | exact Hne | exact Hdec]; simpl.
    - rewrite <- Hq. apply resolve_ext. intros k. by apply is_dir_update_file.
    - apply fs_lookup_update_eq. }
  repeat split; try done.
  - apply fs_lookup_update_eq.
  - intros Hcr. rewrite Hload. by rewrite universal_newlines_no_cr.
Qed.

Lemma save_then_load_witness :
  exists q bs,
    resolve [] [] "notes.md" = Some q
    /\ encode [0x48; 0xE9; 0x20AC; 0x1F600; 10] = Some bs
    /\ decode bs = Some [0x48; 0xE9; 0x20AC; 0x1F600; 10]
    /\ fs_lookup
         (st_fs (snd (save_file_content "notes.md"
                        [0x48; 0xE9; 0x20AC; 0x1F600; 10] empty_state))) q
       = Some (File bs)
    /\ st_notes (snd (save_file_content "notes.md"
                        [0x48; 0xE9; 0x20AC; 0x1F600; 10] empty_state))
       = [] ++ [st_success ("Successfully saved changes to " +:+ "notes.md")]
    /\ fst (load_file_content "notes.md"
              (snd (save_file_content "notes.md"
                      [0x48; 0xE9; 0x20AC; 0x1F600; 10] empty_state)))
       = Ok (universal_newlines [0x48; 0xE9; 0x20AC; 0x1F600; 10])
    /\ (13 ∉ [0x48; 0xE9; 0x20AC; 0x1F600; 10] ->
        fst (load_file_content "notes.md"
               (snd (save_file_content "notes.md"
                       [0x48; 0xE9; 0x20AC; 0x1F600; 10] empty_state)))
        = Ok [0x48; 0xE9; 0x20AC; 0x1F600; 10]).
Proof.
  apply (save_then_load empty_state "notes.md"
           [0x48; 0xE9; 0x20AC; 0x1F600; 10]).
  - exists ["notes.md"]. split; reflexivity.
  - repeat constructor.
Defined.

(** C4 fails as stated: a text with a carriage return is saved with success
    and comes back changed. *)
Lemma save_load_changes_carriage_return :
  let T := [97; 13; 10; 98; 13] in
  let st1 := snd (save_file_content "f.md" T empty_state) in
  st_notes st1 = [st_success "Successfully saved changes to f.md"]
  /\ fst (load_file_content "f.md" st1) = Ok [97; 10; 98; 10]
  /\ fst (load_file_content "f.md" st1) <> Ok T.
Proof. repeat split. discriminate. Qed.

(** Two more ways for the round trip to fail: the save itself fails, is
    reported, and the load then degrades to the empty text. *)
Example save_load_missing_directory :
  let st1 := snd (save_file_content "drafts/f.md" [97] empty_state) in
  st_notes st1
  = [st_error "Error saving file: [Errno 2] No such file or directory: 'drafts/f.md'"]
  /\ fst (load_file_content "drafts/f.md" st1) = Ok [].
Proof. split; reflexivity. Qed.

Example save_load_lone_surrogate :
  let st1 := snd (save_file_content "f.md" [0xD800] empty_state) in
  fs_lookup (st_fs st1) ["f.md"] = Some (File [])
  /\ fst (load_file_content "f.md" st1) = Ok [].
Proof. split; reflexivity. Qed.

End SaveLoad.

(** * The delimiter rewrite of the renderer *)
Module RenderFacts.
Import App Props Samples.

Lemma list_ind2 {A} (P : list A -> Prop) :
  P [] -> (forall a, P [a]) ->
  (forall a b l, P l -> P (b :: l) -> P (a :: b :: l)) ->
  forall l, P l.
Proof.
  intros H0 H1 H2 l. cut (P l /\ forall a, P (a :: l)); [tauto|].
  induction l as [|b l [IH1 IH2]]; [auto|].
  split; [apply IH2 | intros a; apply H2; auto].
Qed.

Lemma has_pair_cons_ne x y a l : a <> x -> has_pair x y (a :: l) = has_pair x y l.
Proof.
  intros Ha. apply N.eqb_neq in Ha. cbn [has_pair].
  destruct l; [done|]. by rewrite Ha.
Qed.

Lemma has_pair_app_ne x y u l :
  Forall (fun z => z <> x) u -> has_pair x y (u ++ l) = has_pair x y l.
Proof.
  induction 1 as [|z u Hz _ IH]; [done|].
  simpl app. by rewrite has_pair_cons_ne.
Qed.

Section Sub.
Variables (b : N) (r : text).
Abbreviation sub := (re_sub_escaped b r).

Lemma sub_cons_ne a l : a <> 92 -> sub (a :: l) = a :: sub l.
Proof.
  intros Ha. destruct l as [|c l]; simpl; [done|].
  apply N.eqb_neq in Ha. by rewrite Ha.
Qed.

Lemma sub_cons_match l : sub (92 :: b :: l) = r ++ sub l.
Proof. simpl. by rewrite N.eqb_refl. Qed.

Lemma sub_cons_92_ne c l : c <> b -> sub (92 :: c :: l) = 92 :: sub (c :: l).
Proof. intros Hc. simpl. apply N.eqb_neq in Hc. by rewrite Hc. Qed.

Lemma sub_cons_cases a c l :
  (a = 92 /\ c = b /\ sub (a :: c :: l) = r ++ sub l)
  \/ ((a <> 92 \/ c <> b) /\ sub (a :: c :: l) = a :: sub (c :: l)).
Proof.
  destruct (decide (a = 92)) as [->|Ha].
  - destruct (decide (c = b)) as [->|Hc].
    + left. auto using sub_cons_match.
    + right. auto using sub_cons_92_ne.
  - right. auto using sub_cons_ne.
Qed.

Lemma sub_app u v :
  last u <> Some 92 \/ head v <> Some b ->
  sub (u ++ v) = sub u ++ sub v.
Proof.
  induction u as [|a|a c l IHl IHc] using list_ind2; intros H.
  - reflexivity.
  - destruct (decide (a = 92)) as [->|Ha]; [|by apply sub_cons_ne].
    destruct H as [H|H]; [done|].
    destruct v as [|c v]; [done|]. simpl in H.
    rewrite <- app_comm_cons. simpl app. rewrite sub_cons_92_ne by congruence.
    reflexivity.
  - rewrite <- !app_comm_cons.
    destruct (sub_cons_cases a c (l ++ v)) as [(-> & -> & E)|(Hn & E)].
    + rewrite E, sub_cons_match, <- app_assoc. f_equal.
      destruct l as [|d l]; [done|]. apply IHl.
      destruct H as [H|H]; [left | by right]. exact H.
    + rewrite E. destruct (sub_cons_cases a c l) as [(-> & -> & _)|(_ & ->)].
      { destruct Hn; done. }
      rewrite <- app_comm_cons. f_equal. rewrite app_comm_cons. apply IHc.
      destruct H as [H|H]; [left | by right]. exact H.
Qed.

Lemma sub_id l : has_pair 92 b l = false -> sub l = l.
Proof.
  induction l as [|a|a c l IHl IHc] using list_ind2; intros H; try done.
  cbn [has_pair] in H. apply orb_false_iff in H as [H1 H2].
  destruct (sub_cons_cases a c l) as [(-> & -> & _)|(_ & ->)].
  - by rewrite !N.eqb_refl in H1.
  - f_equal. by apply IHc.
Qed.

(** The substitution leaves no pair [92; c] that was not there, and none at
    all for its own bracket, as long as the replacement is not empty and
    holds neither character. *)
Lemma sub_pairs c l :
  r <> [] -> Forall (fun z => z <> 92 /\ z <> c) r ->
  c = b \/ has_pair 92 c l = false ->
  has_pair 92 c (sub l) = false /\ (head (sub l) = Some c -> head l = Some c).
Proof.
  intros Hr Hz.
  assert (Hpre : forall o, has_pair 92 c (r ++ o) = has_pair 92 c o).
  { intros o. apply has_pair_app_ne. eapply Forall_impl; [exact Hz|].
    by intros z [? _]. }
  assert (Hhd : forall o, head (r ++ o) <> Some c).
  { intros o. destruct Hz as [|z r' [_ Hz2] _]; [done|]. simpl. congruence. }
  induction l as [|a|a d l IHl IHd] using list_ind2; intros H.
  - done.
  - done.
  - assert (Hl : c = b \/ has_pair 92 c l = false).
    { destruct H as [H|H]; [by left|right].
      cbn [has_pair] in H. apply orb_false_iff in H as [_ H].
      destruct l as [|e l]; [done|]. cbn [has_pair] in H.
      by apply orb_false_iff in H as [_ H]. }
    assert (Hd : c = b \/ has_pair 92 c (d :: l) = false).
    { destruct H as [H|H]; [by left|right].
      cbn [has_pair] in H. by apply orb_false_iff in H as [_ H]. }
    destruct (sub_cons_cases a d l) as [(-> & -> & ->)|(Hn & ->)].
    + rewrite Hpre. split; [by apply IHl | intros Hc; by destruct (Hhd (sub l))].
    + destruct (IHd Hd) as [IH1 IH2]. split; [|done].
      destruct (sub (d :: l)) as [|e o] eqn:E; [done|].
      cbn [has_pair]. cbn [has_pair] in IH1. rewrite IH1, orb_false_r.
      apply andb_false_iff.
      destruct (N.eqb_spec a 92) as [->|]; [right | by left].
      apply N.eqb_neq. intros ->.
      specialize (IH2 eq_refl). injection IH2 as ->.
      destruct H as [->|H]; [destruct Hn; done|].
      cbn [has_pair] in H. by rewrite !N.eqb_refl in H.
Qed.
End Sub.

Lemma occurs_pair x y l : occurs [x; y] l <-> has_pair x y l = true.
Proof.
  split.
  - intros (u & v & ->). induction u as [|a u IH]; simpl.
    + by rewrite !N.eqb_refl.
    + destruct (u ++ x :: y :: v) eqn:E; [by destruct u|].
      rewrite <- E. simpl in IH. rewrite IH. apply orb_true_r.
  - induction l as [|a|a c l _ IHc] using list_ind2; try done.
    cbn [has_pair]. intros H. apply orb_true_iff in H as [H|H].
    + apply andb_true_iff in H as [->%N.eqb_eq ->%N.eqb_eq]. by exists [], l.
    + destruct (IHc H) as (u & v & E). exists (a :: u), v. simpl. by rewrite E.
Qed.

Lemma delimiter_free_pairs t :
  delimiter_free t <->
  has_pair 92 40 t = false /\ has_pair 92 41 t = false
  /\ has_pair 92 91 t = false /\ has_pair 92 93 t = false.
Proof.
  unfold delimiter_free, delimiters. split.
  - intros H. repeat split; apply not_true_is_false; rewrite <- occurs_pair;
      apply H; set_solver.
  - intros (H1 & H2 & H3 & H4) d Hd.
    repeat (apply elem_of_cons in Hd as [->|Hd]);
      [rewrite occurs_pair; congruence .. | by apply elem_of_nil in Hd].
Qed.

Lemma replace_delimiters_free t : delimiter_free (replace_delimiters t).
Proof.
  apply delimiter_free_pairs. unfold replace_delimiters.
  repeat split;
    repeat lazymatch goal with
      | |- has_pair 92 ?c (re_sub_escaped ?c _ _) = false =>
          apply sub_pairs; [done | repeat constructor; done | by left]
      | |- has_pair 92 _ (re_sub_escaped _ _ _) = false =>
          apply sub_pairs; [done | repeat constructor; done | right]
      end.
Qed.

Lemma replace_delimiters_id t : delimiter_free t -> replace_delimiters t = t.
Proof.
  intros (H1 & H2 & H3 & H4)%delimiter_free_pairs. unfold replace_delimiters.
  by rewrite (sub_id _ _ _ H1), (sub_id _ _ _ H2), (sub_id _ _ _ H3),
    (sub_id _ _ _ H4).
Qed.

Lemma occurs_stage b r pre post x t :
  head pre <> Some b -> last pre <> Some 92 -> pre <> [] ->
  head post <> Some b -> last post <> Some 92 -> post <> [] ->
  occurs (pre ++ x ++ post) t ->
  occurs (re_sub_escaped b r pre ++ re_sub_escaped b r x
          ++ re_sub_escaped b r post) (re_sub_escaped b r t).
Proof.
  intros Hp1 Hp2 Hp3 Hq1 Hq2 Hq3 (u & v & ->).
  exists (re_sub_escaped b r u), (re_sub_escaped b r v).
  rewrite (sub_app _ _ u).
  2:{ right. destruct pre; [done|]. exact Hp1. }
  rewrite (sub_app _ _ (pre ++ x ++ post) v).
  2:{ left. rewrite app_assoc. destruct post as [|z post] using rev_ind; [done|].
      rewrite app_assoc, last_snoc. by rewrite last_snoc in Hq2. }
  rewrite (sub_app _ _ pre) by (by left).
  rewrite (sub_app _ _ x post) by (by right).
  by rewrite <- !app_assoc.
Qed.

Lemma occurs_app_mid {A} (s t a b : list A) : occurs s t -> occurs s (a ++ t ++ b).
Proof.
  intros (u & v & ->). exists (a ++ u), (v ++ b). by rewrite <- !app_assoc.
Qed.

Lemma occurs_inline x t :
  occurs ([92; 40] ++ x ++ [92; 41]) t ->
  occurs ([36] ++ replace_delimiters x ++ [36]) (replace_delimiters t).
Proof.
  intros H. unfold replace_delimiters.
  apply (occurs_stage 40 [36]) in H; [|done..].
  apply (occurs_stage 41 [36]) in H; [|done..].
  apply (occurs_stage 91 [36; 36]) in H; [|done..].
  apply (occurs_stage 93 [36; 36]) in H; [|done..].
  exact H.
Qed.

Lemma occurs_display y t :
  occurs ([92; 91] ++ y ++ [92; 93]) t ->
  occurs ([36; 36] ++ replace_delimiters y ++ [36; 36]) (replace_delimiters t).
Proof.
  intros H. unfold replace_delimiters.
  apply (occurs_stage 40 [36]) in H; [|done..].
  apply (occurs_stage 41 [36]) in H; [|done..].
  apply (occurs_stage 91 [36; 36]) in H; [|done..].
  apply (occurs_stage 93 [36; 36]) in H; [|done..].
  exact H.
Qed.

(** The page template itself names the backslash delimiters, in the MathJax
    configuration: only the embedded content is free of them. *)
Example template_names_delimiters :
  occurs (text_of_string "\(") html_after /\ occurs (text_of_string "\[") html_after.
Proof. split; apply occurs_pair; reflexivity. Qed.

(** C5.  Let [t] be the text that reaches the rewrite: the content itself,
    or its markdown conversion when the tag is [.md].  If [t] contains
    [\(x\)] and [\[y\]], the content embedded in the page contains [$x'$]
    and [$$y'$$], where [x'] and [y'] are [x] and [y] rewritten in the same
    way, hence [$x$] and [$$y$$] when [x] and [y] hold no delimiter
    themselves; no [\(], [\)], [\[] or [\]] is left anywhere in the embedded
    content; and the page handed over is the template around that content. *)
Theorem render_rewrites_delimiters (markdown : text -> text)
  (content : text) (file_ext : string) (x y : text) :
  let t := if String.eqb file_ext ".md" then markdown content else content in
  occurs (text_of_string "\(" ++ x ++ text_of_string "\)") t ->
  occurs (text_of_string "\[" ++ y ++ text_of_string "\]") t ->
  let body := rendered_content markdown content file_ext in
  let page := html (render_math_content markdown content file_ext) in
  page = html_before ++ body ++ html_after
  /\ occurs (text_of_string "$" ++ replace_delimiters x ++ text_of_string "$") body
  /\ occurs (text_of_string "$$" ++ replace_delimiters y ++ text_of_string "$$") body
  /\ (delimiter_free x ->
      occurs (text_of_string "$" ++ x ++ text_of_string "$") page)
  /\ (delimiter_free y ->
      occurs (text_of_string "$$" ++ y ++ text_of_string "$$") page)
  /\ delimiter_free body.
Proof.
  intros t Hx Hy body page.
  assert (Hx' := occurs_inline x t Hx).
  assert (Hy' := occurs_display y t Hy).
  repeat split.
  - exact Hx'.
  - exact Hy'.
  - intros Hf. apply occurs_app_mid.
    rewrite <- (replace_delimiters_id x Hf) at 1. exact Hx'.
  - intros Hf. apply occurs_app_mid.
    rewrite <- (replace_delimiters_id y Hf) at 1. exact Hy'.
  - apply replace_delimiters_free.
Qed.

Lemma render_rewrites_delimiters_witness :
  html (render_math_content (fun t => t) math_content ".html")
  = html_before ++ rendered_content (fun t => t) math_content ".html"
    ++ html_after
  /\ occurs (text_of_string "$" ++ replace_delimiters (text_of_string "x")
             ++ text_of_string "$")
       (rendered_content (fun t => t) math_content ".html")
  /\ occurs (text_of_string "$$" ++ replace_delimiters (text_of_string "y")
             ++ text_of_string "$$")
       (rendered_content (fun t => t) math_content ".html")
  /\ (delimiter_free (text_of_string "x") ->
      occurs (text_of_string "$" ++ text_of_string "x" ++ text_of_string "$")
        (html (render_math_content (fun t => t) math_content ".html")))
  /\ (delimiter_free (text_of_string "y") ->
      occurs (text_of_string "$$" ++ text_of_string "y" ++ text_of_string "$$")
        (html (render_math_content (fun t => t) math_content ".html")))
  /\ delimiter_free (rendered_content (fun t => t) math_content ".html").
Proof.
  apply (render_rewrites_delimiters (fun t => t) math_content ".html"
           (text_of_string "x") (text_of_string "y")).
  - exists (text_of_string "Euler: "), (text_of_string " and \[y\]. Done").
    reflexivity.
  - exists (text_of_string "Euler: \(x\) and "), (text_of_string ". Done").
    reflexivity.
Defined.

(** C5 fails as stated for a Markdown file.  The text of [math_content]
    holds both delimiters; with the tag [.md] the converter runs first and
    takes the backslashes away, so the rewrite finds nothing to replace: the
    embedded content has the plain brackets and not one dollar sign. *)
Lemma render_markdown_resolves_delimiters_first :
  occurs (text_of_string "\(x\)") math_content
  /\ occurs (text_of_string "\[y\]") math_content
  /\ rendered_content sample_markdown math_content ".md"
     = text_of_string "<p>Euler: (x) and [y]. Done</p>"
  /\ 36 ∉ rendered_content sample_markdown math_content ".md".
Proof.
  split; [|split; [|split]].
  - by exists (text_of_string "Euler: "), (text_of_string " and \[y\]. Done").
  - by exists (text_of_string "Euler: \(x\) and "), (text_of_string ". Done").
  - reflexivity.
  - apply (bool_decide_unpack _). vm_compute. exact I.
Qed.

Example rendered_math_content :
  rendered_content (fun t => t) math_content ".html"
  = text_of_string "Euler: $x$ and $$y$$. Done".
Proof. reflexivity. Qed.

End RenderFacts.

(** * The notebook executor *)
Module ExecFacts.
Import FS App Props Samples StringFacts.

Lemma set_stdout_same st : set_stdout (sys_stdout st) st = st.
Proof. by destruct st. Qed.

Lemma run_script_spec prog st :
  run_script prog st
  = (match script_error prog with Some e => Raised e | None => Ok tt end,
     set_stdout (sys_stdout st +:+ script_output prog) st).
Proof.
  revert st. induction prog as [|[s|s|e] r IH]; intros st; simpl.
  - by rewrite append_empty_r, set_stdout_same.
  - unfold bind, modify. rewrite IH. simpl. by rewrite !append_assoc.
  - unfold bind, modify. rewrite IH. simpl. by rewrite !append_assoc.
  - by rewrite append_empty_r, set_stdout_same.
Qed.

Section Exec.
Variable get_code : loader -> list N -> exn + list stmt.

Lemma spec_from_file_location_inv name location spec :
  spec_from_file_location name location = Some spec ->
  exists l, spec = mkSpec name location (Some l).
Proof.
  unfold spec_from_file_location. repeat case_match; intros [= <-]; eauto.
Qed.

Lemma load_code_ok st p l bs prog :
  read_bytes (st_fs st) (st_cwd st) p = Ok bs -> get_code l bs = inr prog ->
  load_code get_code l p st = (Ok prog, st).
Proof. intros Hr Hc. unfold load_code, bind, lift. by rewrite Hr, Hc. Qed.

Lemma load_code_state st p l : snd (load_code get_code l p st) = st.
Proof.
  unfold load_code, bind, lift. destruct (read_bytes _ _ _); [|done].
  by destruct (get_code l a).
Qed.

(** The registry is the only thing a call changes, when it changes anything. *)
Lemma execute_notebook_registered st notebook_path l m :
  spec_from_file_location "notebook_module" notebook_path
  = Some (mkSpec "notebook_module" notebook_path (Some l)) ->
  fst (module_from_spec get_code
         (mkSpec "notebook_module" notebook_path (Some l)) st) = Ok m ->
  snd (execute_notebook get_code notebook_path st) = register m st.
Proof.
  intros Hs Hm. unfold execute_notebook, try_except, bind at 1. rewrite Hs.
  unfold ret at 1. unfold bind at 1.
  assert (Hm' : module_from_spec get_code
                  (mkSpec "notebook_module" notebook_path (Some l)) st
                = (Ok m, st)).
  { revert Hm. unfold module_from_spec. simpl.
    destruct l; try (unfold ret; simpl; congruence).
    destruct (load_code _ _ _ _) as [[]]; simpl; congruence. }
  rewrite Hm'. simpl spec_loader. unfold bind at 1, ret at 1.
  unfold bind at 1, modify at 1. fold (register m st).
  unfold bind at 1, redirect_stdout, exec_module, bind at 1.
  destruct (load_code get_code l (mod_file m) (set_stdout "" (register m st)))
    as [[prog|e] st'] eqn:El.
  - pose proof (load_code_state (set_stdout "" (register m st)) (mod_file m) l) as Hst.
    rewrite El in Hst. simpl in Hst. subst st'.
    rewrite run_script_spec. simpl.
    destruct (script_error prog) as [e|]; simpl.
    + unfold raise. destruct (is_Exception e); simpl; by destruct st.
    + by destruct st.
  - pose proof (load_code_state (set_stdout "" (register m st)) (mod_file m) l) as Hst.
    rewrite El in Hst. simpl in Hst. subst st'. simpl.
    unfold raise. destruct (is_Exception e); simpl; by destruct st.
Qed.

Lemma module_from_spec_loads st notebook_path l prog :
  loads_as get_code st notebook_path l prog ->
  module_from_spec get_code (mkSpec "notebook_module" notebook_path (Some l)) st
  = (Ok (mkModule "notebook_module" notebook_path), st).
Proof.
  intros (_ & bs & Hr & Hc). unfold module_from_spec. simpl.
  destruct l; try reflexivity.
  by rewrite (load_code_ok st notebook_path _ bs prog).
Qed.

(** A call on a notebook that loads: the registry gets the module, the
    script runs on a fresh buffer, and the result is the buffer or the
    error, wrapped when the handler catches it. *)
Lemma execute_notebook_runs st notebook_path l prog :
  loads_as get_code st notebook_path l prog ->
  execute_notebook get_code notebook_path st
  = (match script_error prog with
     | None => Ok (script_output prog)
     | Some e => if is_Exception e then Raised (wrapped e) else Raised e
     end,
     register (mkModule "notebook_module" notebook_path) st).
Proof.
  intros Hl. pose proof Hl as (Hs & bs & Hr & Hc).
  unfold execute_notebook, try_except, bind at 1. rewrite Hs.
  unfold ret at 1. unfold bind at 1.
  rewrite (module_from_spec_loads st notebook_path l prog Hl).
  simpl spec_loader. unfold bind at 1, ret at 1.
  unfold bind at 1, modify at 1.
  fold (register (mkModule "notebook_module" notebook_path) st).
  unfold bind at 1, redirect_stdout, exec_module, bind at 1.
  rewrite (load_code_ok _ _ l bs prog) by done.
  rewrite run_script_spec. simpl.
  destruct (script_error prog) as [e|]; simpl.
  - unfold raise. destruct (is_Exception e); simpl; by destruct st.
  - by destruct st.
Qed.

(** Once the module exists, the call is the with block run from the state
    in which the module is already registered. *)
Lemma execute_notebook_block st notebook_path l m :
  spec_from_file_location "notebook_module" notebook_path
  = Some (mkSpec "notebook_module" notebook_path (Some l)) ->
  fst (module_from_spec get_code
         (mkSpec "notebook_module" notebook_path (Some l)) st) = Ok m ->
  execute_notebook get_code notebook_path st
  = after_block (redirect_stdout "" (exec_module get_code l m) (register m st)).
Proof.
  intros Hs Hm. unfold execute_notebook, try_except, bind at 1. rewrite Hs.
  unfold ret at 1. unfold bind at 1.
  assert (Hm' : module_from_spec get_code
                  (mkSpec "notebook_module" notebook_path (Some l)) st
                = (Ok m, st)).
  { revert Hm. unfold module_from_spec. simpl.
    destruct l; try (unfold ret; simpl; congruence).
    destruct (load_code _ _ _ _) as [[]]; simpl; congruence. }
  rewrite Hm'. simpl spec_loader. unfold bind at 1, ret at 1.
  unfold bind at 1, modify at 1. fold (register m st).
  unfold bind at 1, redirect_stdout.
  destruct (exec_module get_code l m (set_stdout "" (register m st)))
    as [[u|e] st']; simpl; [reflexivity|].
  unfold raise. by destruct (is_Exception e).
Qed.

(** The block [with redirect_stdout(buffer): exec_module(module)] on a
    notebook that loads: what the local buffer holds when it is left. *)
Lemma captured_output st l m prog :
  (exists bs, read_bytes (st_fs st) (st_cwd st) (mod_file m) = Ok bs
              /\ get_code l bs = inr prog) ->
  fst (redirect_stdout "" (exec_module get_code l m) st)
  = Ok (match script_error prog with Some e => Raised e | None => Ok tt end,
        script_output prog).
Proof.
  intros (bs & Hr & Hc). unfold redirect_stdout, exec_module, bind.
  rewrite (load_code_ok _ _ l bs prog) by done.
  by rewrite run_script_spec.
Qed.

(** C8.  A notebook whose top-level code prints hello and then world: the
    call returns exactly the two lines, each ended by a line feed; the module
    has been registered and nothing has reached the stream that was
    [sys.stdout] before the call. *)
Theorem execute_notebook_hello_world st notebook_path l :
  loads_as get_code st notebook_path l [Print "hello"; Print "world"] ->
  execute_notebook get_code notebook_path st
  = (Ok ("hello" +:+ nl +:+ "world" +:+ nl),
     register (mkModule "notebook_module" notebook_path) st)
  /\ sys_stdout (snd (execute_notebook get_code notebook_path st))
     = sys_stdout st.
Proof.
  intros Hl. by rewrite (execute_notebook_runs st notebook_path l _ Hl).
Qed.

(** C1, as the code has it.  A notebook whose top-level code raises [e], an
    instance of [Exception], after writing [script_output prog]: when the
    with block is left the local buffer holds that output, but the call
    returns nothing; it raises one [Exception] whose message is the fixed
    prefix followed by [str(e)], with none of the output in it. *)
Theorem execute_notebook_wraps_error st notebook_path l prog e :
  loads_as get_code st notebook_path l prog ->
  script_error prog = Some e ->
  is_Exception e = true ->
  let m := mkModule "notebook_module" notebook_path in
  fst (redirect_stdout "" (exec_module get_code l m) (register m st))
  = Ok (Raised e, script_output prog)
  /\ fst (execute_notebook get_code notebook_path st)
     = Raised (mkExn Exception ("Error executing notebook: " +:+ exc_str e)).
Proof.
  intros Hl He Hcls m. split.
  - destruct Hl as (_ & bs & Hr & Hc).
    rewrite (captured_output _ l m prog) by (by exists bs). by rewrite He.
  - rewrite (execute_notebook_runs st notebook_path l prog Hl), He, Hcls.
    reflexivity.
Qed.


End Exec.

Lemma execute_notebook_hello_world_witness :
  execute_notebook sample_get_code
    "Problems/interactive_learn/problem-1/notebook.py" notebook_state
  = (Ok ("hello" +:+ nl +:+ "world" +:+ nl),
     register
       (mkModule "notebook_module"
          "Problems/interactive_learn/problem-1/notebook.py") notebook_state)
  /\ sys_stdout
       (snd (execute_notebook sample_get_code
               "Problems/interactive_learn/problem-1/notebook.py"
               notebook_state))
     = sys_stdout notebook_state.
Proof.
  apply (execute_notebook_hello_world sample_get_code notebook_state
           "Problems/interactive_learn/problem-1/notebook.py" SourceFileLoader).
  split; [reflexivity|]. exists hello_source. split; reflexivity.
Defined.

Lemma execute_notebook_wraps_error_witness :
  fst (redirect_stdout ""
         (exec_module sample_get_code SourceFileLoader
            (mkModule "notebook_module"
               "Problems/interactive_learn/problem-2/notebook.py"))
         (register
            (mkModule "notebook_module"
               "Problems/interactive_learn/problem-2/notebook.py")
            notebook_state))
  = Ok (Raised boom, script_output [Print "partial"; Raise boom])
  /\ fst (execute_notebook sample_get_code
            "Problems/interactive_learn/problem-2/notebook.py" notebook_state)
     = Raised (mkExn Exception ("Error executing notebook: " +:+ exc_str boom)).
Proof.
  apply (execute_notebook_wraps_error sample_get_code notebook_state
           "Problems/interactive_learn/problem-2/notebook.py" SourceFileLoader
           [Print "partial"; Raise boom] boom).
  - split; [reflexivity|]. exists failing_source. split; reflexivity.
  - reflexivity.
  - reflexivity.
Defined.

(** C1 fails as stated.  The notebook of problem 2 prints a line and then
    raises: the buffer held that line when the block was left, yet the call
    returns nothing and the message of the error it raises holds the prefix
    and the description of the original error only.  The notebook of
    problem 3 prints something else before the same error, and the call
    ends in exactly the same way. *)
Lemma execute_notebook_drops_partial_output :
  let p2 := "Problems/interactive_learn/problem-2/notebook.py" in
  let p3 := "Problems/interactive_learn/problem-3/notebook.py" in
  let m2 := mkModule "notebook_module" p2 in
  fst (redirect_stdout "" (exec_module sample_get_code SourceFileLoader m2)
         (register m2 notebook_state))
  = Ok (Raised boom, "partial" +:+ nl)
  /\ fst (execute_notebook sample_get_code p2 notebook_state)
     = Raised (mkExn Exception "Error executing notebook: boom")
  /\ fst (execute_notebook sample_get_code p2 notebook_state)
     = fst (execute_notebook sample_get_code p3 notebook_state).
Proof. repeat split. Qed.


(** The registration does survive a failure that comes after it: a missing
    source file fails in [exec_module], and the new module has replaced the
    old one. *)
Example execute_notebook_missing_file :
  let p9 := "Problems/interactive_learn/problem-9/notebook.py" in
  fst (execute_notebook sample_get_code p9 notebook_state)
  = Raised (wrapped (ENOENT p9))
  /\ sys_modules (snd (execute_notebook sample_get_code p9 notebook_state))
     !! "notebook_module" = Some (mkModule "notebook_module" p9).
Proof. split; reflexivity. Qed.

End ExecFacts.

(** * The problem scaffolder *)
Module ScaffoldFacts.
Import Py Scan FS Utf8 App Props Samples StringFacts FSFacts SaveLoad.
Import NumeralFacts.

Lemma str_of_int_not_sep n : startswith_char (str_of_int n) "/" = false.
Proof.
  unfold str_of_int, NilZero.string_of_uint.
  by destruct (N.to_uint n).
Qed.

Lemma str_of_int_nonempty n : str_of_int n <> "".
Proof.
  unfold str_of_int, NilZero.string_of_uint.
  by destruct (N.to_uint n).
Qed.

(** The path the scaffolder builds is the root, a separator and the
    directory name. *)
Lemma problem_path_eq n s :
  os_path_join PROBLEMS_DIR (dir_name_of n s)
  = "Problems/" +:+ str_of_int n +:+ "_" +:+ replace_char " " "_" s.
Proof.
  unfold os_path_join, dir_name_of.
  pose proof (str_of_int_not_sep n) as H. pose proof (str_of_int_nonempty n).
  destruct (str_of_int n) as [|c r]; [done|].
  rewrite append_cons. simpl startswith_char in *. rewrite H. reflexivity.
Qed.

Lemma replace_char_length old new s :
  String.length (replace_char old new s) = String.length s.
Proof. induction s as [|c s IH]; simpl; [done | by rewrite IH]. Qed.

Lemma replace_char_get old new s i :
  String.get i (replace_char old new s)
  = (fun c => if Ascii.eqb c old then new else c) <$> String.get i s.
Proof.
  revert i. induction s as [|c s IH]; intros i; simpl; [done|].
  destruct i; [done | apply IH].
Qed.

Lemma plain_learn_md : plain_name "learn.md".
Proof. by repeat split. Qed.

Lemma plain_solution_py : plain_name "solution.py".
Proof. by repeat split. Qed.

Lemma encode_learn_md : encode (text_of_string learn_md_template) = Some learn_md_bytes.
Proof. reflexivity. Qed.

Lemma encode_solution_py :
  encode (text_of_string solution_py_template) = Some solution_py_bytes.
Proof. reflexivity. Qed.

Lemma truthy n s :
  n <> 0 -> s <> "" -> negb (n =? 0) && negb (String.eqb s "") = true.
Proof.
  intros Hn Hs. apply N.eqb_neq in Hn. apply String.eqb_neq in Hs.
  by rewrite Hn, Hs.
Qed.

Lemma scaffold_run st n s fs1 q :
  n <> 0 -> s <> "" ->
  os_makedirs (st_fs st) (st_cwd st) (os_path_join PROBLEMS_DIR (dir_name_of n s))
  = Ok fs1 ->
  resolve fs1 (st_cwd st) (os_path_join PROBLEMS_DIR (dir_name_of n s)) = Some q ->
  is_dir fs1 q = true ->
  is_dir fs1 (q ++ ["learn.md"]) = false ->
  is_dir fs1 (q ++ ["solution.py"]) = false ->
  create_new_problem n s true st
  = (Ok tt,
     add_note (st_success ("Created new problem: " +:+ dir_name_of n s))
       (set_fs (scaffolded fs1 q) st)).
Proof.
  intros Hn Hs Hmk Hq Hd HL HS.
  unfold create_new_problem. rewrite (truthy n s Hn Hs). cbv zeta.
  unfold try_except, bind at 1, makedirs. rewrite Hmk.
  unfold bind at 1.
  rewrite (write_text_ok (set_fs fs1 st) _ _ (q ++ ["learn.md"]) learn_md_bytes);
    [| by apply resolve_join; [| | apply plain_learn_md] | exact HL
     | exact encode_learn_md].
  unfold bind at 1.
  erewrite (write_text_ok _ _ _ (q ++ ["solution.py"]) solution_py_bytes);
    [reflexivity | | | exact encode_solution_py]; simpl.
  - erewrite resolve_ext; [by apply resolve_join; [| | apply plain_solution_py]|].
    intros k. by apply is_dir_update_file.
  - by rewrite is_dir_update_file.
Qed.

Lemma is_dir_scaffolded fs1 q k :
  is_dir fs1 (q ++ ["learn.md"]) = false ->
  is_dir fs1 (q ++ ["solution.py"]) = false ->
  is_dir (scaffolded fs1 q) k = is_dir fs1 k.
Proof.
  intros HL HS. unfold scaffolded.
  rewrite is_dir_update_file; [by apply is_dir_update_file|].
  by rewrite is_dir_update_file.
Qed.

Lemma lookup_scaffolded_learn fs1 q :
  fs_lookup (scaffolded fs1 q) (q ++ ["learn.md"]) = Some (File learn_md_bytes).
Proof.
  unfold scaffolded. rewrite fs_lookup_update_ne; [apply fs_lookup_update_eq|].
  intros H. by apply app_inv_head in H.
Qed.

Lemma lookup_scaffolded_solution fs1 q :
  fs_lookup (scaffolded fs1 q) (q ++ ["solution.py"])
  = Some (File solution_py_bytes).
Proof. apply fs_lookup_update_eq. Qed.

Lemma lookup_scaffolded_other fs1 q k :
  k <> q ++ ["learn.md"] -> k <> q ++ ["solution.py"] ->
  fs_lookup (scaffolded fs1 q) k = fs_lookup fs1 k.
Proof.
  intros H1 H2. unfold scaffolded. by rewrite !fs_lookup_update_ne.
Qed.

Lemma read_bytes_at fs cwd p q data :
  resolve fs cwd p = Some q -> q <> [] ->
  fs_lookup fs q = Some (File data) ->
  read_bytes fs cwd p = Ok data.
Proof.
  intros Hq Hne Hl. unfold read_bytes. rewrite Hq.
  destruct q; [done|]. unfold is_dir. by rewrite Hl.
Qed.

Lemma read_bytes_not_dir fs cwd p q data :
  resolve fs cwd p = Some q -> read_bytes fs cwd p = Ok data ->
  is_dir fs q = false.
Proof.
  intros Hq. unfold read_bytes. rewrite Hq. by destruct (is_dir fs q).
Qed.

(** C6.  The target directory exists and holds both files, with whatever
    contents: the scaffolder reports success, and afterwards both files hold
    the templates. *)
Theorem scaffold_overwrites st n s old1 old2 :
  n <> 0 -> s <> "" ->
  let problem_path := os_path_join PROBLEMS_DIR (dir_name_of n s) in
  os_path_isdir (st_fs st) (st_cwd st) problem_path = true ->
  read_bytes (st_fs st) (st_cwd st) (os_path_join problem_path "learn.md")
  = Ok old1 ->
  read_bytes (st_fs st) (st_cwd st) (os_path_join problem_path "solution.py")
  = Ok old2 ->
  let st' := snd (create_new_problem n s true st) in
  read_bytes (st_fs st') (st_cwd st') (os_path_join problem_path "learn.md")
  = Ok learn_md_bytes
  /\ read_bytes (st_fs st') (st_cwd st') (os_path_join problem_path "solution.py")
     = Ok solution_py_bytes
  /\ st_notes st'
     = st_notes st ++ [st_success ("Created new problem: " +:+ dir_name_of n s)].
Proof.
  intros Hn Hs problem_path Hdir H1 H2 st'.
  pose proof (os_makedirs_existing _ _ _ Hdir) as Hmk.
  unfold os_path_isdir in Hdir.
  destruct (resolve _ _ problem_path) as [q|] eqn:Hq; [|done].
  pose proof (resolve_join _ _ _ _ _ Hq Hdir plain_learn_md) as HqL.
  pose proof (resolve_join _ _ _ _ _ Hq Hdir plain_solution_py) as HqS.
  pose proof (read_bytes_not_dir _ _ _ _ _ HqL H1) as HL.
  pose proof (read_bytes_not_dir _ _ _ _ _ HqS H2) as HS.
  subst st'. rewrite (scaffold_run st n s (st_fs st) q); try done. simpl.
  assert (Hres : forall p, resolve (scaffolded (st_fs st) q) (st_cwd st) p
                           = resolve (st_fs st) (st_cwd st) p).
  { intros p. apply resolve_ext. intros k. by apply is_dir_scaffolded. }
  repeat split.
  - eapply read_bytes_at; [by rewrite Hres | by destruct q
                          | apply lookup_scaffolded_learn].
  - eapply read_bytes_at; [by rewrite Hres | by destruct q
                          | apply lookup_scaffolded_solution].
Qed.

(** ** Creating the directories of a path of plain names *)

Lemma is_dir_ensure_dir fs k : is_dir (ensure_dir fs k) k = true.
Proof.
  unfold ensure_dir. destruct (is_dir fs k) eqn:E; [done|].
  apply is_dir_update_dir.
Qed.

Lemma lookup_ensure_dir_ne fs k k' :
  k' <> k -> fs_lookup (ensure_dir fs k) k' = fs_lookup fs k'.
Proof.
  intros H. unfold ensure_dir. destruct (is_dir fs k); [done|].
  by apply fs_lookup_update_ne.
Qed.

Lemma is_dir_ensure_dir_ne fs k k' :
  k' <> k -> is_dir (ensure_dir fs k) k' = is_dir fs k'.
Proof. intros H. unfold is_dir. by rewrite lookup_ensure_dir_ne. Qed.

Lemma makedirs_from_plain fs cur c rest p :
  plain_name c ->
  (forall d, fs_lookup fs (cur ++ [c]) <> Some (File d)) ->
  makedirs_from fs cur (c :: rest) p
  = makedirs_from (ensure_dir fs (cur ++ [c])) (cur ++ [c]) rest p.
Proof.
  intros Hc Hl. simpl. rewrite step_plain by done. unfold ensure_dir.
  destruct (is_dir fs (cur ++ [c])) eqn:E; [done|].
  destruct (fs_lookup fs (cur ++ [c])) as [[d|]|] eqn:El; [by destruct (Hl d)| |done].
  unfold is_dir in E. rewrite El in E. by destruct (cur ++ [c]).
Qed.

Lemma path_snoc_ne (q : path) a : q <> q ++ [a].
Proof.
  intros H. apply (f_equal length) in H. rewrite length_app in H.
  simpl in H. lia.
Qed.

Lemma path_snoc2_ne (q : path) a b : q <> (q ++ [a]) ++ [b].
Proof.
  intros H. apply (f_equal length) in H. rewrite !length_app in H.
  simpl in H. lia.
Qed.

(** C7.  Number 42 and name Two Sum, from any state in which the working
    directory exists, neither the problems root nor the target is a regular
    file, and no directory stands where the two files go: the scaffolder
    reports success; afterwards [Problems/42_Two_Sum] is a directory, its
    [learn.md] holds the description template, which starts with the
    heading, and its [solution.py] holds the stub, which contains the
    function header. *)
Theorem scaffold_two_sum st :
  let target := (st_cwd st ++ ["Problems"]) ++ ["42_Two_Sum"] in
  is_dir (st_fs st) (st_cwd st) = true ->
  (forall d, fs_lookup (st_fs st) (st_cwd st ++ ["Problems"]) <> Some (File d)) ->
  (forall d, fs_lookup (st_fs st) target <> Some (File d)) ->
  is_dir (st_fs st) (target ++ ["learn.md"]) = false ->
  is_dir (st_fs st) (target ++ ["solution.py"]) = false ->
  let st' := snd (create_new_problem 42 "Two Sum" true st) in
  dir_name_of 42 "Two Sum" = "42_Two_Sum"
  /\ resolve (st_fs st') (st_cwd st') "Problems/42_Two_Sum" = Some target
  /\ os_path_isdir (st_fs st') (st_cwd st') "Problems/42_Two_Sum" = true
  /\ fs_lookup (st_fs st') (target ++ ["learn.md"]) = Some (File learn_md_bytes)
  /\ (exists rest,
        learn_md_bytes = text_of_string "# Problem Description" ++ rest)
  /\ fs_lookup (st_fs st') (target ++ ["solution.py"])
     = Some (File solution_py_bytes)
  /\ occurs (text_of_string "def solution():") solution_py_bytes
  /\ st_notes st'
     = st_notes st ++ [st_success "Created new problem: 42_Two_Sum"].
Proof.
  intros target Hcwd Hroot Htarget HL HS st'.
  set (root := st_cwd st ++ ["Problems"]) in *.
  set (fs1 := ensure_dir (ensure_dir (st_fs st) root) target).
  assert (Hmk : os_makedirs (st_fs st) (st_cwd st)
                  (os_path_join PROBLEMS_DIR (dir_name_of 42 "Two Sum"))
                = Ok fs1).
  { unfold os_makedirs.
    change (os_path_join PROBLEMS_DIR (dir_name_of 42 "Two Sum"))
      with "Problems/42_Two_Sum".
    change (start_of (st_cwd st) "Problems/42_Two_Sum") with (st_cwd st).
    change (split_sep "Problems/42_Two_Sum") with ["Problems"; "42_Two_Sum"].
    rewrite decide_False, Hcwd by done.
    rewrite makedirs_from_plain; [|by repeat split | exact Hroot].
    rewrite makedirs_from_plain; [reflexivity | by repeat split |].
    intros d. fold root. fold target.
    rewrite lookup_ensure_dir_ne by apply not_eq_sym, path_snoc_ne.
    apply Htarget. }
  assert (Hd_target : is_dir fs1 target = true) by apply is_dir_ensure_dir.
  assert (Hd_root : is_dir fs1 root = true).
  { unfold fs1. rewrite is_dir_ensure_dir_ne by apply path_snoc_ne.
    apply is_dir_ensure_dir. }
  assert (Hd_cwd : is_dir fs1 (st_cwd st) = true).
  { unfold fs1. rewrite is_dir_ensure_dir_ne by apply path_snoc2_ne.
    by rewrite is_dir_ensure_dir_ne by apply path_snoc_ne. }
  assert (Hres : resolve fs1 (st_cwd st) "Problems/42_Two_Sum" = Some target).
  { unfold resolve. rewrite decide_False by done.
    change (start_of (st_cwd st) "Problems/42_Two_Sum") with (st_cwd st).
    change (split_sep "Problems/42_Two_Sum") with ["Problems"; "42_Two_Sum"].
    simpl. rewrite Hd_cwd. rewrite !step_plain by (by repeat split).
    fold root. by rewrite Hd_root. }
  assert (Hfile : forall name, plain_name name ->
            is_dir (st_fs st) (target ++ [name]) = false ->
            is_dir fs1 (target ++ [name]) = false).
  { intros name Hn Hf. unfold fs1.
    rewrite is_dir_ensure_dir_ne by apply not_eq_sym, path_snoc_ne.
    rewrite is_dir_ensure_dir_ne; [exact Hf|].
    apply not_eq_sym, path_snoc2_ne. }
  pose proof (Hfile _ plain_learn_md HL) as HL1.
  pose proof (Hfile _ plain_solution_py HS) as HS1.
  subst st'.
  rewrite (scaffold_run st 42 "Two Sum" fs1 target); try done. simpl.
  assert (Hres' : resolve (scaffolded fs1 target) (st_cwd st)
                    "Problems/42_Two_Sum" = Some target).
  { rewrite <- Hres. apply resolve_ext. intros k. by apply is_dir_scaffolded. }
  repeat split.
  - exact Hres'.
  - unfold os_path_isdir. rewrite Hres'. by rewrite is_dir_scaffolded.
  - apply lookup_scaffolded_learn.
  - by eexists.
  - apply lookup_scaffolded_solution.
  - by exists [], (text_of_string (nl +:+ "    pass" +:+ nl +:+ nl +:+ "# Test cases" +:+ nl)).
Qed.

(** ** Every outcome of the scaffolder *)

Lemma makedirs_from_error fs cur comps p e :
  makedirs_from fs cur comps p = Raised e -> is_Exception e = true.
Proof.
  revert fs cur. induction comps as [|c rest IH]; intros fs cur; simpl; [done|].
  destruct (is_dir fs (step cur c)); [apply IH|].
  destruct (fs_lookup fs (step cur c)); [|apply IH].
  intros [= <-]. by destruct rest.
Qed.

Lemma os_makedirs_error fs cwd p e :
  os_makedirs fs cwd p = Raised e -> is_Exception e = true.
Proof.
  unfold os_makedirs. destruct (decide (p = "")); [by intros [= <-]|].
  destruct (is_dir fs (start_of cwd p)); [apply makedirs_from_error|].
  by intros [= <-].
Qed.

Lemma write_text_is_dir st p T q :
  resolve (st_fs st) (st_cwd st) p = Some q -> is_dir (st_fs st) q = true ->
  write_text p T st = (Raised (EISDIR p), st).
Proof. intros Hq Hd. unfold write_text, open_w. by rewrite Hq, Hd. Qed.

(** Either every step succeeds, or one error is reported and nothing else is
    noted. *)
Lemma scaffold_outcome st n s :
  n <> 0 -> s <> "" ->
  (exists fs1 q,
     os_makedirs (st_fs st) (st_cwd st)
       (os_path_join PROBLEMS_DIR (dir_name_of n s)) = Ok fs1
     /\ resolve fs1 (st_cwd st) (os_path_join PROBLEMS_DIR (dir_name_of n s))
        = Some q
     /\ is_dir fs1 q = true
     /\ is_dir fs1 (q ++ ["learn.md"]) = false
     /\ is_dir fs1 (q ++ ["solution.py"]) = false)
  \/ (exists msg st1,
        create_new_problem n s true st = (Ok tt, add_note (st_error msg) st1)
        /\ st_notes st1 = st_notes st).
Proof.
  intros Hn Hs.
  destruct (os_makedirs _ _ _) as [fs1|e] eqn:Hmk.
  - destruct (os_makedirs_isdir _ _ _ _ Hmk) as (q & Hq & Hd).
    destruct (is_dir fs1 (q ++ ["learn.md"])) eqn:HL.
    { right. eexists _, _. split; [|shelve].
      unfold create_new_problem. rewrite (truthy n s Hn Hs). cbv zeta.
      unfold try_except, bind at 1, makedirs. rewrite Hmk.
      unfold bind at 1.
      rewrite (write_text_is_dir (set_fs fs1 st) _ _ (q ++ ["learn.md"]));
        [reflexivity | by apply resolve_join; [| | apply plain_learn_md]
        | exact HL]. }
    destruct (is_dir fs1 (q ++ ["solution.py"])) eqn:HS.
    { right. eexists _, _. split; [|shelve].
      unfold create_new_problem. rewrite (truthy n s Hn Hs). cbv zeta.
      unfold try_except, bind at 1, makedirs. rewrite Hmk.
      unfold bind at 1.
      rewrite (write_text_ok (set_fs fs1 st) _ _ (q ++ ["learn.md"])
                 learn_md_bytes);
        [| by apply resolve_join; [| | apply plain_learn_md] | exact HL
         | exact encode_learn_md].
      unfold bind at 1.
      erewrite (write_text_is_dir _ _ _ (q ++ ["solution.py"]));
        [reflexivity | |]; simpl.
      - erewrite resolve_ext;
          [by apply resolve_join; [| | apply plain_solution_py]|].
        intros k. by apply is_dir_update_file.
      - by rewrite is_dir_update_file. }
    left. by exists fs1, q.
  - right. eexists _, _. split; [|shelve].
    unfold create_new_problem. rewrite (truthy n s Hn Hs). cbv zeta.
    unfold try_except, bind at 1, makedirs. rewrite Hmk.
    rewrite (os_makedirs_error _ _ _ _ Hmk). reflexivity.
  Unshelve. all: reflexivity.
Qed.

(** C10.  Whenever the scaffolder reports success, the directory it has
    made is found at the root, a separator, the decimal numeral of the
    number, an underscore and the name with every space turned into an
    underscore and every other character left in place, separators and
    capitals included; that directory holds the two templates, and the note
    names it in the same way. *)
Theorem scaffold_path_verbatim st n s :
  n <> 0 -> s <> "" ->
  let s' := replace_char " " "_" s in
  let st' := snd (create_new_problem n s true st) in
  (exists msg, st_notes st' = st_notes st ++ [st_success msg]) ->
  exists ds q,
    decimal_numeral ds n
    /\ String.length s' = String.length s
    /\ (forall i,
          String.get i s'
          = (fun c => if Ascii.eqb c " " then "_"%char else c) <$> String.get i s)
    /\ st_notes st'
       = st_notes st
         ++ [st_success ("Created new problem: " +:+ ds +:+ "_" +:+ s')]
    /\ resolve (st_fs st') (st_cwd st') ("Problems/" +:+ ds +:+ "_" +:+ s')
       = Some q
    /\ is_dir (st_fs st') q = true
    /\ fs_lookup (st_fs st') (q ++ ["learn.md"]) = Some (File learn_md_bytes)
    /\ fs_lookup (st_fs st') (q ++ ["solution.py"])
       = Some (File solution_py_bytes).
Proof.
  intros Hn Hs s' st' [msg0 Hok].
  destruct (scaffold_outcome st n s Hn Hs)
    as [(fs1 & q & Hmk & Hq & Hd & HL & HS)|(msg & st1 & Hrun & Hnotes)].
  - exists (str_of_int n), q. subst st'.
    rewrite (scaffold_run st n s fs1 q); try done. simpl.
    rewrite problem_path_eq in Hq. fold s' in Hq.
    split; [apply str_of_int_numeral|].
    split; [apply replace_char_length|].
    split; [apply replace_char_get|].
    repeat split.
    + rewrite <- Hq. apply resolve_ext. intros k. by apply is_dir_scaffolded.
    + by rewrite is_dir_scaffolded.
    + apply lookup_scaffolded_learn.
    + apply lookup_scaffolded_solution.
  - exfalso. subst st'. rewrite Hrun in Hok. simpl in Hok.
    rewrite Hnotes in Hok. by apply app_inv_head in Hok.
Qed.

Lemma scaffold_overwrites_witness :
  read_bytes
    (st_fs (snd (create_new_problem 42 "Two Sum" true edited_state)))
    (st_cwd (snd (create_new_problem 42 "Two Sum" true edited_state)))
    (os_path_join (os_path_join PROBLEMS_DIR (dir_name_of 42 "Two Sum"))
       "learn.md")
  = Ok learn_md_bytes
  /\ read_bytes
       (st_fs (snd (create_new_problem 42 "Two Sum" true edited_state)))
       (st_cwd (snd (create_new_problem 42 "Two Sum" true edited_state)))
       (os_path_join (os_path_join PROBLEMS_DIR (dir_name_of 42 "Two Sum"))
          "solution.py")
     = Ok solution_py_bytes
  /\ st_notes (snd (create_new_problem 42 "Two Sum" true edited_state))
     = st_notes edited_state
       ++ [st_success ("Created new problem: " +:+ dir_name_of 42 "Two Sum")].
Proof.
  apply (scaffold_overwrites edited_state 42 "Two Sum"
           (text_of_string "# Two Sum, my notes")
           (text_of_string "def solution(): return 1"));
    [lia | discriminate | reflexivity | reflexivity | reflexivity].
Defined.

Lemma scaffold_two_sum_witness :
  dir_name_of 42 "Two Sum" = "42_Two_Sum"
  /\ resolve (st_fs (snd (create_new_problem 42 "Two Sum" true empty_state)))
       (st_cwd (snd (create_new_problem 42 "Two Sum" true empty_state)))
       "Problems/42_Two_Sum"
     = Some ((st_cwd empty_state ++ ["Problems"]) ++ ["42_Two_Sum"])
  /\ os_path_isdir
       (st_fs (snd (create_new_problem 42 "Two Sum" true empty_state)))
       (st_cwd (snd (create_new_problem 42 "Two Sum" true empty_state)))
       "Problems/42_Two_Sum" = true
  /\ fs_lookup (st_fs (snd (create_new_problem 42 "Two Sum" true empty_state)))
       (((st_cwd empty_state ++ ["Problems"]) ++ ["42_Two_Sum"]) ++ ["learn.md"])
     = Some (File learn_md_bytes)
  /\ (exists rest,
        learn_md_bytes = text_of_string "# Problem Description" ++ rest)
  /\ fs_lookup (st_fs (snd (create_new_problem 42 "Two Sum" true empty_state)))
       (((st_cwd empty_state ++ ["Problems"]) ++ ["42_Two_Sum"])
        ++ ["solution.py"])
     = Some (File solution_py_bytes)
  /\ occurs (text_of_string "def solution():") solution_py_bytes
  /\ st_notes (snd (create_new_problem 42 "Two Sum" true empty_state))
     = st_notes empty_state ++ [st_success "Created new problem: 42_Two_Sum"].
Proof.
  apply (scaffold_two_sum empty_state);
    [reflexivity | discriminate | discriminate | reflexivity | reflexivity].
Defined.

Lemma scaffold_path_verbatim_witness :
  exists ds q,
    decimal_numeral ds 7
    /\ String.length (replace_char " " "_" "Graphs/BFS and DFS")
       = String.length "Graphs/BFS and DFS"
    /\ (forall i,
          String.get i (replace_char " " "_" "Graphs/BFS and DFS")
          = (fun c => if Ascii.eqb c " " then "_"%char else c)
              <$> String.get i "Graphs/BFS and DFS")
    /\ st_notes (snd (create_new_problem 7 "Graphs/BFS and DFS" true
                        empty_state))
       = st_notes empty_state
         ++ [st_success ("Created new problem: " +:+ ds +:+ "_"
                         +:+ replace_char " " "_" "Graphs/BFS and DFS")]
    /\ resolve
         (st_fs (snd (create_new_problem 7 "Graphs/BFS and DFS" true
                        empty_state)))
         (st_cwd (snd (create_new_problem 7 "Graphs/BFS and DFS" true
                         empty_state)))
         ("Problems/" +:+ ds +:+ "_"
          +:+ replace_char " " "_" "Graphs/BFS and DFS")
       = Some q
    /\ is_dir
         (st_fs (snd (create_new_problem 7 "Graphs/BFS and DFS" true
                        empty_state))) q = true
    /\ fs_lookup
         (st_fs (snd (create_new_problem 7 "Graphs/BFS and DFS" true
                        empty_state))) (q ++ ["learn.md"])
       = Some (File learn_md_bytes)
    /\ fs_lookup
         (st_fs (snd (create_new_problem 7 "Graphs/BFS and DFS" true
                        empty_state))) (q ++ ["solution.py"])
       = Some (File solution_py_bytes).
Proof.
  apply (scaffold_path_verbatim empty_state 7 "Graphs/BFS and DFS");
    [lia | discriminate | eexists; reflexivity].
Defined.

(** The separator in the name makes a nested directory, the capitals stay. *)
Example scaffold_nested_name :
  os_path_join PROBLEMS_DIR (dir_name_of 7 "Graphs/BFS and DFS")
  = "Problems/7_Graphs/BFS_and_DFS"
  /\ resolve
       (st_fs (snd (create_new_problem 7 "Graphs/BFS and DFS" true empty_state)))
       [] "Problems/7_Graphs/BFS_and_DFS"
     = Some ["Problems"; "7_Graphs"; "BFS_and_DFS"]
  /\ fs_lookup
       (st_fs (snd (create_new_problem 7 "Graphs/BFS and DFS" true empty_state)))
       ["Problems"; "7_Graphs"; "BFS_and_DFS"; "learn.md"]
     = Some (File learn_md_bytes).
Proof. repeat split. Qed.

(** Without a press of the button, or with an empty name, nothing happens. *)
Example scaffold_guard st n s :
  create_new_problem n s false st = (Ok tt, st)
  /\ create_new_problem n "" true st = (Ok tt, st)
  /\ create_new_problem 0 s true st = (Ok tt, st).
Proof.
  unfold create_new_problem. repeat split.
  by rewrite andb_false_r.
Qed.

End ScaffoldFacts.

(** * More on the scanner's key *)
Module ScanMore.
Import Scan FS Utf8 App Props Samples MoreSamples StringFacts ScanFacts.
Import NumeralFacts.

(** The name the scaffolder gives a problem carries the problem's number as
    its sort key, whatever the problem is called. *)
Theorem scaffolded_name_key n s : get_number (dir_name_of n s) = KInt n.
Proof.
  apply get_number_numbered. unfold dir_name_of.
  apply numeral_numbered, str_of_int_numeral.
Qed.

(** Zeros in front of the number do not change the key: [007_x] sorts as
    [7_x] does. *)
Theorem leading_zero_same_key d n :
  numbered d n -> get_number ("0" +:+ d) = get_number d.
Proof.
  intros Hn. rewrite (proj2 (get_number_numbered d n) Hn).
  apply get_number_numbered.
  destruct Hn as (cs & vs & rest & Hd & Hne & Hcs & <-).
  exists (48 :: cs), (0 :: vs), rest.
  split; [|split; [done|split]].
  - change ("0" +:+ d) with (String "0" d). unfold os_fsdecode.
    change (text_of_string (String "0" d)) with (48 :: text_of_string d).
    rewrite decode_escape_ascii by lia. fold (os_fsdecode d). by rewrite Hd.
  - constructor; [|exact Hcs]. exists 48. split; [by left | done].
  - simpl. lia.
Qed.

Lemma leading_zero_same_key_witness :
  get_number ("0" +:+ "7_queue") = get_number "7_queue".
Proof.
  apply (leading_zero_same_key "7_queue" 7).
  apply get_number_numbered. reflexivity.
Defined.

Lemma key_le_antisym a b : key_le a b -> key_le b a -> a = b.
Proof.
  unfold key_le. destruct a, b; simpl; try congruence.
  rewrite !N.ltb_ge. intros. f_equal. lia.
Qed.

(** A list sorted by pairwise different keys is the only sorted arrangement
    of its elements. *)
Lemma sorted_unique {A} (f : A -> key) (l l' : list A) :
  StronglySorted (le_by f) l -> StronglySorted (le_by f) l' ->
  l ≡ₚ l' -> NoDup (map f l) -> l = l'.
Proof.
  intros Hl. revert l'. induction Hl as [|x r Hr IH Hx]; intros l' Hl' Hp Hnd.
  - by apply Permutation_nil in Hp.
  - destruct Hl' as [|y r' Hr' Hy]; [by apply Permutation_sym, Permutation_nil in Hp|].
    simpl in Hnd. apply NoDup_cons in Hnd as [Hfx Hnd].
    assert (x = y) as <-.
    { assert (Hxin : x ∈ y :: r') by (rewrite <- Hp; left).
      assert (Hyin : y ∈ x :: r) by (rewrite Hp; left).
      apply elem_of_cons in Hxin as [->|Hxin]; [done|].
      apply elem_of_cons in Hyin as [->|Hyin]; [done|].
      exfalso. apply Hfx.
      rewrite list.Forall_forall in Hx, Hy.
      rewrite (key_le_antisym (f x) (f y) (Hx y Hyin) (Hy x Hxin)).
      apply list_elem_of_fmap. by exists y. }
    f_equal. apply IH; [exact Hr' | by apply Permutation_cons_inv in Hp | exact Hnd].
Qed.

(** When no two subdirectories have the same key (the numbers are pairwise
    different and at most one name has none), the order in which the
    directory is enumerated does not matter: two listings with the same
    subdirectories give the same result. *)
Theorem scanner_ignores_enumeration_order st st' names names' :
  os_listdir (st_fs st) (st_cwd st) PROBLEMS_DIR = Ok names ->
  os_listdir (st_fs st') (st_cwd st') PROBLEMS_DIR = Ok names' ->
  filter (fun d => Is_true (os_path_isdir (st_fs st) (st_cwd st)
                              (os_path_join PROBLEMS_DIR d))) names
  ≡ₚ filter (fun d => Is_true (os_path_isdir (st_fs st') (st_cwd st')
                                 (os_path_join PROBLEMS_DIR d))) names' ->
  NoDup (map get_number
           (filter (fun d => Is_true (os_path_isdir (st_fs st) (st_cwd st)
                                        (os_path_join PROBLEMS_DIR d))) names)) ->
  fst (get_problem_directories st) = fst (get_problem_directories st').
Proof.
  intros Hn Hn' Hp Hnd.
  rewrite !get_problem_directories_unfold, Hn, Hn'. simpl. f_equal.
  apply (sorted_unique get_number); try apply sorted_sorted.
  - by rewrite !sorted_perm.
  - eapply NoDup_Permutation_proper; [|exact Hnd].
    apply fmap_Permutation, sorted_perm.
Qed.

Lemma scanner_ignores_enumeration_order_witness :
  fst (get_problem_directories distinct_state)
  = fst (get_problem_directories distinct_state_shuffled).
Proof.
  apply (scanner_ignores_enumeration_order distinct_state
           distinct_state_shuffled
           ["notes"; "10_b"; "2_a"; "9_readme.md"; "7_c"]
           ["7_c"; "2_a"; "notes"; "9_readme.md"; "10_b"]).
  - reflexivity.
  - reflexivity.
  - apply (bool_decide_unpack _). vm_compute. exact I.
  - apply (bool_decide_unpack _). vm_compute. exact I.
Defined.

End ScanMore.

(** * The codec, the other way round *)
Module CodecMore.
Import Utf8 Props CodecFacts.

Lemma fmap_cons_Some {A} (x : A) (o : option (list A)) t :
  cons x <$> o = Some t -> exists t', o = Some t' /\ t = x :: t'.
Proof. destruct o as [t'|]; [|done]. intros [= <-]. by exists t'. Qed.

(** The decoder is strict: it accepts only what the encoder writes. *)
Lemma encode_decode_upto n bs t :
  (length bs <= n)%nat -> decode bs = Some t -> encode t = Some bs.
Proof.
  revert bs t. induction n as [|n IH]; intros bs t Hlen.
  - destruct bs; [|simpl in Hlen; lia]. by intros [= <-].
  - destruct bs as [|b0 r0]; [by intros [= <-]|].
    cbv beta iota zeta delta [decode]; fold decode.
    unfold is_cont, is_surrogate.
    repeat (case_match; try discriminate); subst; simpl in Hlen;
      intros (t' & Hd & ->)%fmap_cons_Some;
      (apply IH in Hd; [|lia]);
      cbn [encode]; rewrite Hd; unfold encode_cp, is_surrogate;
      repeat match goal with
        | H : (_ && _) = true |- _ => apply andb_true_iff in H as [? ?]
        | H : negb _ = true |- _ => apply negb_true_iff in H
        end;
      bool_to_prop;
      repeat settle_test; cbn [andb]; simpl app;
      repeat f_equal; lia.
Qed.

Lemma encode_decode bs t : decode bs = Some t -> encode t = Some bs.
Proof. by apply (encode_decode_upto (length bs)). Qed.

Lemma encode_keeps_cr t bs : encode t = Some bs -> 13 ∈ t -> 13 ∈ bs.
Proof.
  revert bs. induction t as [|c t IH]; intros bs; simpl; [by intros _ ?%elem_of_nil|].
  destruct (encode_cp c) as [b|] eqn:Ec; [|done].
  destruct (encode t) as [r|]; [|done]. intros [= <-] Hin.
  apply elem_of_app. apply elem_of_cons in Hin as [<-|Hin].
  - left. injection Ec as <-. left.
  - right. by apply IH.
Qed.

Lemma universal_newlines_no_cr_left t : 13 ∉ universal_newlines t.
Proof.
  cut ((13 ∉ universal_newlines t)
       /\ (forall c, 13 ∉ universal_newlines (c :: t)));
    [tauto|].
  induction t as [|d t [IH1 IH2]].
  - split; [apply not_elem_of_nil|]. intros c. simpl.
    destruct (N.eqb_spec c 13); rewrite not_elem_of_cons; split;
      try apply not_elem_of_nil; done.
  - split; [apply IH2|]. intros c.
    change (universal_newlines (c :: d :: t))
      with (if c =? 13
            then if d =? 10 then 10 :: universal_newlines t
                 else 10 :: universal_newlines (d :: t)
            else c :: universal_newlines (d :: t)).
    destruct (N.eqb_spec c 13).
    + destruct (d =? 10); rewrite not_elem_of_cons; split; try done; apply IH2.
    + rewrite not_elem_of_cons. split; [done | apply IH2].
Qed.

Lemma encode_surrogate t :
  Exists (fun c => is_surrogate c = true) t -> encode t = None.
Proof.
  induction 1 as [c t Hc|c t _ IH]; simpl.
  - assert (encode_cp c = None) as ->; [|done].
    unfold encode_cp. rewrite Hc. unfold is_surrogate in Hc.
    apply andb_true_iff in Hc as [H1 H2]. bool_to_prop.
    repeat settle_test. reflexivity.
  - rewrite IH. by destruct (encode_cp c).
Qed.

End CodecMore.

(** * More on loading and saving *)
Module IOMore.
Import FS Utf8 App Props Samples FSFacts CodecFacts CodecMore SaveLoad.

Lemma read_bytes_inv fs cwd p bs :
  read_bytes fs cwd p = Ok bs ->
  exists q, resolve fs cwd p = Some q /\ is_dir fs q = false
            /\ fs_lookup fs q = Some (File bs).
Proof.
  unfold read_bytes. destruct (resolve fs cwd p) as [q|]; [|done].
  destruct (is_dir fs q) eqn:Ed; [done|].
  destruct (fs_lookup fs q) as [[d|]|] eqn:El; try done.
  intros [= <-]. by exists q.
Qed.

Lemma resolve_error_exception fs cwd p :
  is_Exception (resolve_error fs cwd p) = true.
Proof.
  by destruct (ScanFacts.resolve_error_class fs cwd p) as [H|H];
    unfold is_Exception; rewrite H.
Qed.

Lemma read_bytes_error fs cwd p e :
  read_bytes fs cwd p = Raised e -> is_Exception e = true.
Proof.
  unfold read_bytes. destruct (resolve fs cwd p) as [q|];
    [|intros [= <-]; apply resolve_error_exception].
  destruct (is_dir fs q); [by intros [= <-]|].
  destruct (fs_lookup fs q) as [[d|]|]; by intros [= <-].
Qed.

(** What the loader does, by what reading finds. *)
Lemma load_file_content_cases st p :
  load_file_content p st
  = match read_bytes (st_fs st) (st_cwd st) p with
    | Ok bs =>
        match decode bs with
        | Some t => (Ok (universal_newlines t), st)
        | None =>
            (Ok [], add_note (st_error ("Error loading file: "
                                        +:+ exc_str decode_error)) st)
        end
    | Raised e =>
        (Ok [], add_note (st_error ("Error loading file: " +:+ exc_str e)) st)
    end.
Proof.
  unfold load_file_content, try_except, read_text.
  destruct (read_bytes _ _ p) as [bs|e] eqn:Hr.
  - by destruct (decode bs).
  - by rewrite (read_bytes_error _ _ _ _ Hr).
Qed.

(** The loader never raises and never touches anything but the notes: it
    returns the text and notes nothing, or it returns the empty text and
    notes one error that names the cause. *)
Theorem load_file_content_degrades st p :
  let r := load_file_content p st in
  st_fs (snd r) = st_fs st
  /\ st_cwd (snd r) = st_cwd st
  /\ sys_modules (snd r) = sys_modules st
  /\ sys_stdout (snd r) = sys_stdout st
  /\ ((exists bs t,
         read_bytes (st_fs st) (st_cwd st) p = Ok bs /\ decode bs = Some t
         /\ fst r = Ok (universal_newlines t) /\ st_notes (snd r) = st_notes st)
      \/ (fst r = Ok []
          /\ exists cause,
               st_notes (snd r)
               = st_notes st ++ [st_error ("Error loading file: " +:+ cause)])).
Proof.
  intros r. subst r. rewrite load_file_content_cases.
  destruct (read_bytes _ _ p) as [bs|e] eqn:Hr.
  - destruct (decode bs) as [t|] eqn:Hd; simpl; repeat split.
    + left. by exists bs, t.
    + right. split; [done|]. by eexists.
  - simpl. repeat split. right. split; [done|]. by eexists.
Qed.

(** Whatever the file holds, the text the loader hands to the editor has no
    carriage return in it: the file is opened in text mode, and after an
    error the text is empty. *)
Theorem loaded_text_has_no_carriage_return st p :
  exists t, fst (load_file_content p st) = Ok t /\ 13 ∉ t.
Proof.
  rewrite load_file_content_cases.
  destruct (read_bytes _ _ p) as [bs|e].
  - destruct (decode bs) as [t'|]; simpl; eexists; (split; [reflexivity|]);
      [apply universal_newlines_no_cr_left | apply not_elem_of_nil].
  - simpl. eexists. split; [reflexivity | apply not_elem_of_nil].
Qed.

(** What the saver does, by what opening the file and encoding find. *)
Lemma save_file_content_cases st p T :
  save_file_content p T st
  = match resolve (st_fs st) (st_cwd st) p with
    | None =>
        (Ok tt,
         add_note (st_error ("Error saving file: "
                             +:+ exc_str (resolve_error (st_fs st) (st_cwd st) p)))
           st)
    | Some q =>
        if is_dir (st_fs st) q
        then (Ok tt, add_note (st_error ("Error saving file: "
                                         +:+ exc_str (EISDIR p))) st)
        else match encode T with
             | Some bs =>
                 (Ok tt,
                  add_note (st_success ("Successfully saved changes to " +:+ p))
                    (set_fs (fs_update (st_fs st) q (File bs)) st))
             | None =>
                 (Ok tt,
                  add_note (st_error ("Error saving file: "
                                      +:+ exc_str encode_error))
                    (set_fs (fs_update (st_fs st) q (File [])) st))
             end
    end.
Proof.
  unfold save_file_content, try_except, bind, write_text, open_w.
  destruct (resolve _ _ p) as [q|];
    [|by rewrite resolve_error_exception].
  destruct (is_dir (st_fs st) q); [done|].
  destruct (encode T); simpl; [|done]. by rewrite fs_update_update.
Qed.

(** The saver never raises and notes exactly one outcome; it changes no
    directory and no entry other than the one the path leads to. *)
Theorem save_file_content_frame st p T :
  let st' := snd (save_file_content p T st) in
  fst (save_file_content p T st) = Ok tt
  /\ (exists n, st_notes st' = st_notes st ++ [n])
  /\ (forall k, is_dir (st_fs st') k = is_dir (st_fs st) k)
  /\ (forall k, resolve (st_fs st) (st_cwd st) p <> Some k ->
                fs_lookup (st_fs st') k = fs_lookup (st_fs st) k)
  /\ st_cwd st' = st_cwd st.
Proof.
  intros st'. subst st'. rewrite save_file_content_cases.
  destruct (resolve _ _ p) as [q|]; [|simpl; repeat split; by eexists].
  destruct (is_dir (st_fs st) q) eqn:Ed; [simpl; repeat split; by eexists|].
  destruct (encode T); simpl; repeat split; try (by eexists);
    try (intros k; by apply is_dir_update_file);
    intros k Hk; apply fs_lookup_update_ne; congruence.
Qed.

(** A text that cannot be encoded costs the file its content: the file is
    emptied when it is opened, the write then fails and is reported, and a
    later load finds the empty text. *)
Theorem failed_save_empties_file st p T :
  writable st p ->
  Exists (fun c => is_surrogate c = true) T ->
  let st' := snd (save_file_content p T st) in
  read_bytes (st_fs st') (st_cwd st') p = Ok []
  /\ st_notes st'
     = st_notes st ++ [st_error ("Error saving file: " +:+ exc_str encode_error)]
  /\ fst (load_file_content p st') = Ok [].
Proof.
  intros (q & Hq & Hd) HT st'. subst st'.
  rewrite save_file_content_cases, Hq, Hd, (encode_surrogate T HT). simpl.
  assert (Hr : read_bytes (fs_update (st_fs st) q (File [])) (st_cwd st) p = Ok []).
  { unfold read_bytes.
    rewrite (resolve_ext (st_fs st)) by (intros k; by apply is_dir_update_file).
    rewrite Hq, is_dir_update_file, Hd by done.
    by rewrite fs_lookup_update_eq. }
  repeat split; [exact Hr|].
  rewrite load_file_content_cases. simpl. by rewrite Hr.
Qed.

Lemma failed_save_empties_file_witness :
  read_bytes
    (st_fs (snd (save_file_content "Problems/42_Two_Sum/learn.md"
                   [72; 0xD83D] edited_state)))
    (st_cwd (snd (save_file_content "Problems/42_Two_Sum/learn.md"
                    [72; 0xD83D] edited_state)))
    "Problems/42_Two_Sum/learn.md" = Ok []
  /\ st_notes (snd (save_file_content "Problems/42_Two_Sum/learn.md"
                      [72; 0xD83D] edited_state))
     = st_notes edited_state
       ++ [st_error ("Error saving file: " +:+ exc_str encode_error)]
  /\ fst (load_file_content "Problems/42_Two_Sum/learn.md"
            (snd (save_file_content "Problems/42_Two_Sum/learn.md"
                    [72; 0xD83D] edited_state))) = Ok [].
Proof.
  apply (failed_save_empties_file edited_state "Problems/42_Two_Sum/learn.md"
           [72; 0xD83D]).
  - exists ["Problems"; "42_Two_Sum"; "learn.md"]. split; reflexivity.
  - right. left. reflexivity.
Defined.

Lemma fs_update_same fs q n : fs_lookup fs q = Some n -> fs_update fs q n = fs.
Proof.
  induction fs as [|[k m] r IH]; simpl; [done|].
  destruct (decide (k = q)) as [->|Hk]; [by intros [= ->]|].
  intros H. by rewrite IH.
Qed.

Lemma writable_after_save st p T :
  writable st p -> writable (snd (save_file_content p T st)) p.
Proof.
  intros (q & Hq & Hd). exists q.
  rewrite save_file_content_cases, Hq, Hd.
  destruct (encode T); simpl; rewrite is_dir_update_file by done;
    (split; [|exact Hd]); rewrite <- Hq; apply resolve_ext;
    intros k; by apply is_dir_update_file.
Qed.

Lemma load_after_save st p T :
  writable st p -> Forall scalar T ->
  fst (load_file_content p (snd (save_file_content p T st)))
  = Ok (universal_newlines T).
Proof.
  intros (q & Hq & Hd) HT.
  destruct (encode_scalar T HT) as [bs Hbs].
  rewrite save_file_content_cases, Hq, Hd, Hbs. simpl.
  rewrite load_file_content_cases. simpl.
  assert (read_bytes (fs_update (st_fs st) q (File bs)) (st_cwd st) p = Ok bs)
    as ->.
  { unfold read_bytes.
    rewrite (resolve_ext (st_fs st)) by (intros k; by apply is_dir_update_file).
    rewrite Hq, is_dir_update_file, Hd by done.
    by rewrite fs_lookup_update_eq. }
  by rewrite (decode_encode _ _ Hbs).
Qed.

(** The last save wins: whatever was saved to a path before, a load returns
    the text of the latest save (with its newlines translated). *)
Theorem last_save_wins st p T1 T2 :
  writable st p ->
  Forall scalar T2 ->
  fst (load_file_content p
         (snd (save_file_content p T2 (snd (save_file_content p T1 st)))))
  = Ok (universal_newlines T2).
Proof.
  intros Hw HT. apply load_after_save; [|exact HT].
  by apply writable_after_save.
Qed.

Lemma last_save_wins_witness :
  fst (load_file_content "notes.md"
         (snd (save_file_content "notes.md" [0x6E; 0x65; 0x77; 10]
                 (snd (save_file_content "notes.md" [0x6F; 0x6C; 0x64; 0xD800]
                         empty_state)))))
  = Ok (universal_newlines [0x6E; 0x65; 0x77; 10]).
Proof.
  apply (last_save_wins empty_state "notes.md" [0x6F; 0x6C; 0x64; 0xD800]
           [0x6E; 0x65; 0x77; 10]).
  - exists ["notes.md"]. split; reflexivity.
  - repeat constructor.
Defined.

(** Opening a file in the editor and saving it back unchanged: when the
    file holds valid UTF-8 with no carriage return, the loader returns its
    text and saving that text leaves the file system exactly as it was. *)
Theorem load_then_save_changes_nothing st p bs t :
  read_bytes (st_fs st) (st_cwd st) p = Ok bs ->
  decode bs = Some t ->
  13 ∉ bs ->
  fst (load_file_content p st) = Ok t
  /\ snd (load_file_content p st) = st
  /\ st_fs (snd (save_file_content p t st)) = st_fs st
  /\ st_notes (snd (save_file_content p t st))
     = st_notes st ++ [st_success ("Successfully saved changes to " +:+ p)].
Proof.
  intros Hr Hd Hcr.
  pose proof (encode_decode _ _ Hd) as He.
  assert (Ht : 13 ∉ t) by (intros Hin; by apply Hcr, (encode_keeps_cr t)).
  rewrite load_file_content_cases, Hr, Hd. simpl.
  rewrite (universal_newlines_no_cr t Ht).
  apply read_bytes_inv in Hr as (q & Hq & Hdir & Hl).
  rewrite save_file_content_cases, Hq, Hdir, He. simpl.
  by rewrite (fs_update_same _ _ _ Hl).
Qed.

Lemma load_then_save_changes_nothing_witness :
  fst (load_file_content "Problems/42_Two_Sum/solution.py" edited_state)
  = Ok (text_of_string "def solution(): return 1")
  /\ snd (load_file_content "Problems/42_Two_Sum/solution.py" edited_state)
     = edited_state
  /\ st_fs (snd (save_file_content "Problems/42_Two_Sum/solution.py"
                   (text_of_string "def solution(): return 1") edited_state))
     = st_fs edited_state
  /\ st_notes (snd (save_file_content "Problems/42_Two_Sum/solution.py"
                      (text_of_string "def solution(): return 1") edited_state))
     = st_notes edited_state
       ++ [st_success ("Successfully saved changes to "
                       +:+ "Problems/42_Two_Sum/solution.py")].
Proof.
  apply (load_then_save_changes_nothing edited_state
           "Problems/42_Two_Sum/solution.py"
           (text_of_string "def solution(): return 1")
           (text_of_string "def solution(): return 1")).
  - reflexivity.
  - reflexivity.
  - apply (bool_decide_unpack _). vm_compute. exact I.
Defined.

End IOMore.

(** * More on the delimiter rewrite *)
Module RenderMore.
Import App Props Samples RenderFacts OnePass.

Lemma sub_head b r c l :
  r <> [] -> head r <> Some c ->
  head (re_sub_escaped b r l) = Some c -> head l = Some c.
Proof.
  intros Hne Hr. destruct l as [|a [|d l]]; try done.
  destruct (sub_cons_cases b r a d l) as [(-> & -> & ->)|(_ & ->)]; [|done].
  intros H. by destruct r.
Qed.

Lemma sub_cons_92_head b r l :
  head l <> Some b -> re_sub_escaped b r (92 :: l) = 92 :: re_sub_escaped b r l.
Proof.
  destruct l as [|c l]; [done|]. simpl head. intros H.
  apply sub_cons_92_ne. by intros ->.
Qed.

Lemma replace_delimiters_cons_ne a l :
  a <> 92 -> replace_delimiters (a :: l) = a :: replace_delimiters l.
Proof.
  intros Ha. unfold replace_delimiters. by rewrite !sub_cons_ne.
Qed.

Lemma replace_delimiters_inline b l :
  b = 40 \/ b = 41 ->
  replace_delimiters (92 :: b :: l) = 36 :: replace_delimiters l.
Proof.
  unfold replace_delimiters. intros [->| ->].
  - rewrite sub_cons_match. simpl app. by rewrite !sub_cons_ne.
  - rewrite sub_cons_92_ne, (sub_cons_ne 40) by done.
    rewrite sub_cons_match. simpl app. by rewrite !sub_cons_ne.
Qed.

Lemma replace_delimiters_display b l :
  b = 91 \/ b = 93 ->
  replace_delimiters (92 :: b :: l) = 36 :: 36 :: replace_delimiters l.
Proof.
  unfold replace_delimiters. intros [->| ->].
  - rewrite sub_cons_92_ne, (sub_cons_ne 40) by done.
    rewrite sub_cons_92_ne, (sub_cons_ne 41) by done.
    rewrite sub_cons_match. simpl app. by rewrite !sub_cons_ne.
  - rewrite sub_cons_92_ne, (sub_cons_ne 40) by done.
    rewrite sub_cons_92_ne, (sub_cons_ne 41) by done.
    rewrite sub_cons_92_ne, (sub_cons_ne 91) by done.
    by rewrite sub_cons_match.
Qed.

Lemma replace_delimiters_backslash l :
  head l <> Some 40 -> head l <> Some 41 ->
  head l <> Some 91 -> head l <> Some 93 ->
  replace_delimiters (92 :: l) = 92 :: replace_delimiters l.
Proof.
  intros H40 H41 H91 H93. unfold replace_delimiters.
  rewrite (sub_cons_92_head 40) by done.
  rewrite (sub_cons_92_head 41)
    by (intros H; by apply sub_head in H).
  rewrite (sub_cons_92_head 91)
    by (intros H; by do 2 apply sub_head in H).
  rewrite (sub_cons_92_head 93)
    by (intros H; by do 3 apply sub_head in H).
  reflexivity.
Qed.

Lemma rewrite_once_cons a b l :
  rewrite_once (a :: b :: l)
  = if (a =? 92) && ((b =? 40) || (b =? 41))
    then 36 :: rewrite_once l
    else if (a =? 92) && ((b =? 91) || (b =? 93))
    then 36 :: 36 :: rewrite_once l
    else a :: rewrite_once (b :: l).
Proof. reflexivity. Qed.

(** The four substitutions never interfere: run one after the other, as the
    source does, they give what a single scan gives that replaces each
    delimiter where it stands. *)
Theorem replace_delimiters_is_one_pass t :
  replace_delimiters t = rewrite_once t.
Proof.
  induction t as [|a|a b l IHl IHb] using list_ind2; try reflexivity.
  rewrite rewrite_once_cons.
  destruct (N.eqb_spec a 92) as [->|Ha]; simpl andb.
  - destruct (N.eqb_spec b 40) as [->|H40]; simpl orb.
    { rewrite replace_delimiters_inline by auto. by rewrite IHl. }
    destruct (N.eqb_spec b 41) as [->|H41]; simpl orb.
    { rewrite replace_delimiters_inline by auto. by rewrite IHl. }
    destruct (N.eqb_spec b 91) as [->|H91]; simpl orb.
    { rewrite replace_delimiters_display by auto. by rewrite IHl. }
    destruct (N.eqb_spec b 93) as [->|H93]; simpl orb.
    { rewrite replace_delimiters_display by auto. by rewrite IHl. }
    rewrite replace_delimiters_backslash by (simpl; congruence).
    by rewrite IHb.
  - rewrite replace_delimiters_cons_ne by done. by rewrite IHb.
Qed.

(** Rewriting what has been rewritten changes nothing. *)
Theorem replace_delimiters_idempotent t :
  replace_delimiters (replace_delimiters t) = replace_delimiters t.
Proof. apply replace_delimiters_id, replace_delimiters_free. Qed.

End RenderMore.

(** * More on the scaffolder *)
Module ScaffoldMore.
Import Py Scan FS Utf8 App Props Samples MoreSamples.
Import StringFacts FSFacts SaveLoad ScaffoldFacts IOMore.

Lemma replace_char_idempotent s :
  replace_char " " "_" (replace_char " " "_" s) = replace_char " " "_" s.
Proof.
  induction s as [|c s IH]; simpl; [done|]. rewrite IH. f_equal.
  destruct (Ascii.eqb c " ") eqn:E; [reflexivity | by rewrite E].
Qed.

Lemma replace_char_empty s :
  String.eqb (replace_char " " "_" s) "" = String.eqb s "".
Proof. by destruct s. Qed.

(** Spaces and underscores are the same to the scaffolder: a name and the
    name with its spaces already replaced lead to the same directory, and
    the two calls do the same thing. *)
Theorem scaffold_space_underscore_collide st n s button :
  dir_name_of n (replace_char " " "_" s) = dir_name_of n s
  /\ create_new_problem n (replace_char " " "_" s) button st
     = create_new_problem n s button st.
Proof.
  assert (H : dir_name_of n (replace_char " " "_" s) = dir_name_of n s)
    by (unfold dir_name_of; by rewrite replace_char_idempotent).
  split; [exact H|].
  unfold create_new_problem. by rewrite replace_char_empty, H.
Qed.

(** ** A failure half way *)

Lemma scaffold_second_write_fails st n s fs1 q :
  n <> 0 -> s <> "" ->
  os_makedirs (st_fs st) (st_cwd st) (os_path_join PROBLEMS_DIR (dir_name_of n s))
  = Ok fs1 ->
  resolve fs1 (st_cwd st) (os_path_join PROBLEMS_DIR (dir_name_of n s)) = Some q ->
  is_dir fs1 q = true ->
  is_dir fs1 (q ++ ["learn.md"]) = false ->
  is_dir fs1 (q ++ ["solution.py"]) = true ->
  create_new_problem n s true st
  = (Ok tt,
     add_note
       (st_error ("Error creating problem: "
                  +:+ exc_str (EISDIR (os_path_join
                                         (os_path_join PROBLEMS_DIR (dir_name_of n s))
                                         "solution.py"))))
       (set_fs (fs_update fs1 (q ++ ["learn.md"]) (File learn_md_bytes)) st)).
Proof.
  intros Hn Hs Hmk Hq Hd HL HS.
  unfold create_new_problem. rewrite (truthy n s Hn Hs). cbv zeta.
  unfold try_except, bind at 1, makedirs. rewrite Hmk.
  unfold bind at 1.
  rewrite (write_text_ok (set_fs fs1 st) _ _ (q ++ ["learn.md"]) learn_md_bytes);
    [| by apply resolve_join; [| | apply plain_learn_md] | exact HL
     | exact encode_learn_md].
  unfold bind at 1.
  erewrite (write_text_is_dir _ _ _ (q ++ ["solution.py"]));
    [reflexivity | |]; simpl.
  - erewrite resolve_ext; [by apply resolve_join; [| | apply plain_solution_py]|].
    intros k. by apply is_dir_update_file.
  - by rewrite is_dir_update_file.
Qed.

(** No cleanup after a failure: when a directory stands where [solution.py]
    goes, the error is reported, yet [learn.md] has already been written and
    stays. *)
Theorem scaffold_failure_leaves_learn_md st n s :
  n <> 0 -> s <> "" ->
  let problem_path := os_path_join PROBLEMS_DIR (dir_name_of n s) in
  os_path_isdir (st_fs st) (st_cwd st) problem_path = true ->
  os_path_isdir (st_fs st) (st_cwd st) (os_path_join problem_path "learn.md")
  = false ->
  os_path_isdir (st_fs st) (st_cwd st) (os_path_join problem_path "solution.py")
  = true ->
  let st' := snd (create_new_problem n s true st) in
  read_bytes (st_fs st') (st_cwd st') (os_path_join problem_path "learn.md")
  = Ok learn_md_bytes
  /\ os_path_isdir (st_fs st') (st_cwd st')
       (os_path_join problem_path "solution.py") = true
  /\ st_notes st'
     = st_notes st
       ++ [st_error ("Error creating problem: "
                     +:+ exc_str (EISDIR (os_path_join problem_path "solution.py")))].
Proof.
  intros Hn Hs problem_path Hdir HL HS st'.
  pose proof (os_makedirs_existing _ _ _ Hdir) as Hmk.
  unfold os_path_isdir in Hdir, HL, HS.
  destruct (resolve _ _ problem_path) as [q|] eqn:Hq; [|done].
  rewrite (resolve_join _ _ _ _ _ Hq Hdir plain_learn_md) in HL.
  rewrite (resolve_join _ _ _ _ _ Hq Hdir plain_solution_py) in HS.
  subst st'.
  rewrite (scaffold_second_write_fails st n s (st_fs st) q); try done. simpl.
  assert (Hext : forall k,
            is_dir (fs_update (st_fs st) (q ++ ["learn.md"]) (File learn_md_bytes)) k
            = is_dir (st_fs st) k) by (intros k; by apply is_dir_update_file).
  repeat split.
  - eapply read_bytes_at;
      [ erewrite resolve_ext by exact Hext;
        by apply resolve_join; [| | apply plain_learn_md]
      | by destruct q | apply fs_lookup_update_eq ].
  - unfold os_path_isdir. erewrite resolve_ext by exact Hext.
    fold problem_path.
    rewrite (resolve_join _ _ _ _ _ Hq Hdir plain_solution_py).
    by rewrite Hext.
Qed.

Lemma scaffold_failure_leaves_learn_md_witness :
  read_bytes
    (st_fs (snd (create_new_problem 5 "Tree" true blocked_state)))
    (st_cwd (snd (create_new_problem 5 "Tree" true blocked_state)))
    (os_path_join (os_path_join PROBLEMS_DIR (dir_name_of 5 "Tree")) "learn.md")
  = Ok learn_md_bytes
  /\ os_path_isdir
       (st_fs (snd (create_new_problem 5 "Tree" true blocked_state)))
       (st_cwd (snd (create_new_problem 5 "Tree" true blocked_state)))
       (os_path_join (os_path_join PROBLEMS_DIR (dir_name_of 5 "Tree"))
          "solution.py") = true
  /\ st_notes (snd (create_new_problem 5 "Tree" true blocked_state))
     = st_notes blocked_state
       ++ [st_error ("Error creating problem: "
                     +:+ exc_str (EISDIR (os_path_join
                                            (os_path_join PROBLEMS_DIR
                                               (dir_name_of 5 "Tree"))
                                            "solution.py")))].
Proof.
  apply (scaffold_failure_leaves_learn_md blocked_state 5 "Tree");
    [lia | discriminate | reflexivity | reflexivity | reflexivity].
Defined.

(** ** Running the scaffolder again *)

Lemma scaffolded_again fs1 q : scaffolded (scaffolded fs1 q) q = scaffolded fs1 q.
Proof.
  unfold scaffolded at 1.
  rewrite (fs_update_same _ _ _ (lookup_scaffolded_learn fs1 q)).
  apply fs_update_same, lookup_scaffolded_solution.
Qed.

(** Once it has succeeded, scaffolding the same problem again succeeds
    again and leaves the file system as the first run left it. *)
Theorem scaffold_again_changes_nothing st n s :
  n <> 0 -> s <> "" ->
  let st1 := snd (create_new_problem n s true st) in
  st_notes st1
  = st_notes st ++ [st_success ("Created new problem: " +:+ dir_name_of n s)] ->
  let st2 := snd (create_new_problem n s true st1) in
  st_fs st2 = st_fs st1
  /\ st_notes st2
     = st_notes st1 ++ [st_success ("Created new problem: " +:+ dir_name_of n s)].
Proof.
  intros Hn Hs st1 Hnote st2.
  destruct (scaffold_outcome st n s Hn Hs)
    as [(fs1 & q & Hmk & Hq & Hd & HL & HS)|(msg & st' & Hrun & Hnotes)].
  - pose proof (scaffold_run st n s fs1 q Hn Hs Hmk Hq Hd HL HS) as Hrun.
    subst st2 st1. rewrite Hrun. simpl.
    assert (Hres : resolve (scaffolded fs1 q) (st_cwd st)
                     (os_path_join PROBLEMS_DIR (dir_name_of n s)) = Some q).
    { rewrite <- Hq. apply resolve_ext. intros k. by apply is_dir_scaffolded. }
    rewrite (scaffold_run _ n s (scaffolded fs1 q) q); simpl; try done.
    + by rewrite scaffolded_again.
    + apply os_makedirs_existing. unfold os_path_isdir.
      rewrite Hres. by rewrite is_dir_scaffolded.
    + by rewrite is_dir_scaffolded.
    + by rewrite is_dir_scaffolded.
    + by rewrite is_dir_scaffolded.
  - exfalso. subst st1. rewrite Hrun in Hnote. simpl in Hnote.
    rewrite Hnotes in Hnote. by apply app_inv_head in Hnote.
Qed.

Lemma scaffold_again_changes_nothing_witness :
  st_fs (snd (create_new_problem 42 "Two Sum" true
                (snd (create_new_problem 42 "Two Sum" true empty_state))))
  = st_fs (snd (create_new_problem 42 "Two Sum" true empty_state))
  /\ st_notes (snd (create_new_problem 42 "Two Sum" true
                      (snd (create_new_problem 42 "Two Sum" true empty_state))))
     = st_notes (snd (create_new_problem 42 "Two Sum" true empty_state))
       ++ [st_success ("Created new problem: " +:+ dir_name_of 42 "Two Sum")].
Proof.
  apply (scaffold_again_changes_nothing empty_state 42 "Two Sum");
    [lia | discriminate | reflexivity].
Defined.

(** ** A regular file in place of the problems root *)

(** When the problems root is a regular file, the scaffolder creates
    nothing: the file system is as it was, and the error it reports is the
    description of a [NotADirectoryError], errno 20, for some path. *)
Theorem scaffold_root_is_a_file st n s d :
  n <> 0 -> s <> "" ->
  is_dir (st_fs st) (st_cwd st) = true ->
  fs_lookup (st_fs st) (st_cwd st ++ ["Problems"]) = Some (File d) ->
  let st' := snd (create_new_problem n s true st) in
  st_fs st' = st_fs st
  /\ exists p,
       st_notes st'
       = st_notes st
         ++ [st_error ("Error creating problem: " +:+ exc_str (ENOTDIR p))].
Proof.
  intros Hn Hs Hcwd Hroot st'.
  assert (Hmk : os_makedirs (st_fs st) (st_cwd st)
                  (os_path_join PROBLEMS_DIR (dir_name_of n s))
                = Raised (ENOTDIR (os_path_join PROBLEMS_DIR (dir_name_of n s)))).
  { rewrite problem_path_eq. fold (dir_name_of n s).
    unfold os_makedirs. rewrite decide_False by done.
    change (start_of (st_cwd st) ("Problems/" +:+ dir_name_of n s))
      with (st_cwd st).
    rewrite Hcwd.
    change ("Problems/" +:+ dir_name_of n s)
      with ("Problems" +:+ "/" +:+ dir_name_of n s) at 1.
    rewrite split_sep_app. change (split_sep "Problems") with ["Problems"].
    simpl app. simpl makedirs_from.
    rewrite step_plain by (by repeat split).
    assert (is_dir (st_fs st) (st_cwd st ++ ["Problems"]) = false) as ->.
    { unfold is_dir. rewrite Hroot. by destruct (st_cwd st). }
    rewrite Hroot.
    pose proof (split_sep_nonempty (dir_name_of n s)).
    by destruct (split_sep (dir_name_of n s)). }
  assert (Hleft : os_makedirs_left (st_fs st) (st_cwd st)
                    (os_path_join PROBLEMS_DIR (dir_name_of n s))
                  = st_fs st).
  { rewrite problem_path_eq. fold (dir_name_of n s).
    unfold os_makedirs_left. rewrite decide_False by done.
    change (start_of (st_cwd st) ("Problems/" +:+ dir_name_of n s))
      with (st_cwd st).
    rewrite Hcwd.
    change ("Problems/" +:+ dir_name_of n s)
      with ("Problems" +:+ "/" +:+ dir_name_of n s) at 1.
    rewrite split_sep_app. change (split_sep "Problems") with ["Problems"].
    simpl app. simpl makedirs_left.
    rewrite step_plain by (by repeat split).
    assert (is_dir (st_fs st) (st_cwd st ++ ["Problems"]) = false) as ->.
    { unfold is_dir. rewrite Hroot. by destruct (st_cwd st). }
    by rewrite Hroot. }
  assert (Hrun : create_new_problem n s true st
                 = (Ok tt,
                    add_note
                      (st_error
                         ("Error creating problem: "
                          +:+ exc_str (ENOTDIR (os_path_join PROBLEMS_DIR
                                                  (dir_name_of n s)))))
                      (set_fs (st_fs st) st))).
  { unfold create_new_problem. rewrite (truthy n s Hn Hs). cbv zeta.
    unfold try_except, bind at 1, makedirs. by rewrite Hmk, Hleft. }
  subst st'. rewrite Hrun. simpl. split; [done|].
  by exists (os_path_join PROBLEMS_DIR (dir_name_of n s)).
Qed.

Lemma scaffold_root_is_a_file_witness :
  st_fs (snd (create_new_problem 3 "Heap" true root_file_state))
  = st_fs root_file_state
  /\ exists p,
       st_notes (snd (create_new_problem 3 "Heap" true root_file_state))
       = st_notes root_file_state
         ++ [st_error ("Error creating problem: " +:+ exc_str (ENOTDIR p))].
Proof.
  apply (scaffold_root_is_a_file root_file_state 3 "Heap"
           [110; 111; 116; 101; 115]);
    [lia | discriminate | reflexivity | reflexivity].
Defined.

End ScaffoldMore.

(** * More on the notebook executor *)
Module ExecMore.
Import FS App Props Samples MoreSamples StringFacts ExecFacts IOMore.

Section MoreExec.
Variable get_code : loader -> list N -> exn + list stmt.

Lemma load_code_raises st p l e :
  fst (load_code get_code l p st) = Raised e ->
  load_code get_code l p st = (Raised e, st).
Proof.
  intros H. pose proof (load_code_state get_code st p l) as Hst.
  destruct (load_code get_code l p st) as [r st']. simpl in *. by subst.
Qed.

Lemma module_from_spec_plain st notebook_path l :
  l <> ExtensionFileLoader ->
  module_from_spec get_code (mkSpec "notebook_module" notebook_path (Some l)) st
  = (Ok (mkModule "notebook_module" notebook_path), st).
Proof. by destruct l. Qed.

Lemma module_from_spec_error st spec e :
  fst (module_from_spec get_code spec st) = Raised e ->
  module_from_spec get_code spec st = (Raised e, st)
  /\ is_Exception e = true.
Proof.
  unfold module_from_spec. destruct (spec_loader spec) as [[]|]; try done.
  destruct (load_code _ _ _ _) as [[]]; simpl; [done|].
  by intros [= <-].
Qed.

Lemma execute_notebook_no_spec st notebook_path :
  spec_from_file_location "notebook_module" notebook_path = None ->
  execute_notebook get_code notebook_path st
  = (Raised (wrapped (mkExn ImportError
                        ("Could not load spec for " +:+ notebook_path))), st).
Proof.
  intros Hs. unfold execute_notebook, try_except, bind at 1. by rewrite Hs.
Qed.

Lemma execute_notebook_no_module st notebook_path spec e :
  spec_from_file_location "notebook_module" notebook_path = Some spec ->
  fst (module_from_spec get_code spec st) = Raised e ->
  execute_notebook get_code notebook_path st = (Raised (wrapped e), st).
Proof.
  intros Hs Hm. apply module_from_spec_error in Hm as [Hm He].
  unfold execute_notebook, try_except, bind at 1. rewrite Hs.
  unfold ret at 1, bind at 1. by rewrite Hm, He.
Qed.

(** Every failure the handler can catch leaves as one kind of error: what
    [execute_notebook] raises is an [Exception] whose message starts with
    the fixed prefix, never the [ImportError], [OSError] or [SyntaxError]
    behind it.  (Only what is no [Exception] passes unwrapped.) *)
Theorem execute_notebook_errors_are_wrapped st notebook_path e :
  fst (execute_notebook get_code notebook_path st) = Raised e ->
  is_Exception e = true ->
  exc_cls e = Exception
  /\ exists cause, exc_str e = "Error executing notebook: " +:+ cause.
Proof.
  destruct (spec_from_file_location "notebook_module" notebook_path)
    as [spec|] eqn:Hs.
  - destruct (spec_from_file_location_inv _ _ _ Hs) as [l ->].
    destruct (fst (module_from_spec get_code
                     (mkSpec "notebook_module" notebook_path (Some l)) st))
      as [m|e'] eqn:Hm.
    + rewrite (execute_notebook_block get_code st notebook_path l m Hs Hm).
      unfold redirect_stdout.
      destruct (exec_module get_code l m _) as [[u|e0] st']; simpl; [done|].
      intros [= <-]. destruct (is_Exception e0) eqn:E0; [|congruence].
      intros _. split; [done|]. by eexists.
    + rewrite (execute_notebook_no_module st notebook_path _ e' Hs Hm).
      intros [= <-] _. split; [done|]. by eexists.
  - rewrite (execute_notebook_no_spec st notebook_path Hs).
    intros [= <-] _. split; [done|]. by eexists.
Qed.

(** What is no [Exception] (a [SystemExit], say) passes through the handler
    as it is; the registration has happened and [sys.stdout] is back. *)
Theorem execute_notebook_passes_base_exception st notebook_path l prog e :
  loads_as get_code st notebook_path l prog ->
  script_error prog = Some e ->
  is_Exception e = false ->
  execute_notebook get_code notebook_path st
  = (Raised e, register (mkModule "notebook_module" notebook_path) st)
  /\ sys_stdout (snd (execute_notebook get_code notebook_path st))
     = sys_stdout st.
Proof.
  intros Hl He Hc.
  by rewrite (execute_notebook_runs get_code st notebook_path l prog Hl), He, Hc.
Qed.

(** A script that ends normally: the call returns everything the script
    wrote, in order, and nothing else, whatever [sys.stdout] held before. *)
Theorem execute_notebook_returns_output st notebook_path l prog :
  loads_as get_code st notebook_path l prog ->
  script_error prog = None ->
  fst (execute_notebook get_code notebook_path st) = Ok (script_output prog)
  /\ sys_stdout (snd (execute_notebook get_code notebook_path st))
     = sys_stdout st.
Proof.
  intros Hl He.
  by rewrite (execute_notebook_runs get_code st notebook_path l prog Hl), He.
Qed.

(** A source that cannot be obtained (the file is missing or is a directory,
    or it does not compile): the failure comes from [exec_module], so the
    module is registered already, and the error is wrapped like any other. *)
Theorem execute_notebook_load_failure st notebook_path l e :
  spec_from_file_location "notebook_module" notebook_path
  = Some (mkSpec "notebook_module" notebook_path (Some l)) ->
  l <> ExtensionFileLoader ->
  fst (load_code get_code l notebook_path st) = Raised e ->
  is_Exception e = true ->
  execute_notebook get_code notebook_path st
  = (Raised (mkExn Exception ("Error executing notebook: " +:+ exc_str e)),
     register (mkModule "notebook_module" notebook_path) st).
Proof.
  intros Hs Hl He Hc.
  rewrite (execute_notebook_block get_code st notebook_path l
             (mkModule "notebook_module" notebook_path) Hs)
    by (by rewrite module_from_spec_plain).
  unfold redirect_stdout, exec_module, bind.
  assert (Hload : load_code get_code l notebook_path
                    (set_stdout "" (register (mkModule "notebook_module"
                                                notebook_path) st))
                  = (Raised e, set_stdout ""
                       (register (mkModule "notebook_module" notebook_path) st))).
  { apply load_code_raises. revert He. unfold load_code, bind, lift. simpl.
    destruct (read_bytes _ _ _); [|done]. by destruct (get_code l a). }
  simpl mod_file. rewrite Hload. simpl. rewrite Hc. by destruct st.
Qed.

End MoreExec.

Lemma execute_notebook_errors_are_wrapped_witness :
  exc_cls (mkExn Exception "Error executing notebook: boom") = Exception
  /\ exists cause,
       exc_str (mkExn Exception "Error executing notebook: boom")
       = "Error executing notebook: " +:+ cause.
Proof.
  apply (execute_notebook_errors_are_wrapped sample_get_code notebook_state
           "Problems/interactive_learn/problem-2/notebook.py");
    reflexivity.
Defined.

Lemma execute_notebook_passes_base_exception_witness :
  execute_notebook more_get_code
    "Problems/interactive_learn/problem-5/notebook.py" exit_state
  = (Raised system_exit,
     register (mkModule "notebook_module"
                 "Problems/interactive_learn/problem-5/notebook.py") exit_state)
  /\ sys_stdout
       (snd (execute_notebook more_get_code
               "Problems/interactive_learn/problem-5/notebook.py" exit_state))
     = sys_stdout exit_state.
Proof.
  apply (execute_notebook_passes_base_exception more_get_code exit_state
           "Problems/interactive_learn/problem-5/notebook.py" SourceFileLoader
           [Print "bye"; Raise system_exit] system_exit).
  - split; [reflexivity|]. exists exit_source. split; reflexivity.
  - reflexivity.
  - reflexivity.
Defined.

Lemma execute_notebook_returns_output_witness :
  fst (execute_notebook sample_get_code
         "Problems/interactive_learn/problem-1/notebook.py" notebook_state)
  = Ok (script_output [Print "hello"; Print "world"])
  /\ sys_stdout
       (snd (execute_notebook sample_get_code
               "Problems/interactive_learn/problem-1/notebook.py"
               notebook_state))
     = sys_stdout notebook_state.
Proof.
  apply (execute_notebook_returns_output sample_get_code notebook_state
           "Problems/interactive_learn/problem-1/notebook.py" SourceFileLoader
           [Print "hello"; Print "world"]).
  - split; [reflexivity|]. exists hello_source. split; reflexivity.
  - reflexivity.
Defined.

Lemma execute_notebook_load_failure_witness :
  execute_notebook sample_get_code
    "Problems/interactive_learn/problem-9/notebook.py" notebook_state
  = (Raised (mkExn Exception
               ("Error executing notebook: "
                +:+ exc_str (ENOENT "Problems/interactive_learn/problem-9/notebook.py"))),
     register (mkModule "notebook_module"
                 "Problems/interactive_learn/problem-9/notebook.py")
       notebook_state).
Proof.
  apply (execute_notebook_load_failure sample_get_code notebook_state
           "Problems/interactive_learn/problem-9/notebook.py" SourceFileLoader
           (ENOENT "Problems/interactive_learn/problem-9/notebook.py"));
    [reflexivity | discriminate | reflexivity | reflexivity].
Defined.

End ExecMore.

(** * Facts about the pages *)
Module MainFacts.
Import Py Scan FS Utf8 App Props Samples MoreSamples Main MainProps.
Import StringFacts FSFacts SaveLoad ScaffoldFacts ExecFacts IOMore ExecMore.

(** ** [os.path.splitext] *)

Lemma has_char_app c a b : has_char c (a +:+ b) = has_char c a || has_char c b.
Proof.
  induction a as [|x a IH]; [done|].
  rewrite append_cons. simpl. by rewrite IH, orb_assoc.
Qed.

Lemma rsplit_char_None c s : rsplit_char c s = None -> has_char c s = false.
Proof.
  induction s as [|a s IH]; simpl; [done|].
  destruct (rsplit_char c s) as [[]|]; [done|].
  destruct (Ascii.eqb a c); [done|]. intros _. by rewrite IH.
Qed.

Lemma rsplit_char_Some c s a b :
  rsplit_char c s = Some (a, b) ->
  s = a +:+ b /\ exists b', b = String c b' /\ has_char c b' = false.
Proof.
  revert a b. induction s as [|x s IH]; intros a b; simpl; [done|].
  destruct (rsplit_char c s) as [[a0 b0]|] eqn:E.
  - intros [= <- <-]. destruct (IH _ _ eq_refl) as (-> & Hb). by split.
  - destruct (Ascii.eqb_spec x c) as [->|]; [|done].
    intros [= <- <-]. split; [done|]. exists s. split; [done|].
    by apply rsplit_char_None.
Qed.

(** The two parts [os.path.splitext] returns put together give the path
    back; the extension is empty, or it is a dot followed by characters
    among which there is neither a dot nor a separator. *)
Theorem os_path_splitext_parts p :
  fst (os_path_splitext p) +:+ snd (os_path_splitext p) = p
  /\ (snd (os_path_splitext p) = ""
      \/ exists e,
           snd (os_path_splitext p) = String "." e
           /\ has_char "." e = false /\ has_char "/" e = false).
Proof.
  unfold os_path_splitext.
  assert (Hname : exists dir name,
            match rsplit_char "/" p with
            | Some (d, String _ n) => (d +:+ "/", n)
            | _ => ("", p)
            end = (dir, name)
            /\ p = dir +:+ name
            /\ has_char "/" name = false).
  { destruct (rsplit_char "/" p) as [[d b]|] eqn:E.
    - apply rsplit_char_Some in E as (-> & b' & -> & Hb').
      exists (d +:+ "/"), b'. by rewrite append_assoc.
    - exists "", p. repeat split. by apply rsplit_char_None. }
  destruct Hname as (dir & name & -> & -> & Hsep).
  destruct (rsplit_char "." name) as [[root ext]|] eqn:E;
    [|rewrite append_empty_r; auto].
  destruct (all_dots root); [rewrite append_empty_r; auto|].
  apply rsplit_char_Some in E as (-> & e & -> & He). simpl.
  split; [by rewrite append_assoc|].
  right. exists e. split; [done|]. split; [done|].
  rewrite has_char_app in Hsep. by apply orb_false_iff in Hsep as [_ Hsep].
Qed.

(** ** The files the browser offers *)

Lemma supported_files_unfold st problem_path :
  supported_files problem_path st
  = match os_listdir (st_fs st) (st_cwd st) problem_path with
    | Ok names =>
        (Ok (filter (fun f => snd (os_path_splitext f) ∈ SUPPORTED_EXTENSIONS)
               names), st)
    | Raised e => (Raised e, st)
    end.
Proof.
  unfold supported_files, bind, lift, ret. by destruct (os_listdir _ _ _).
Qed.

(** Every file the browser offers is an entry of the problem directory
    whose extension is one of the three supported ones, and the editor has a
    language of its own for it, never the fallback. *)
Theorem offered_files_have_a_language st problem_path files f :
  fst (supported_files problem_path st) = Ok files ->
  f ∈ files ->
  (exists names,
     os_listdir (st_fs st) (st_cwd st) problem_path = Ok names /\ f ∈ names)
  /\ snd (os_path_splitext f) ∈ SUPPORTED_EXTENSIONS
  /\ editor_lang (snd (os_path_splitext f)) <> "text".
Proof.
  rewrite supported_files_unfold.
  destruct (os_listdir _ _ _) as [names|e]; [|done]. simpl.
  intros [= <-] [Hext Hin]%list_elem_of_filter.
  split; [by exists names|]. split; [exact Hext|].
  unfold SUPPORTED_EXTENSIONS in Hext.
  repeat (apply elem_of_cons in Hext as [->|Hext]); try done.
  by apply elem_of_nil in Hext.
Qed.

Lemma offered_files_have_a_language_witness :
  (exists names,
     os_listdir (st_fs edited_state) (st_cwd edited_state)
       "Problems/42_Two_Sum" = Ok names /\ "solution.py" ∈ names)
  /\ snd (os_path_splitext "solution.py") ∈ SUPPORTED_EXTENSIONS
  /\ editor_lang (snd (os_path_splitext "solution.py")) <> "text".
Proof.
  apply (offered_files_have_a_language edited_state "Problems/42_Two_Sum"
           ["learn.md"; "solution.py"] "solution.py").
  - reflexivity.
  - apply (bool_decide_unpack _). vm_compute. exact I.
Defined.






(** ** The selector of the Interactive Learn page *)

Lemma has_char_rsplit_None c s : has_char c s = false -> rsplit_char c s = None.
Proof.
  induction s as [|a r IH]; simpl; [done|].
  intros [Ha Hr]%orb_false_iff. by rewrite (IH Hr), Ha.
Qed.

Lemma rsplit_char_last c a b :
  has_char c b = false ->
  rsplit_char c (a +:+ String c b) = Some (a, String c b).
Proof.
  intros Hb. induction a as [|x a IH].
  - change ("" +:+ String c b) with (String c b). simpl.
    by rewrite (has_char_rsplit_None c b Hb), Ascii.eqb_refl.
  - rewrite append_cons. simpl. by rewrite IH.
Qed.

Lemma basename_join_learn name :
  has_char "/" name = false ->
  os_path_basename (os_path_join interactive_learn_dir name) = name.
Proof.
  intros Hn.
  assert (Hs : startswith_char name "/" = false).
  { destruct name as [|a r]; [done|]. simpl in *.
    by apply orb_false_iff in Hn as [-> _]. }
  unfold os_path_join. rewrite Hs.
  change (interactive_learn_dir) with "Problems/interactive_learn".
  rewrite decide_False by done.
  change (endswith_char "Problems/interactive_learn" "/") with false.
  cbv iota. unfold os_path_basename.
  change ("Problems/interactive_learn" +:+ "/" +:+ name)
    with ("Problems/interactive_learn" +:+ String "/" name).
  by rewrite (rsplit_char_last "/" _ name Hn).
Qed.

Lemma has_sep_has_char s : has_char "/" s = has_sep s.
Proof. induction s as [|a r IH]; [done|]. simpl. by rewrite IH. Qed.

(** The selector offers exactly the entries of the interactive_learn
    directory whose name starts with [problem-], under their own names and
    in the order of the enumeration: taking the base name undoes the join
    the glob made.  A directory that cannot be listed gives an empty
    selector and no error, where the scanner of the browser raises. *)
Theorem learn_options_are_entry_names st :
  (forall names,
     os_listdir (st_fs st) (st_cwd st) interactive_learn_dir = Ok names ->
     Forall (fun n => has_sep n = false) names) ->
  learn_options st
  = (Ok match os_listdir (st_fs st) (st_cwd st) interactive_learn_dir with
        | Ok names => List.filter (String.prefix "problem-") names
        | Raised _ => []
        end, st).
Proof.
  intros Hplain.
  unfold learn_options, glob_learn_dirs, bind, get, ret. f_equal. f_equal.
  destruct (os_listdir _ _ _) as [names|e] eqn:Hls; [|done].
  specialize (Hplain names eq_refl). clear Hls.
  induction Hplain as [|n names Hn _ IH]; [done|]. simpl.
  destruct (String.prefix "problem-" n); simpl; [|exact IH].
  rewrite <- has_sep_has_char in Hn.
  by rewrite (basename_join_learn n Hn), IH.
Qed.

Lemma learn_options_are_entry_names_witness :
  learn_options notebook_state
  = (Ok match os_listdir (st_fs notebook_state) (st_cwd notebook_state)
                interactive_learn_dir with
        | Ok names => List.filter (String.prefix "problem-") names
        | Raised _ => []
        end, notebook_state).
Proof.
  apply (learn_options_are_entry_names notebook_state).
  intros names [= <-]. repeat constructor.
Defined.

(** ** The notebook path *)

Lemma length_append a b :
  String.length (a +:+ b) = (String.length a + String.length b)%nat.
Proof. induction a as [|x a IH]; [done|]. rewrite append_cons. simpl. lia. Qed.

Lemma substring_append_skip a b k m :
  String.substring (String.length a + k) m (a +:+ b) = String.substring k m b.
Proof. induction a as [|x a IH]; [done|]. rewrite append_cons. simpl. exact IH. Qed.

Lemma endswith_append a b suffix :
  (String.length suffix <= String.length b)%nat ->
  endswith (a +:+ b) suffix = endswith b suffix.
Proof.
  intros Hle. unfold endswith. rewrite length_append.
  replace (String.length a + String.length b - String.length suffix)%nat
    with (String.length a + (String.length b - String.length suffix))%nat by lia.
  rewrite substring_append_skip. f_equal.
  apply eq_true_iff_eq. rewrite !Nat.leb_le. lia.
Qed.

Lemma notebook_path_suffix selected_learn :
  exists a, notebook_path_of selected_learn = a +:+ "notebook.py".
Proof.
  unfold notebook_path_of.
  set (d := os_path_join (os_path_join PROBLEMS_DIR "interactive_learn")
              selected_learn).
  unfold os_path_join at 1. simpl startswith_char. cbv iota.
  destruct (decide (d = "")); [by exists ""|].
  destruct (endswith_char d "/"); [by exists d|].
  exists (d +:+ "/"). by rewrite <- append_assoc.
Qed.

Section PageFacts.
Variable get_code : loader -> list N -> exn + list stmt.

(** Whatever is selected, the path the page hands to the executor ends in
    [.py], so importlib gives it a source loader: the two "Could not load"
    branches of [execute_notebook] cannot be taken from the page, and every
    run leaves the module registered. *)
Theorem notebook_path_gets_source_loader st selected_learn :
  let notebook_path := notebook_path_of selected_learn in
  spec_from_file_location "notebook_module" notebook_path
  = Some (mkSpec "notebook_module" notebook_path (Some SourceFileLoader))
  /\ snd (execute_notebook get_code notebook_path st)
     = register (mkModule "notebook_module" notebook_path) st.
Proof.
  intros notebook_path.
  assert (Hs : spec_from_file_location "notebook_module" notebook_path
               = Some (mkSpec "notebook_module" notebook_path
                         (Some SourceFileLoader))).
  { subst notebook_path.
    destruct (notebook_path_suffix selected_learn) as [a Ha].
    unfold spec_from_file_location. rewrite Ha.
    rewrite !endswith_append by (simpl; lia). reflexivity. }
  split; [exact Hs|].
  by rewrite (execute_notebook_registered get_code st notebook_path
                SourceFileLoader (mkModule "notebook_module" notebook_path) Hs).
Qed.

Lemma os_path_exists_read fs cwd p bs :
  read_bytes fs cwd p = Ok bs -> os_path_exists fs cwd p = true.
Proof.
  intros (q & Hq & _ & Hl)%read_bytes_inv. unfold os_path_exists.
  rewrite Hq, Hl. rewrite bool_decide_true by done. apply orb_true_r.
Qed.

Lemma loads_as_notes st st' notebook_path l prog :
  st_fs st' = st_fs st -> st_cwd st' = st_cwd st ->
  loads_as get_code st notebook_path l prog ->
  loads_as get_code st' notebook_path l prog.
Proof. intros Hf Hc (Hs & bs & Hr & Hg). split; [done|]. exists bs. by rewrite Hf, Hc. Qed.

(** The Run Notebook handler on a notebook that loads, by how its script
    ends. *)
Lemma interactive_learn_run st selected_learn l prog :
  selected_learn <> "" ->
  let notebook_path := notebook_path_of selected_learn in
  loads_as get_code st notebook_path l prog ->
  exists content st0,
    load_file_content notebook_path st = (Ok content, st0)
    /\ interactive_learn_selected get_code (Some selected_learn) true st
       = let st1 := register (mkModule "notebook_module" notebook_path) st0 in
         match script_error prog with
         | None =>
             (Ok [st_code content "python"; st_text (script_output prog)],
              add_note (st_success "Notebook executed successfully!") st1)
         | Some e =>
             if is_Exception e
             then (Ok [st_code content "python"; st_info remediation_hint],
                   add_note (st_error ("Error executing notebook: "
                                       +:+ exc_str (wrapped e))) st1)
             else (Raised e, st1)
         end.
Proof.
  intros Hsel notebook_path Hl.
  pose proof Hl as (_ & bs & Hr & _).
  assert (exists content st0,
            load_file_content notebook_path st = (Ok content, st0)
            /\ st_fs st0 = st_fs st /\ st_cwd st0 = st_cwd st)
    as (content & st0 & Hload & Hf & Hc).
  { rewrite load_file_content_cases, Hr.
    destruct (decode bs); by eexists _, _. }
  exists content, st0. split; [exact Hload|].
  pose proof (loads_as_notes st st0 notebook_path l prog Hf Hc Hl) as Hl0.
  unfold interactive_learn_selected.
  apply String.eqb_neq in Hsel. rewrite Hsel.
  fold notebook_path. unfold bind at 1, get at 1.
  rewrite (os_path_exists_read _ _ _ bs Hr).
  unfold bind at 1. rewrite Hload.
  unfold try_except at 1, bind at 1.
  rewrite (execute_notebook_runs get_code st0 notebook_path l prog Hl0).
  destruct (script_error prog) as [e|]; [|done].
  destruct (is_Exception e) eqn:He; [done|]. by rewrite He.
Qed.

(** A failing notebook is reported with the prefix twice: the executor has
    already put "Error executing notebook: " before the cause, and the
    handler of the page puts it again before that message.  The page goes on
    and shows the code and the hint. *)
Theorem run_notebook_error_repeats_prefix st selected_learn l prog e :
  selected_learn <> "" ->
  loads_as get_code st (notebook_path_of selected_learn) l prog ->
  script_error prog = Some e ->
  is_Exception e = true ->
  let r := interactive_learn_selected get_code (Some selected_learn) true st in
  (exists content,
     fst (load_file_content (notebook_path_of selected_learn) st) = Ok content
     /\ fst r = Ok [st_code content "python"; st_info remediation_hint])
  /\ last (st_notes (snd r))
     = Some (st_error ("Error executing notebook: Error executing notebook: "
                       +:+ exc_str e)).
Proof.
  intros Hsel Hl He Hc r. subst r.
  destruct (interactive_learn_run st selected_learn l prog Hsel Hl)
    as (content & st0 & Hload & ->).
  rewrite He, Hc, Hload. simpl. split; [by exists content|].
  by rewrite last_snoc.
Qed.

(** A notebook that ends normally: the page shows its code and, as text,
    everything the script wrote, and reports the success; the module stays
    registered. *)
Theorem run_notebook_shows_output st selected_learn l prog :
  selected_learn <> "" ->
  loads_as get_code st (notebook_path_of selected_learn) l prog ->
  script_error prog = None ->
  let r := interactive_learn_selected get_code (Some selected_learn) true st in
  (exists content,
     fst (load_file_content (notebook_path_of selected_learn) st) = Ok content
     /\ fst r = Ok [st_code content "python"; st_text (script_output prog)])
  /\ last (st_notes (snd r)) = Some (st_success "Notebook executed successfully!")
  /\ sys_modules (snd r) !! "notebook_module"
     = Some (mkModule "notebook_module" (notebook_path_of selected_learn)).
Proof.
  intros Hsel Hl He r. subst r.
  destruct (interactive_learn_run st selected_learn l prog Hsel Hl)
    as (content & st0 & Hload & ->).
  rewrite He, Hload. simpl. split; [by exists content|].
  split; [by rewrite last_snoc | by rewrite lookup_insert_eq].
Qed.

End PageFacts.

Lemma run_notebook_error_repeats_prefix_witness :
  let r := interactive_learn_selected sample_get_code (Some "problem-2") true
             notebook_state in
  (exists content,
     fst (load_file_content (notebook_path_of "problem-2") notebook_state)
     = Ok content
     /\ fst r = Ok [st_code content "python"; st_info remediation_hint])
  /\ last (st_notes (snd r))
     = Some (st_error ("Error executing notebook: Error executing notebook: "
                       +:+ exc_str boom)).
Proof.
  apply (run_notebook_error_repeats_prefix sample_get_code notebook_state
           "problem-2" SourceFileLoader [Print "partial"; Raise boom] boom).
  - discriminate.
  - split; [reflexivity|]. exists failing_source. split; reflexivity.
  - reflexivity.
  - reflexivity.
Defined.

Lemma run_notebook_shows_output_witness :
  let r := interactive_learn_selected sample_get_code (Some "problem-1") true
             notebook_state in
  (exists content,
     fst (load_file_content (notebook_path_of "problem-1") notebook_state)
     = Ok content
     /\ fst r = Ok [st_code content "python";
                    st_text (script_output [Print "hello"; Print "world"])])
  /\ last (st_notes (snd r)) = Some (st_success "Notebook executed successfully!")
  /\ sys_modules (snd r) !! "notebook_module"
     = Some (mkModule "notebook_module" (notebook_path_of "problem-1")).
Proof.
  apply (run_notebook_shows_output sample_get_code notebook_state
           "problem-1" SourceFileLoader [Print "hello"; Print "world"]).
  - discriminate.
  - split; [reflexivity|]. exists hello_source. split; reflexivity.
  - reflexivity.
Defined.

End MainFacts.
